(** * Price history reconciliation, projection and mock generation

    A shallow embedding of the price logic of the buy-better-tool client:
    - [src/lib/product-context.tsx]: [parsePriceToNumber], [startTracking];
    - [src/components/PriceChart.tsx]: [generatePriceData],
      [projectFromHistory];
    - [src/lib/serp-api.ts]: [getPriceHistory].

    Conventions of the embedding.
    - A JavaScript [number] is a rational ([Q]); the values that the
      code rounds are integers injected into [Q].  The functions are
      given twice: in exact arithmetic, for the properties that no
      rounding of doubles can change, and in module [Rounded], where
      the result of every addition, subtraction, multiplication and
      division and every decimal literal is rounded to the nearest
      double ([Binary64.fl], ties to even), for the properties that
      depend on it.  [NaN] only arises in [parseFloat] and is modelled
      there as [None]; infinities are outside the model.
    - A JavaScript string is a [string] of 8-bit code units, read as
      UTF-8 where [trim] looks for white space; otherwise only the
      ASCII letters, the digits and the full stop are inspected by the
      code, every other unit is opaque.
    - [Math.random()] is a stream of draws [rnd : nat -> Q] read through a
      counter that the code advances by one at each call.
    - [new Date()] reads a clock giving milliseconds since the epoch; the
      time zone of the host is a parameter ([TimeZone]): [setDate] steps
      the local calendar day, [toISOString] prints the UTC date. *)

From Stdlib Require Import ZArith QArith Qround Qabs Qpower Lia Lqa String Ascii Bool List.
From Stdlib Require Qcanon.
Import ListNotations.
Local Open Scope Q_scope.

(** ** JavaScript built-ins used by the code *)

Module Js.

(** [Math.round]: nearest integer, ties towards plus infinity. *)
Definition Math_round (x : Q) : Q := inject_Z (Qfloor (x + (1 # 2))).

(** [Math.floor]. *)
Definition Math_floor (x : Q) : Q := inject_Z (Qfloor x).

(** [Math.max(a, b)]. *)
Definition Math_max (a b : Q) : Q := if Qle_bool a b then b else a.

(** [Math.abs]. *)
Definition Math_abs (x : Q) : Q := if Qle_bool 0 x then x else - x.

(** The source of [Math.random()]: draw number [k] is [rnd k]. *)
Definition Rng := nat -> Q.

(** A well-formed source only yields draws in [0, 1). *)
Definition unit_draws (rnd : Rng) : Prop := forall k, 0 <= rnd k /\ rnd k < 1.

(** [xs.reduce((a, b) => a + b, 0)]. *)
Definition sum (xs : list Q) : Q := fold_left Qplus xs 0.

(** [xs.slice(-n)]: the last [n] elements. *)
Definition slice_last {A} (n : nat) (xs : list A) : list A :=
  skipn (length xs - n) xs.

(** [xs[i] = f(xs[i])] for an index inside the array. *)
Fixpoint array_set {A} (xs : list A) (i : nat) (f : A -> A) : list A :=
  match xs, i with
  | [], _ => []
  | x :: rest, O => f x :: rest
  | x :: rest, S j => x :: array_set rest j f
  end.

(** *** Strings *)

Definition isDigit (c : ascii) : bool :=
  let n := nat_of_ascii c in (48 <=? n)%nat && (n <=? 57)%nat.

Definition isDot (c : ascii) : bool := (nat_of_ascii c =? 46)%nat.

Definition isUpper (c : ascii) : bool :=
  let n := nat_of_ascii c in (65 <=? n)%nat && (n <=? 90)%nat.

Definition lowerChar (c : ascii) : ascii :=
  if isUpper c then ascii_of_nat (nat_of_ascii c + 32) else c.

(** [s.toLowerCase()]. *)
Fixpoint toLowerCase (s : string) : string :=
  match s with
  | EmptyString => EmptyString
  | String c rest => String (lowerChar c) (toLowerCase rest)
  end.

Fixpoint startsWith (s pre : string) : bool :=
  match pre, s with
  | EmptyString, _ => true
  | String _ _, EmptyString => false
  | String p pre', String c s' => Ascii.eqb p c && startsWith s' pre'
  end.

(** [s.includes(sub)]. *)
Fixpoint includes (s sub : string) : bool :=
  startsWith s sub ||
  match s with
  | EmptyString => false
  | String _ rest => includes rest sub
  end.

(** [s.replace(/[^0-9.]/g, '')]. *)
Fixpoint stripNonNumeric (s : string) : string :=
  match s with
  | EmptyString => EmptyString
  | String c rest =>
      if isDigit c || isDot c then String c (stripNonNumeric rest)
      else stripNonNumeric rest
  end.

Definition digitValue (c : ascii) : Z := (Z.of_nat (nat_of_ascii c) - 48)%Z.

(** Reads a run of decimal digits: the number read so far, how many
    digits were read, and the unread rest. *)
Fixpoint readDigits (s : string) (acc : Z) (count : nat) : Z * nat * string :=
  match s with
  | String c rest =>
      if isDigit c then readDigits rest (10 * acc + digitValue c)%Z (S count)
      else (acc, count, s)
  | EmptyString => (acc, count, s)
  end.

(** [parseFloat(s)] on the strings it is given here, which consist of
    digits and full stops only (so no sign, white space, exponent or
    [Infinity] can occur): the longest prefix of the form [digits],
    [digits.], [digits.digits] or [.digits] is the value; [None] is
    [NaN], returned when no prefix has one of these forms. *)
Definition parseFloat (s : string) : option Q :=
  let '(ip, ni, r1) := readDigits s 0 0 in
  match r1 with
  | String c r2 =>
      if isDot c then
        let '(fp, nf, _) := readDigits r2 0 0 in
        match ni, nf with
        | O, O => None
        | _, _ => Some (inject_Z ip + inject_Z fp / inject_Z (10 ^ Z.of_nat nf))
        end
      else match ni with O => None | _ => Some (inject_Z ip) end
  | EmptyString => match ni with O => None | _ => Some (inject_Z ip) end
  end.

(** *** Dates *)

(** Gregorian year, month and day of a day number counted from
    1970-01-01. *)
Definition civil_from_days (day : Z) : Z * Z * Z :=
  let z := (day + 719468)%Z in
  let era := (z / 146097)%Z in
  let doe := (z - era * 146097)%Z in
  let yoe := ((doe - doe / 1460 + doe / 36524 - doe / 146096) / 365)%Z in
  let doy := (doe - (365 * yoe + yoe / 4 - yoe / 100))%Z in
  let mp := ((5 * doy + 2) / 153)%Z in
  let d := (doy - (153 * mp + 2) / 5 + 1)%Z in
  let m := (if mp <? 10 then mp + 3 else mp - 9)%Z in
  ((if m <=? 2 then yoe + era * 400 + 1 else yoe + era * 400)%Z, m, d).

Definition digitChar (n : Z) : ascii := ascii_of_nat (48 + Z.to_nat (n mod 10)).

(** The last [width] decimal digits of [n], most significant first. *)
Fixpoint padded (width : nat) (n : Z) (tail : string) : string :=
  match width with
  | O => tail
  | S w => padded w (n / 10) (String (digitChar n) tail)
  end.

Definition msPerDay : Z := 86400000.

(** [new Date(ms).toISOString()], for years 0000 to 9999. *)
Definition toISOString (ms : Z) : string :=
  let '(y, m, d) := civil_from_days (ms / msPerDay)%Z in
  let t := (ms mod msPerDay)%Z in
  padded 4 y (String "-" (padded 2 m (String "-" (padded 2 d (String "T"
  (padded 2 (t / 3600000)%Z (String ":" (padded 2 (t / 60000 mod 60)%Z (String ":"
  (padded 2 (t / 1000 mod 60)%Z (String "." (padded 3 (t mod 1000)%Z "Z"%string)))))))))))).

(** [s.split('T')[0]]. *)
Fixpoint beforeT (s : string) : string :=
  match s with
  | EmptyString => EmptyString
  | String c rest => if Ascii.eqb c "T" then EmptyString else String c (beforeT rest)
  end.

(** The time zone of the host, as the two readings the language makes
    of it: the offset from UTC, in milliseconds, in force at an instant,
    and the offset under which a local time value is read back as an
    instant (at a local time that a change of offset skips or repeats,
    the offset before the change). *)
Record TimeZone := mkZone
  { offsetAt : Z -> Z;
    offsetOfLocal : Z -> Z }.

(** [d.setDate(d.getDate() - n)] on the time value [ms]: the instant is
    read as a local time, the local calendar day is stepped back by [n]
    with the time of day kept, and the result is read back as an
    instant. *)
Definition minusDays (zone : TimeZone) (ms n : Z) : Z :=
  let t := (ms + offsetAt zone ms)%Z in
  let newDate := (t - n * msPerDay)%Z in
  (newDate - offsetOfLocal zone newDate)%Z.

End Js.

Import Js.

(** ** Data model *)

(** [{ date: string; price: number }]: one sample of a price series. *)
Module PricePoint.
Record t := make { date : string; price : Q }.
End PricePoint.

(** A sample as the history collaborator returns it. *)
Module HistoryPoint.
Record t := make { date : string; price : Q; volume : Q }.
End HistoryPoint.

(** [interface PriceDataPoint]: a chart row.  [None] in [price] and
    [prediction] is [null]; [None] in [date] is the [undefined] that
    reading the label table outside its bounds would give. *)
Module PriceDataPoint.
Record t := make { date : option string; price : option Q; prediction : option Q }.
End PriceDataPoint.

(** [interface SerpProduct]. *)
Module SerpProduct.
Record t := make
  { title : string;
    price : string;
    original_price : option string;
    rating : option Q;
    reviews : option Q;
    image : option string;
    link : string;
    source : string;
    availability : string }.
End SerpProduct.

(** ** [src/lib/serp-api.ts] *)

Module SerpApi.

(** The body of [for (let i = days; i >= 0; i--)] in [getPriceHistory];
    [k] counts the draws of [Math.random()] and [t] the readings of the
    clock made so far. *)
Fixpoint historyLoop (fuel : nat) (i : Z) (basePrice : Q)
    (rnd : Rng) (k : nat) (zone : TimeZone) (clock : nat -> Z) (t : nat)
    : list HistoryPoint.t :=
  match fuel with
  | O => []
  | S fuel' =>
      if (0 <=? i)%Z then
        let date := minusDays zone (clock t) i in
        HistoryPoint.make
          (beforeT (toISOString date))
          (basePrice + Math_floor (rnd k * 1000) - 500)
          (Math_floor (rnd (S k) * 100) + 10)
        :: historyLoop fuel' (i - 1) basePrice rnd (S (S k)) zone clock (S t)
      else []
  end.

(** [Math.floor(Math.random() * 50000) + 20000], the first draw. *)
Definition historyBasePrice (rnd : Rng) : Q :=
  Math_floor (rnd 0%nat * 50000) + 20000.

(** [getPriceHistory(productName, days = 30)]; the promise it returns
    always resolves, to this list. *)
Definition getPriceHistory (productName : string) (days : option Z)
    (rnd : Rng) (zone : TimeZone) (clock : nat -> Z) : list HistoryPoint.t :=
  let days := match days with Some d => d | None => 30%Z end in
  let basePrice := historyBasePrice rnd in
  historyLoop (Z.to_nat (days + 1)) days basePrice rnd 1 zone clock 0.

End SerpApi.

(** ** [src/lib/product-context.tsx] *)

Module ProductContext.

(** [parsePriceToNumber]; [None] is [null], and an absent or empty
    argument is falsy. *)
Definition parsePriceToNumber (priceStr : option string) : option Q :=
  match priceStr with
  | None => None
  | Some EmptyString => None
  | Some s =>
      let numeric := stripNonNumeric s in
      match parseFloat numeric with
      | None => None
      | Some value => Some value
      end
  end.

(** Line 66: [history.map(h => ({ date: h.date,
    price: Math.max(0, Math.round(h.price)) }))]. *)
Definition mapHistory (history : list HistoryPoint.t) : list PricePoint.t :=
  map (fun h => PricePoint.make (HistoryPoint.date h)
                  (Math_max 0 (Math_round (HistoryPoint.price h)))) history.

(** Lines 69 to 76: the alignment of the series to the parsed current
    price.  The second pattern is the guard
    [parsed !== null && adjusted.length > 0]; under it both reads of
    [adjusted[adjusted.length - 1]] are inside the array, so the default
    of [nth] is never used. *)
Definition alignToCurrent (parsed : option Q) (adjusted : list PricePoint.t)
    : list PricePoint.t :=
  match parsed, adjusted with
  | Some parsed, first :: _ =>
      let lastPrice :=
        PricePoint.price (nth (length adjusted - 1) adjusted first) in
      let offset := parsed - lastPrice in
      let adjusted' :=
        map (fun p => PricePoint.make (PricePoint.date p)
               (Math_max 0 (Math_round (PricePoint.price p + offset)))) adjusted in
      array_set adjusted' (length adjusted' - 1)
        (fun old => PricePoint.make (PricePoint.date old) parsed)
  | _, _ => adjusted
  end.

(** The History Reconciler: lines 66 to 76 of [startTracking]. *)
Definition reconcile (parsed : option Q) (history : list HistoryPoint.t)
    : list PricePoint.t :=
  alignToCurrent parsed (mapHistory history).

(** [parsed || 0]. *)
Definition orZero (parsed : option Q) : Q :=
  match parsed with
  | Some p => if Qeq_bool p 0 then 0 else p
  | None => 0
  end.

(** The body of [for (let i = 5; i >= 0; i--)] in the [catch] block. *)
Fixpoint fallbackLoop (fuel : nat) (i : Z) (zone : TimeZone) (today : Z)
    (parsed : option Q) : list PricePoint.t :=
  match fuel with
  | O => []
  | S fuel' =>
      if (0 <=? i)%Z then
        let d := minusDays zone today (i * 7) in
        PricePoint.make (beforeT (toISOString d)) (orZero parsed)
        :: fallbackLoop fuel' (i - 1) zone today parsed
      else []
  end.

(** The state cells of [ProductProvider]. *)
Record Store := mkStore
  { selectedProduct : string;
    selectedProductDetails : option SerpProduct.t;
    currentPrice : option Q;
    priceHistory : list PricePoint.t;
    lastUpdated : option string }.

(** What [startTracking] reads from outside: the outcome of awaiting
    [serp.getPriceHistory(title, days)] (a rejection or the resolved
    list), the time zone of the host and the clock. *)
Record Env := mkEnv
  { fetchHistory : string -> Z -> string + list HistoryPoint.t;
    zone : TimeZone;
    clock : nat -> Z }.

(** The state threaded through [startTracking]: the store and the number
    of clock readings made. *)
Record World := mkWorld { store : Store; ticks : nat }.

(** A computation that may throw: [inl e] is a thrown error. *)
Definition Task (A : Type) : Type := World -> (string + A) * World.

Definition ret {A} (a : A) : Task A := fun w => (inr a, w).

Definition bind {A B} (m : Task A) (f : A -> Task B) : Task B :=
  fun w => match m w with
           | (inr a, w') => f a w'
           | (inl e, w') => (inl e, w')
           end.

(** [try { body } catch (e) { handler }]: what [body] did to the state
    before throwing stays done. *)
Definition try_catch {A} (body : Task A) (handler : string -> Task A) : Task A :=
  fun w => match body w with
           | (inl e, w') => handler e w'
           | ok => ok
           end.

Definition update (f : Store -> Store) : Task unit :=
  fun w => (inr tt, mkWorld (f (store w)) (ticks w)).

(** [new Date()]. *)
Definition newDate (env : Env) : Task Z :=
  fun w => (inr (clock env (ticks w)), mkWorld (store w) (S (ticks w))).

(** [await serp.getPriceHistory(title, days)]. *)
Definition await (outcome : string + list HistoryPoint.t)
    : Task (list HistoryPoint.t) :=
  fun w => (outcome, w).

Declare Scope task_scope.
Delimit Scope task_scope with task.
Notation "x <- m ;; k" := (bind m (fun x => k))
  (at level 61, m at next level, right associativity) : task_scope.
Notation "m ;; k" := (bind m (fun _ => k))
  (at level 61, right associativity) : task_scope.

Definition setSelectedProduct (v : string) : Task unit :=
  update (fun s => mkStore v (selectedProductDetails s) (currentPrice s)
                     (priceHistory s) (lastUpdated s)).
Definition setSelectedProductDetails (v : option SerpProduct.t) : Task unit :=
  update (fun s => mkStore (selectedProduct s) v (currentPrice s)
                     (priceHistory s) (lastUpdated s)).
Definition setCurrentPrice (v : option Q) : Task unit :=
  update (fun s => mkStore (selectedProduct s) (selectedProductDetails s) v
                     (priceHistory s) (lastUpdated s)).
Definition setPriceHistory (v : list PricePoint.t) : Task unit :=
  update (fun s => mkStore (selectedProduct s) (selectedProductDetails s)
                     (currentPrice s) v (lastUpdated s)).
Definition setLastUpdated (v : option string) : Task unit :=
  update (fun s => mkStore (selectedProduct s) (selectedProductDetails s)
                     (currentPrice s) (priceHistory s) v).

(** [startTracking(product)]. *)
Definition startTracking (env : Env) (product : SerpProduct.t) : Task unit :=
  (setSelectedProduct (SerpProduct.title product) ;;
   setSelectedProductDetails (Some product) ;;
   let parsed := parsePriceToNumber (Some (SerpProduct.price product)) in
   match parsed with
   | Some _ => setCurrentPrice parsed
   | None => ret tt
   end ;;
   try_catch
     (history <- await (fetchHistory env (SerpProduct.title product) 60) ;;
      let adjusted := reconcile parsed history in
      setPriceHistory adjusted ;;
      now <- newDate env ;;
      setLastUpdated (Some (toISOString now)))
     (fun e =>
      today <- newDate env ;;
      let fallback := fallbackLoop 6 5 (zone env) today parsed in
      setPriceHistory fallback ;;
      now <- newDate env ;;
      setLastUpdated (Some (toISOString now))))%task.

(** The store of a freshly mounted provider. *)
Definition initialStore : Store := mkStore EmptyString None None [] None.

End ProductContext.

(** ** [src/components/PriceChart.tsx] *)

Module PriceChart.

Local Open Scope string_scope.

(** The [if / else if] chain of [generatePriceData], in its order: the
    two keywords tested by each condition and the base price it sets. *)
Definition categories : list (string * string * Q) :=
  [ ("iphone", "samsung", 50000);
    ("macbook", "laptop", 80000);
    ("headphone", "earbud", 3000);
    ("watch", "smartwatch", 15000);
    ("tablet", "ipad", 25000);
    ("camera", "camera", 20000);
    ("gaming", "console", 35000);
    ("tv", "television", 40000);
    ("book", "novel", 500);
    ("shirt", "dress", 1500);
    ("shoe", "sneaker", 2500);
    ("airpods", "wireless", 8000);
    ("monitor", "display", 12000);
    ("keyboard", "mouse", 2000);
    ("speaker", "soundbar", 5000);
    ("fridge", "refrigerator", 30000);
    ("washing", "machine", 25000);
    ("microwave", "oven", 8000);
    ("furniture", "sofa", 15000);
    ("toy", "game", 800);
    ("cosmetic", "beauty", 1200);
    ("food", "snack", 200) ].

(** The first condition of the chain that holds decides; [1000] is the
    value [basePrice] is initialised with. *)
Fixpoint firstMatch (lower : string) (table : list (string * string * Q)) : Q :=
  match table with
  | [] => 1000
  | (a, b, p) :: rest =>
      if includes lower a || includes lower b then p else firstMatch lower rest
  end.

Definition basePrice (productName : string) : Q :=
  firstMatch (toLowerCase productName) categories.

Definition historicalMonths : list string :=
  ["Jan"; "Feb"; "Mar"; "Apr"; "May"; "Jun"; "Jul"; "Aug"].

Definition predictionMonths : list string := ["Sep"; "Oct"; "Nov"; "Dec"].

(** [historicalMonths.forEach((month) => ...)]: the rows pushed, the
    final [currentPrice] and the number of draws made. *)
Fixpoint historicalLoop (labels : list string) (rnd : Rng) (k : nat)
    (currentPrice : Q) : list PriceDataPoint.t * Q * nat :=
  match labels with
  | [] => ([], currentPrice, k)
  | month :: rest =>
      let variation := (rnd k - (1 # 2)) * (3 # 10) in
      let newPrice := Math_round (currentPrice * (1 + variation)) in
      let '(rows, final, k') := historicalLoop rest rnd (S k) newPrice in
      (PriceDataPoint.make (Some month) (Some newPrice) None :: rows, final, k')
  end.

(** [predictionMonths.forEach((month, index) => ...)]; [currentPrice] is
    not assigned in this loop. *)
Fixpoint predictionLoop (labels : list string) (index : Z) (rnd : Rng) (k : nat)
    (currentPrice : Q) : list PriceDataPoint.t :=
  match labels with
  | [] => []
  | month :: rest =>
      let trend := - (2 # 100) * inject_Z (index + 1) in
      let prediction :=
        Math_round (currentPrice * (1 + trend + (rnd k - (1 # 2)) * (1 # 10))) in
      PriceDataPoint.make (Some month) None (Some prediction)
      :: predictionLoop rest (index + 1) rnd (S k) currentPrice
  end.

(** [generatePriceData(productName)]. *)
Definition generatePriceData (productName : string) (rnd : Rng)
    : list PriceDataPoint.t :=
  let '(historicalData, currentPrice, k) :=
    historicalLoop historicalMonths rnd 0 (basePrice productName) in
  historicalData ++ predictionLoop predictionMonths 0 rnd k currentPrice.

Definition months : list string :=
  ["Jan"; "Feb"; "Mar"; "Apr"; "May"; "Jun"; "Jul"; "Aug"; "Sep"; "Oct"; "Nov"; "Dec"].

(** [months[index]]. *)
Definition monthAt (index : Z) : option string :=
  if (index <? 0)%Z then None else nth_error months (Z.to_nat index).

(** [p - prices[i - 1]] for the elements after the first. *)
Fixpoint stepsAfter (prev : Q) (prices : list Q) : list Q :=
  match prices with
  | [] => []
  | p :: rest => (p - prev) :: stepsAfter p rest
  end.

(** [prices.map((p, i) => (i === 0 ? 0 : p - prices[i - 1]))]. *)
Definition firstDifferences (prices : list Q) : list Q :=
  match prices with
  | [] => []
  | p :: rest => 0 :: stepsAfter p rest
  end.

(** [for (let i = 0; i < recent.length; i++)] with its [break]. *)
Fixpoint labelHistorical (recent : list PricePoint.t) (i : nat)
    : list PriceDataPoint.t :=
  match recent with
  | [] => []
  | p :: rest =>
      let monthIndex := i in
      if (length months <=? monthIndex)%nat then []
      else PriceDataPoint.make (nth_error months monthIndex)
             (Some (PricePoint.price p)) None
           :: labelHistorical rest (S i)
  end.

(** One round of the forecast loop: the new [current] and draw count. *)
Definition forecastStep (projectionTargetPrice : option Q) (avg avgStep : Q)
    (rnd : Rng) (k : nat) (i : Z) (current : Q) : Q * nat :=
  let drift :=
    (Math_max 0 (Math_round (current + avgStep * (8 # 10)
                             + (rnd k - (1 # 2)) * Math_abs avg * (2 # 100))), S k) in
  match projectionTargetPrice with
  | Some target =>
      if Qle_bool 0 target then
        let remaining := target - current in
        let step := remaining / inject_Z (4 - i) in
        (Math_max 0 (Math_round (current + step)), k)
      else drift
  | None => drift
  end.

(** [for (let i = 1; i <= 3 && currentLabelIndex + i < months.length; i++)]. *)
Fixpoint forecastLoop (fuel : nat) (i : Z) (currentLabelIndex : Z)
    (projectionTargetPrice : option Q) (avg avgStep : Q)
    (rnd : Rng) (k : nat) (current : Q) : list PriceDataPoint.t :=
  match fuel with
  | O => []
  | S fuel' =>
      if ((i <=? 3) && (currentLabelIndex + i <? Z.of_nat (length months)))%Z then
        let '(current', k') :=
          forecastStep projectionTargetPrice avg avgStep rnd k i current in
        let nextLabelIndex := (currentLabelIndex + i)%Z in
        PriceDataPoint.make (monthAt nextLabelIndex) None (Some current')
        :: forecastLoop fuel' (i + 1) currentLabelIndex projectionTargetPrice
             avg avgStep rnd k' current'
      else []
  end.

(** The part of [projectFromHistory] after the slice is taken: the
    labelled historical rows and the forecast rows.  The code reaches it
    with a non-empty slice only; on an empty one [avg] would be [NaN],
    which the model does not represent. *)
Definition projectRecent (recent : list PricePoint.t)
    (projectionTargetPrice : option Q) (rnd : Rng)
    : list PriceDataPoint.t * list PriceDataPoint.t :=
  let prices := map PricePoint.price recent in
  let avg := sum prices / inject_Z (Z.of_nat (length prices)) in
  let diffs := tl (firstDifferences prices) in
  let avgStep :=
    match diffs with
    | [] => 0
    | _ => sum diffs / inject_Z (Z.of_nat (length diffs))
    end in
  let historical := labelHistorical recent 0 in
  let last :=
    match nth_error prices (length prices - 1) with
    | Some p => p
    | None => avg
    end in
  let currentLabelIndex := (Z.of_nat (length historical) - 1)%Z in
  let preds :=
    forecastLoop 3 1 currentLabelIndex projectionTargetPrice avg avgStep rnd 0 last in
  (historical, preds).

(** [projectFromHistory(history, projectionTargetPrice)]. *)
Definition projectFromHistory (history : list PricePoint.t)
    (projectionTargetPrice : option Q) (rnd : Rng) : list PriceDataPoint.t :=
  match history with
  | [] => []
  | _ =>
      let recent := slice_last 8 history in
      let '(historical, preds) := projectRecent recent projectionTargetPrice rnd in
      historical ++ preds
  end.

End PriceChart.

Import ProductContext PriceChart SerpApi.

(** ** Doubles

    A double is a rational [m * 2^e] with [|m| < 2^53] and [e >= -1074].
    [fl] rounds a rational to the nearest double, a tie to the one with
    the even [m] (IEEE 754 binary64, the rounding of every arithmetic
    operation of JavaScript).  Overflow to infinity is not modelled:
    [fl] rounds as if the exponent had no upper bound. *)

Module Binary64.

(** The integer nearest to [y]; of two that are equally near, the even
    one. *)
Definition nearestEven (y : Q) : Z :=
  let f := Qfloor y in
  match Qcompare (y - inject_Z f) (1 # 2) with
  | Lt => f
  | Gt => (f + 1)%Z
  | Eq => if Z.even f then f else (f + 1)%Z
  end.

(** The integer part of the binary logarithm of [|x|], for [x] other
    than 0. *)
Definition exponent (x : Q) : Z :=
  let k := (Z.log2 (Z.abs (Qnum x)) - Z.log2 (Zpos (Qden x)))%Z in
  if Qle_bool (2 ^ k) (Qabs x) then k else (k - 1)%Z.

(** The exponent of the unit in the last place of the doubles around
    [x]: 53 significant bits, and no unit below [2^-1074]. *)
Definition ulpExponent (x : Q) : Z := Z.max (exponent x - 52) (-1074).

(** The double nearest to [x], ties to even. *)
Definition fl (x : Q) : Q :=
  let x := Qred x in
  let u := 2 ^ ulpExponent x in
  Qred (inject_Z (nearestEven (x / u)) * u).

(** Half the distance from 1 to the next double. *)
Definition eps : Q := 1 # 9007199254740992.

End Binary64.

Import Binary64.

(** ** The arithmetic of doubles

    The functions whose results depend on how JavaScript rounds its
    arithmetic, written over a rounding operator [fl] that is applied to
    the exact result of every addition, subtraction, multiplication and
    division and to every decimal literal.  They are the functions of
    [ProductContext] and [PriceChart] above, line by line and under the
    same names; [Math.round], [Math.max] and [Math.abs] are exact on
    doubles and stay as they are.  The properties use them at
    [Binary64.fl]. *)

Module Rounded.

Section Arithmetic.

Variable fl : Q -> Q.

Definition add (x y : Q) : Q := fl (x + y).
Definition sub (x y : Q) : Q := fl (x - y).
Definition mul (x y : Q) : Q := fl (x * y).
Definition div (x y : Q) : Q := fl (x / y).

(** A decimal literal of the source. *)
Definition lit (q : Q) : Q := fl q.

(** [xs.reduce((a, b) => a + b, 0)]. *)
Definition sum (xs : list Q) : Q := fold_left add xs 0.

(** Lines 69 to 76 of [product-context.tsx]. *)
Definition alignToCurrent (parsed : option Q) (adjusted : list PricePoint.t)
    : list PricePoint.t :=
  match parsed, adjusted with
  | Some parsed, first :: _ =>
      let lastPrice :=
        PricePoint.price (nth (length adjusted - 1) adjusted first) in
      let offset := sub parsed lastPrice in
      let adjusted' :=
        map (fun p => PricePoint.make (PricePoint.date p)
               (Math_max 0 (Math_round (add (PricePoint.price p) offset)))) adjusted in
      array_set adjusted' (length adjusted' - 1)
        (fun old => PricePoint.make (PricePoint.date old) parsed)
  | _, _ => adjusted
  end.

(** Lines 66 to 76 of [product-context.tsx]; the cleaning pass of
    line 66 only rounds to an integer and clamps. *)
Definition reconcile (parsed : option Q) (history : list HistoryPoint.t)
    : list PricePoint.t :=
  alignToCurrent parsed (mapHistory history).

(** [historicalMonths.forEach] of [generatePriceData]. *)
Fixpoint historicalLoop (labels : list string) (rnd : Rng) (k : nat)
    (currentPrice : Q) : list PriceDataPoint.t * Q * nat :=
  match labels with
  | [] => ([], currentPrice, k)
  | month :: rest =>
      let variation := mul (sub (rnd k) (lit (5 # 10))) (lit (3 # 10)) in
      let newPrice := Math_round (mul currentPrice (add 1 variation)) in
      let '(rows, final, k') := historicalLoop rest rnd (S k) newPrice in
      (PriceDataPoint.make (Some month) (Some newPrice) None :: rows, final, k')
  end.

(** [predictionMonths.forEach] of [generatePriceData]. *)
Fixpoint predictionLoop (labels : list string) (index : Z) (rnd : Rng) (k : nat)
    (currentPrice : Q) : list PriceDataPoint.t :=
  match labels with
  | [] => []
  | month :: rest =>
      let trend := mul (- lit (2 # 100)) (inject_Z (index + 1)) in
      let prediction :=
        Math_round
          (mul currentPrice
             (add (add 1 trend) (mul (sub (rnd k) (lit (5 # 10))) (lit (1 # 10))))) in
      PriceDataPoint.make (Some month) None (Some prediction)
      :: predictionLoop rest (index + 1) rnd (S k) currentPrice
  end.

(** [generatePriceData(productName)]. *)
Definition generatePriceData (productName : string) (rnd : Rng)
    : list PriceDataPoint.t :=
  let '(historicalData, currentPrice, k) :=
    historicalLoop historicalMonths rnd 0 (basePrice productName) in
  historicalData ++ predictionLoop predictionMonths 0 rnd k currentPrice.

(** [p - prices[i - 1]] for the elements after the first. *)
Fixpoint stepsAfter (prev : Q) (prices : list Q) : list Q :=
  match prices with
  | [] => []
  | p :: rest => sub p prev :: stepsAfter p rest
  end.

Definition firstDifferences (prices : list Q) : list Q :=
  match prices with
  | [] => []
  | p :: rest => 0 :: stepsAfter p rest
  end.

(** One round of the forecast loop of [projectFromHistory]. *)
Definition forecastStep (projectionTargetPrice : option Q) (avg avgStep : Q)
    (rnd : Rng) (k : nat) (i : Z) (current : Q) : Q * nat :=
  let drift :=
    (Math_max 0
       (Math_round
          (add (add current (mul avgStep (lit (8 # 10))))
               (mul (mul (sub (rnd k) (lit (5 # 10))) (Math_abs avg)) (lit (2 # 100))))),
     S k) in
  match projectionTargetPrice with
  | Some target =>
      if Qle_bool 0 target then
        let remaining := sub target current in
        let step := div remaining (inject_Z (4 - i)) in
        (Math_max 0 (Math_round (add current step)), k)
      else drift
  | None => drift
  end.

Fixpoint forecastLoop (fuel : nat) (i : Z) (currentLabelIndex : Z)
    (projectionTargetPrice : option Q) (avg avgStep : Q)
    (rnd : Rng) (k : nat) (current : Q) : list PriceDataPoint.t :=
  match fuel with
  | O => []
  | S fuel' =>
      if ((i <=? 3) && (currentLabelIndex + i <? Z.of_nat (length months)))%Z then
        let '(current', k') :=
          forecastStep projectionTargetPrice avg avgStep rnd k i current in
        let nextLabelIndex := (currentLabelIndex + i)%Z in
        PriceDataPoint.make (monthAt nextLabelIndex) None (Some current')
        :: forecastLoop fuel' (i + 1) currentLabelIndex projectionTargetPrice
             avg avgStep rnd k' current'
      else []
  end.

Definition projectRecent (recent : list PricePoint.t)
    (projectionTargetPrice : option Q) (rnd : Rng)
    : list PriceDataPoint.t * list PriceDataPoint.t :=
  let prices := map PricePoint.price recent in
  let avg := div (sum prices) (inject_Z (Z.of_nat (length prices))) in
  let diffs := tl (firstDifferences prices) in
  let avgStep :=
    match diffs with
    | [] => 0
    | _ => div (sum diffs) (inject_Z (Z.of_nat (length diffs)))
    end in
  let historical := labelHistorical recent 0 in
  let last :=
    match nth_error prices (length prices - 1) with
    | Some p => p
    | None => avg
    end in
  let currentLabelIndex := (Z.of_nat (length historical) - 1)%Z in
  let preds :=
    forecastLoop 3 1 currentLabelIndex projectionTargetPrice avg avgStep rnd 0 last in
  (historical, preds).

(** [projectFromHistory(history, projectionTargetPrice)]. *)
Definition projectFromHistory (history : list PricePoint.t)
    (projectionTargetPrice : option Q) (rnd : Rng) : list PriceDataPoint.t :=
  match history with
  | [] => []
  | _ =>
      let recent := slice_last 8 history in
      let '(historical, preds) := projectRecent recent projectionTargetPrice rnd in
      historical ++ preds
  end.

End Arithmetic.

End Rounded.

(** ** Vocabulary of the properties *)

(** A price the code has clamped and rounded: a natural number. *)
Definition natural (q : Q) : Prop := exists z, (0 <= z)%Z /\ q = inject_Z z.

(** One point moved by [offset], clamped and rounded. *)
Definition shifted (offset : Q) (p : PricePoint.t) : PricePoint.t :=
  PricePoint.make (PricePoint.date p)
    (Math_max 0 (Math_round (PricePoint.price p + offset))).

(** One fetched sample clamped and rounded (line 66). *)
Definition cleaned (h : HistoryPoint.t) : PricePoint.t :=
  PricePoint.make (HistoryPoint.date h)
    (Math_max 0 (Math_round (HistoryPoint.price h))).


(** The string contains a digit. *)
Fixpoint hasDigit (s : string) : bool :=
  match s with
  | EmptyString => false
  | String c rest => isDigit c || hasDigit rest
  end.

(** The string starts with a digit, or with a full stop that a digit
    follows: the strings over digits and full stops on which [parseFloat]
    finds a number. *)
Definition numericStart (s : string) : bool :=
  match s with
  | EmptyString => false
  | String c rest =>
      isDigit c ||
      (isDot c && match rest with
                  | String c2 _ => isDigit c2
                  | EmptyString => false
                  end)
  end.

Definition headIsDigit (s : string) : bool :=
  match s with
  | EmptyString => false
  | String c _ => isDigit c
  end.

(** The historical rows and the forecast rows of a projection. *)
Definition isHistorical (row : PriceDataPoint.t) : Prop :=
  PriceDataPoint.prediction row = None /\ PriceDataPoint.price row <> None.

(** The random walk of the historical loop: [n] prices from [p], each
    the previous one times [1 + variation], rounded. *)
Fixpoint randomWalk (n : nat) (rnd : Rng) (k : nat) (p : Q) : list Q :=
  match n with
  | O => []
  | S n' =>
      let q := Math_round (p * (1 + (rnd k - (1 # 2)) * (3 # 10))) in
      q :: randomWalk n' rnd (S k) q
  end.

Definition historicalRow (entry : string * Q) : PriceDataPoint.t :=
  PriceDataPoint.make (Some (fst entry)) (Some (snd entry)) None.

Definition predictionRow (entry : string * Q) : PriceDataPoint.t :=
  PriceDataPoint.make (Some (fst entry)) None (Some (snd entry)).

(** What the code computes for prediction row [j] (from 0) out of the
    last historical price [aug] and the draw [r]: a drift of
    [-2% * (j + 1)] of [aug] plus a perturbation of [aug]. *)
Definition linearDrift (aug : Q) (j : Z) (r : Q) : Q :=
  Math_round (aug * (1 + - (2 # 100) * inject_Z (j + 1) + (r - (1 # 2)) * (1 # 10))).

(** The drift as the specification words it: [pred] comes from
    [running] by the factor [factor] plus a perturbation of at most 5%. *)
Definition perturbed (running pred factor : Q) : Prop :=
  exists e, - (5 # 100) <= e /\ e <= 5 # 100 /\
            pred == Math_round (running * (factor + e)).

(** -2% compounding per step on the running price: each prediction is
    98% of the one before it, perturbed. *)
Fixpoint compoundsOnRunning (running : Q) (preds : list Q) : Prop :=
  match preds with
  | [] => True
  | p :: rest => perturbed running p (98 # 100) /\ compoundsOnRunning p rest
  end.

(** -2% compounding per step on the last historical price: prediction
    [j] is [0.98 ^ (j + 1)] of it, perturbed. *)
Fixpoint compoundsOnBase (base factor : Q) (preds : list Q) : Prop :=
  match preds with
  | [] => True
  | p :: rest =>
      perturbed base p (factor * (98 # 100)) /\
      compoundsOnBase base (factor * (98 # 100)) rest
  end.

(** The values of the [prediction] fields that are set. *)
Definition predictions (rows : list PriceDataPoint.t) : list Q :=
  flat_map (fun row => match PriceDataPoint.prediction row with
                       | Some v => [v]
                       | None => []
                       end) rows.

(** Draws that leave the historical prices at the base price, push
    "Sep" up and the later predictions down. *)
Definition skewedDraws : Rng :=
  fun k => if (k <? 8)%nat then 1 # 2 else if (k =? 8)%nat then 99 # 100 else 0.

(** The calendar date [YYYY-MM-DD] of a day number. *)
Definition isoDate (day : Z) : string :=
  let '(y, m, d) := civil_from_days day in
  padded 4 y (String "-" (padded 2 m (String "-" (padded 2 d EmptyString)))).

(** UTC as a time zone. *)
Definition utc : TimeZone := mkZone (fun _ => 0%Z) (fun _ => 0%Z).

(** A time zone whose offset from UTC never changes. *)
Definition fixedOffset (zone : TimeZone) : Prop :=
  exists k, forall t, offsetAt zone t = k /\ offsetOfLocal zone t = k.

(** America/New_York around its change of clocks of 10 March 2024:
    UTC-5 before 07:00 UTC of that day and UTC-4 from then on; a local
    time before 03:00 of that day is read with UTC-5, a later one with
    UTC-4. *)
Definition newYorkSpring2024 : TimeZone :=
  mkZone (fun t => if (t <? 1710054000000)%Z then (-18000000)%Z else (-14400000)%Z)
         (fun local => if (local <? 1710039600000)%Z then (-18000000)%Z
                       else (-14400000)%Z).

(** The UTC day number of the instant that lies [n] local days before
    the instant [ms]. *)
Definition dayBefore (zone : TimeZone) (ms n : Z) : Z :=
  (minusDays zone ms n / msPerDay)%Z.

(** Point [j] (from 0) pushed by a loop started at counter [i] with [k]
    draws and [t] clock readings already made. *)
Definition loopPoint (basePrice : Q) (rnd : Rng) (zone : TimeZone) (clock : nat -> Z)
    (i : Z) (k t : nat) (j : nat) : HistoryPoint.t :=
  HistoryPoint.make
    (isoDate (dayBefore zone (clock (t + j)%nat) (i - Z.of_nat j)))
    (basePrice + Math_floor (rnd (k + 2 * j)%nat * 1000) - 500)
    (Math_floor (rnd (S (k + 2 * j)) * 100) + 10).

(** ** Further built-ins *)

Module JsMore.

(** [Math.min(a, b)]. *)
Definition Math_min (a b : Q) : Q := if Qle_bool a b then a else b.

(** [a > b]. *)
Definition gt (a b : Q) : bool := negb (Qle_bool a b).

(** [Math.min(...xs)] and [Math.max(...xs)] of the array [x :: rest]. *)
Definition minOf (x : Q) (rest : list Q) : Q := fold_left Math_min rest x.
Definition maxOf (x : Q) (rest : list Q) : Q := fold_left Math_max rest x.

(** [xs[i]]; [None] is [undefined]. *)
Definition at_index {A} (xs : list A) (i : Z) : option A :=
  if (i <? 0)%Z then None else nth_error xs (Z.to_nat i).

(** [x || d] on numbers: 0 is falsy. *)
Definition orNumber (x d : Q) : Q := if Qeq_bool x 0 then d else x.

(** [s || d] on strings: the empty string is falsy. *)
Definition orString (s d : string) : string :=
  match s with EmptyString => d | _ => s end.

Definition isLower (c : ascii) : bool :=
  let n := nat_of_ascii c in (97 <=? n)%nat && (n <=? 122)%nat.

Definition upperChar (c : ascii) : ascii :=
  if isLower c then ascii_of_nat (nat_of_ascii c - 32) else c.

(** [s.toUpperCase()]. *)
Fixpoint toUpperCase (s : string) : string :=
  match s with
  | EmptyString => EmptyString
  | String c rest => String (upperChar c) (toUpperCase rest)
  end.

(** [s.substring(0, 1)]. *)
Definition firstUnit (s : string) : string :=
  match s with
  | EmptyString => EmptyString
  | String c _ => String c EmptyString
  end.

(** [s.trim() === ''], on the UTF-8 encoding of [s]: the string holds
    nothing but white space and line terminators, which are U+0009 to
    U+000D, U+0020, U+00A0, U+1680, U+2000 to U+200A, U+2028, U+2029,
    U+202F, U+205F, U+3000 and U+FEFF. *)
Fixpoint isBlank (s : string) : bool :=
  match s with
  | EmptyString => true
  | String c1 rest =>
      let b1 := nat_of_ascii c1 in
      if ((9 <=? b1) && (b1 <=? 13) || (b1 =? 32))%nat then isBlank rest
      else
        match rest with
        | String c2 rest2 =>
            let b2 := nat_of_ascii c2 in
            if ((b1 =? 194) && (b2 =? 160))%nat then isBlank rest2
            else
              match rest2 with
              | String c3 rest3 =>
                  let b3 := nat_of_ascii c3 in
                  if ((b1 =? 225) && (b2 =? 154) && (b3 =? 128)
                      || (b1 =? 226) && (b2 =? 128)
                         && ((128 <=? b3) && (b3 <=? 138)
                             || (b3 =? 168) || (b3 =? 169) || (b3 =? 175))
                      || (b1 =? 226) && (b2 =? 129) && (b3 =? 159)
                      || (b1 =? 227) && (b2 =? 128) && (b3 =? 128)
                      || (b1 =? 239) && (b2 =? 187) && (b3 =? 191))%nat
                  then isBlank rest3
                  else false
              | EmptyString => false
              end
        | EmptyString => false
        end
  end.

End JsMore.

Import JsMore.

(** ["rise" | "fall" | "stable"]. *)
Module Direction.
Inductive t := rise | fall | stable.
End Direction.

(** ["up" | "down" | "stable"]. *)
Module Trend.
Inductive t := up | down | stable.
End Trend.

(** ** [src/lib/product-context.tsx], continued *)

Module ProductProvider.

(** [isProductSelected]: [selectedProduct.trim().length > 0]. *)
Definition isProductSelected (s : Store) : bool :=
  negb (isBlank (selectedProduct s)).

(** [clearSelectedProduct()]. *)
Definition clearSelectedProduct : Task unit :=
  (setSelectedProduct EmptyString ;;
   setSelectedProductDetails None ;;
   setCurrentPrice None ;;
   setPriceHistory [] ;;
   setLastUpdated None)%task.


End ProductProvider.

(** ** [src/lib/serp-api.ts], continued *)

Module PricePrediction.
Record t := make
  { prediction : option Direction.t;
    confidence : Q;
    expectedChange : Q;
    timeframe : string;
    reasoning : string }.
End PricePrediction.

Module SerpApiService.

Definition predictions : list Direction.t :=
  [Direction.rise; Direction.fall; Direction.stable].

(** [predictPrice(productName, currentPrice)]; the promise it returns
    always resolves, to this record.  [None] in [prediction] is the
    [undefined] of a read outside [predictions]. *)
Definition predictPrice (productName : string) (currentPrice : Q) (rnd : Rng)
    : PricePrediction.t :=
  let prediction :=
    at_index predictions
      (Qfloor (rnd 0%nat * inject_Z (Z.of_nat (length predictions)))) in
  let confidence := Math_floor (rnd 1%nat * 30) + 70 in
  let expectedChange := Math_floor (rnd 2%nat * 15) + 5 in
  let reasoning :=
    ("Based on historical price patterns, market trends, and demand analysis for "
       ++ productName)%string in
  PricePrediction.make prediction confidence expectedChange "2 weeks" reasoning.

End SerpApiService.

(** ** [src/components/PriceChart.tsx], continued *)

Module PriceChartView.

(** The [useMemo] of the [PriceChart] component: real history when there
    is some, synthetic data otherwise.  [None] is an absent [history]
    property. *)
Definition priceData (productName : string) (history : option (list PricePoint.t))
    (projectionTargetPrice : option Q) (rnd : Rng) : list PriceDataPoint.t :=
  match history with
  | Some ((_ :: _) as h) => projectFromHistory h projectionTargetPrice rnd
  | _ => generatePriceData productName rnd
  end.

(** [priceData.map(item => [item.price, item.prediction]).flat()
      .filter(price => price !== null)]. *)
Definition allPrices (priceData : list PriceDataPoint.t) : list Q :=
  flat_map (fun item =>
              (match PriceDataPoint.price item with Some v => [v] | None => [] end)
              ++ (match PriceDataPoint.prediction item with Some v => [v] | None => [] end))
           priceData.

(** [yDomain]: the bounds of the vertical axis. *)
Definition yDomain (priceData : list PriceDataPoint.t) : Q * Q :=
  let '(minPrice, maxPrice, priceRange) :=
    match allPrices priceData with
    | [] => (0, 1, 1)
    | x :: rest => (minOf x rest, maxOf x rest, maxOf x rest - minOf x rest)
    end in
  (Math_max 0 (minPrice - priceRange * (1 # 10)),
   Math_max 1 (maxPrice + priceRange * (1 # 10))).

End PriceChartView.

(** ** [src/components/EnhancedSearchBar.tsx] *)

(** An entry of [window.__platformOffers]. *)
Module Offer.
Record t := make
  { platform : string;
    price : Q;
    originalPrice : option Q;
    trend : Trend.t;
    trendPercent : Q;
    availability : string;
    rating : option Q;
    logo : string;
    productName : string;
    productUrl : string }.
End Offer.

Module EnhancedSearchBar.

(** [parseNum] of [handleSearch]. *)
Definition parseNum (s : option string) : Q :=
  match s with
  | None => 0
  | Some EmptyString => 0
  | Some s =>
      match parseFloat (stripNonNumeric s) with
      | None => 0
      | Some n => Math_round n
      end
  end.

(** [results.products.slice(0, 6).map(p => ...)]. *)
Definition toOffers (products : list SerpProduct.t) : list Offer.t :=
  map (fun p =>
         Offer.make
           (SerpProduct.source p)
           (parseNum (Some (SerpProduct.price p)))
           (let n := parseNum (SerpProduct.original_price p) in
            if Qeq_bool n 0 then None else Some n)
           Trend.stable
           0
           (orString (SerpProduct.availability p) "In Stock")
           (SerpProduct.rating p)
           (toUpperCase (firstUnit (orString (SerpProduct.source p) "?")))
           (SerpProduct.title p)
           (orString (SerpProduct.link p) "https://example.com"))
      (firstn 6 products).

(** [setSearchHistory(prev => [query, ...prev.slice(0, 4)])]. *)
Definition pushSearchHistory (query : string) (prev : list string) : list string :=
  query :: firstn 4 prev.

(** What [handleSearch] does to the search history: it returns at once,
    with an error toast, when [query.trim()] is empty; otherwise the
    abort signal it has just created is not aborted and line 85 runs. *)
Definition handleSearch_history (query : string) (prev : list string)
    : list string :=
  if isBlank query then prev else pushSearchHistory query prev.

End EnhancedSearchBar.

(** ** [src/components/PriceCard.tsx] *)

Module PriceCard.

Inductive Toast :=
  | TargetPriceSet (target : Q)
  | InvalidPrice
  | NoToast.

(** [handleSetTargetPrice]: [input] is what [prompt] returned ([None]
    when it was dismissed); the result is the next [targetPrice] state
    and the toast shown. *)
Definition handleSetTargetPrice (input : option string) (targetPrice : option Q)
    : option Q * Toast :=
  match input with
  | None => (targetPrice, NoToast)
  | Some EmptyString => (targetPrice, NoToast)
  | Some s =>
      match parseFloat (stripNonNumeric s) with
      | Some target =>
          if gt target 0 then (Some target, TargetPriceSet target)
          else (targetPrice, InvalidPrice)
      | None => (targetPrice, InvalidPrice)
      end
  end.

(** The [targetPrice] state after a series of prompts. *)
Definition afterPrompts (inputs : list (option string)) (targetPrice : option Q)
    : option Q :=
  fold_left (fun state input => fst (handleSetTargetPrice input state))
            inputs targetPrice.

End PriceCard.

(** ** The dashboard ([Dashboard] component) *)

(** What [generatePlatformPrices] returns for one platform, and what
    [PriceCard] is given. *)
Module PlatformPrice.
Record t := make
  { platform : string;
    price : Q;
    originalPrice : option Q;
    trend : Trend.t;
    trendPercent : Q;
    availability : string;
    rating : option Q;
    logo : string;
    productName : string;
    productUrl : string }.
End PlatformPrice.

Module PredictionData.
Record t := make
  { prediction : Direction.t;
    confidence : Q;
    expectedChange : Q;
    timeframe : string;
    currentPrice : Q;
    targetPrice : Q }.
End PredictionData.

Module Platform.
Record t := make { name : string; logo : string; url : string; searchUrl : bool }.
End Platform.

Module Dashboard.

Local Open Scope string_scope.

(** The [if / else if] chain of [generatePlatformPrices], in its order. *)
Definition categories : list (string * string * Q) :=
  [ ("iphone", "samsung", 50000);
    ("macbook", "laptop", 80000);
    ("headphone", "earbud", 3000);
    ("watch", "smartwatch", 15000);
    ("tablet", "ipad", 25000);
    ("camera", "camera", 20000);
    ("gaming", "console", 35000);
    ("tv", "television", 40000);
    ("book", "novel", 500);
    ("shirt", "dress", 1500);
    ("shoe", "sneaker", 2500);
    ("airpods", "wireless", 8000);
    ("monitor", "display", 12000);
    ("keyboard", "mouse", 2000);
    ("speaker", "soundbar", 5000);
    ("fridge", "refrigerator", 30000);
    ("washing", "machine", 25000);
    ("microwave", "oven", 8000);
    ("furniture", "sofa", 15000);
    ("toy", "game", 800);
    ("cosmetic", "beauty", 1200);
    ("food", "snack", 200) ].

Definition basePrice (productName : string) : Q :=
  firstMatch (toLowerCase productName) categories.

Definition platforms : list Platform.t :=
  [ Platform.make "Amazon" "A" "https://www.amazon.in/s?k=" true;
    Platform.make "Flipkart" "F" "https://www.flipkart.com/search?q=" true;
    Platform.make "Croma" "C" "https://www.croma.com/search?q=" true;
    Platform.make "Reliance Digital" "R" "https://www.reliancedigital.in/search?q=" true;
    Platform.make "Vijay Sales" "V" "https://www.vijaysales.com/search.aspx?q=" true;
    Platform.make "Tata Cliq" "TC" "https://www.tatacliq.com/search?searchText=" true ].

Section WithEncoder.

(** [encodeURIComponent], on strings that hold no lone surrogate. *)
Variable encodeURIComponent : string -> string.

(** The callback of [platforms.map] in [generatePlatformPrices]; it
    makes six draws, from draw [k] on. *)
Definition platformCard (productName : string) (basePrice : Q) (rnd : Rng) (k : nat)
    (platform : Platform.t) : PlatformPrice.t :=
  let variation := (rnd k - (1 # 2)) * (2 # 10) in
  let currentPrice := Math_round (basePrice * (1 + variation)) in
  let originalPrice := Math_round (currentPrice * (1 + rnd (k + 1)%nat * (15 # 100))) in
  let trendRandom := rnd (k + 2)%nat in
  let trend :=
    if gt trendRandom (6 # 10) then Trend.down
    else if gt trendRandom (3 # 10) then Trend.up
    else Trend.stable in
  let trendPercent := Math_round (rnd (k + 3)%nat * 8) + 1 in
  let searchQuery := encodeURIComponent productName in
  let productUrl :=
    if Platform.searchUrl platform then Platform.url platform ++ searchQuery
    else Platform.url platform in
  PlatformPrice.make
    (Platform.name platform)
    currentPrice
    (Some (if gt originalPrice currentPrice then originalPrice else currentPrice))
    trend
    (match trend with
     | Trend.down => - trendPercent
     | Trend.up => trendPercent
     | Trend.stable => 0
     end)
    (if gt (rnd (k + 4)%nat) (2 # 10) then "In Stock" else "Low Stock")
    (Some (Math_round ((rnd (k + 5)%nat * (15 # 10) + (35 # 10)) * 10) / 10))
    (Platform.logo platform)
    productName
    productUrl.

Fixpoint platformCards (productName : string) (basePrice : Q) (rnd : Rng) (k : nat)
    (ps : list Platform.t) : list PlatformPrice.t :=
  match ps with
  | [] => []
  | p :: rest =>
      platformCard productName basePrice rnd k p
      :: platformCards productName basePrice rnd (k + 6) rest
  end.

(** [generatePlatformPrices(productName)]: 36 draws. *)
Definition generatePlatformPrices (productName : string) (rnd : Rng)
    : list PlatformPrice.t :=
  platformCards productName (basePrice productName) rnd 0 platforms.

(** [generatePredictionData(productName)]. *)
Definition generatePredictionData (productName : string) (rnd : Rng)
    : PredictionData.t :=
  let basePrice :=
    match generatePlatformPrices productName rnd with
    | card :: _ => orNumber (PlatformPrice.price card) 1000
    | [] => 1000
    end in
  let k := 36%nat in
  let '(trend, k) :=
    if gt (rnd k) (6 # 10) then (Direction.fall, S k)
    else if gt (rnd (S k)) (5 # 10) then (Direction.rise, S (S k))
    else (Direction.stable, S (S k)) in
  let confidence := Math_round (rnd k * 20) + 70 in
  let k := S k in
  let '(expectedChange, k) :=
    match trend with
    | Direction.fall => (- (Math_round (rnd k * 15) + 5), S k)
    | Direction.rise => (Math_round (rnd k * 10) + 2, S k)
    | Direction.stable => (0, k)
    end in
  let currentPrice := basePrice in
  let targetPrice := Math_round (currentPrice * (1 + expectedChange / 100)) in
  PredictionData.make trend confidence expectedChange
    (if gt (rnd k) (5 # 10) then "2 weeks" else "1 month")
    currentPrice targetPrice.

(** The branch of the [predictionData] memo taken with real history;
    it is entered with more than 3 points, so the read of the last price
    is inside the array and the default of [nth] is never used. *)
Definition predictionFromHistory (priceHistory : list PricePoint.t)
    : PredictionData.t :=
  let recent := slice_last 6 priceHistory in
  let prices := map PricePoint.price recent in
  let diffs := tl (firstDifferences prices) in
  let avgStep :=
    match diffs with
    | [] => 0
    | _ => sum diffs / inject_Z (Z.of_nat (length diffs))
    end in
  let last := nth (length prices - 1) prices 0 in
  let expectedChangePct := Math_round ((avgStep / Math_max 1 last) * 100) in
  let boundedChange := Math_max (- (15)) (Math_min 12 expectedChangePct) in
  let direction :=
    if gt boundedChange 2 then Direction.rise
    else if gt (- (2)) boundedChange then Direction.fall
    else Direction.stable in
  let confidence := Math_max 65 (Math_min 92 (80 - Math_abs (boundedChange - 3))) in
  let targetPrice := Math_max 0 (Math_round (last * (1 + boundedChange / 100))) in
  PredictionData.make direction confidence boundedChange
    (if gt (Math_abs boundedChange) 5 then "2 weeks" else "1 month")
    last targetPrice.

(** The [predictionData] memo of [Dashboard]. *)
Definition predictionData (selectedProduct : string) (isProductSelected : bool)
    (priceHistory : list PricePoint.t) (rnd : Rng) : PredictionData.t :=
  if isProductSelected && (3 <? length priceHistory)%nat then
    predictionFromHistory priceHistory
  else
    match selectedProduct, isProductSelected with
    | String _ _, true => generatePredictionData selectedProduct rnd
    | _, _ => generatePredictionData "MacBook Air M3" rnd
    end.

(** The rows that the [PriceChart] element of [Dashboard] shows: its
    [priceData] memo on the properties the dashboard passes, which are
    read from the product context (lines 150, 206 and 234 to 238). *)
Definition chartRows (store : Store) (cardRnd chartRnd : Rng)
    : list PriceDataPoint.t :=
  let d := predictionData (selectedProduct store)
             (ProductProvider.isProductSelected store) (priceHistory store) cardRnd in
  let currentProduct := orString (selectedProduct store) "MacBook Air M3" in
  PriceChartView.priceData currentProduct (Some (priceHistory store))
    (Some (PredictionData.targetPrice d)) chartRnd.

(** [String.fromCharCode(0x2022)], the bullet, in UTF-8. *)
Definition bullet : string :=
  String (ascii_of_nat 226) (String (ascii_of_nat 128)
    (String (ascii_of_nat 162) EmptyString)).

(** The normalisation of one stored offer in the [platformPrices] memo;
    the [typeof] tests of the code hold for the offers that
    [EnhancedSearchBar.toOffers] writes. *)
Definition normalizeOffer (selectedProduct : string) (o : Offer.t) : PlatformPrice.t :=
  PlatformPrice.make
    (orString (Offer.platform o) "Unknown")
    (Offer.price o)
    (Offer.originalPrice o)
    (Offer.trend o)
    (Offer.trendPercent o)
    (orString (Offer.availability o) "In Stock")
    (Offer.rating o)
    (orString (Offer.logo o) bullet)
    (orString (Offer.productName o) selectedProduct)
    (orString (Offer.productUrl o) "https://example.com").

(** The [platformPrices] memo of [Dashboard]; [globalOffers] is
    [window.__platformOffers], [None] when it was never written. *)
Definition platformPrices (globalOffers : option (list Offer.t))
    (selectedProduct : string) (isProductSelected : bool) (rnd : Rng)
    : list PlatformPrice.t :=
  match globalOffers, isProductSelected with
  | Some ((_ :: _) as offers), true => map (normalizeOffer selectedProduct) offers
  | _, _ =>
      match selectedProduct, isProductSelected with
      | String _ _, true => generatePlatformPrices selectedProduct rnd
      | _, _ => generatePlatformPrices "MacBook Air M3" rnd
      end
  end.

End WithEncoder.

End Dashboard.

(** ** Vocabulary of the further properties *)

(** What every generated platform card satisfies, for the base price
    [base] of its product. *)
Definition cardWellFormed (base : Q) (c : PlatformPrice.t) : Prop :=
  natural (PlatformPrice.price c) /\
  (9 # 10) * base - (1 # 2) < PlatformPrice.price c /\
  PlatformPrice.price c <= (11 # 10) * base + (1 # 2) /\
  (exists o, PlatformPrice.originalPrice c = Some o /\
             PlatformPrice.price c <= o /\
             o <= (115 # 100) * PlatformPrice.price c + (1 # 2)) /\
  match PlatformPrice.trend c with
  | Trend.down => - (9) <= PlatformPrice.trendPercent c /\
                  PlatformPrice.trendPercent c <= - (1)
  | Trend.up => 1 <= PlatformPrice.trendPercent c /\
                PlatformPrice.trendPercent c <= 9
  | Trend.stable => PlatformPrice.trendPercent c = 0
  end /\
  (exists r, PlatformPrice.rating c = Some r /\ 35 # 10 <= r /\ r <= 5) /\
  (PlatformPrice.availability c = "In Stock"%string \/
   PlatformPrice.availability c = "Low Stock"%string).

(** How the expected change of a prediction goes with its direction. *)
Definition changeMatchesDirection (d : PredictionData.t) : Prop :=
  match PredictionData.prediction d with
  | Direction.fall => - (20) <= PredictionData.expectedChange d /\
                      PredictionData.expectedChange d <= - (5) /\
                      PredictionData.targetPrice d <= PredictionData.currentPrice d
  | Direction.rise => 2 <= PredictionData.expectedChange d /\
                      PredictionData.expectedChange d <= 12 /\
                      PredictionData.currentPrice d <= PredictionData.targetPrice d
  | Direction.stable => PredictionData.expectedChange d = 0 /\
                        PredictionData.targetPrice d = PredictionData.currentPrice d
  end.

(** The search history after [handleSearch] ran on each of [queries],
    in that order. *)
Definition searchHistoryAfter (queries : list string) (start : list string)
    : list string :=
  fold_left (fun prev query => EnhancedSearchBar.handleSearch_history query prev)
            queries start.

(** The queries that hold more than white space. *)
Definition searched (queries : list string) : list string :=
  filter (fun q => negb (isBlank q)) queries.

(** Two draw sequences for the prediction card; both are well formed. *)
Definition calmDraws : Rng := fun _ => 1 # 2.
Definition fallingDraws : Rng := fun _ => 9 # 10.

(** A store that tracks a series of two points. *)
Definition shortSeries : Store :=
  mkStore "Phone" None (Some 1050)
    [PricePoint.make "2024-01-01" 1000; PricePoint.make "2024-01-08" 1050] None.

(** ** Vocabulary of the properties in doubles *)

(** A forecast row. *)
Definition forecastRow (label : option string) (v : Q) : PriceDataPoint.t :=
  PriceDataPoint.make label None (Some v).

(** The value after one round of the forecast loop towards [target]. *)
Definition stepTowards (target : Q) (i : Z) (current : Q) : Q :=
  fst (Rounded.forecastStep fl (Some target) 0 0 (fun _ => 0) 0%nat i current).

(** A price of at most [2^40], about a million millions. *)
Definition bound40 : Q := 1099511627776.




(** The bound on a price after [n] months of the walk. *)
Fixpoint grown (n : nat) (W : Q) : Q :=
  match n with
  | O => W
  | S n' => grown n' (W * (6 # 5))
  end.

(** The exact value that prediction row [j] (from 0) approximates: the
    last historical price [aug] with a drift of [-2% * (j + 1)] and the
    perturbation of the draw [r]. *)
Definition driftTarget (aug : Q) (j : Z) (r : Q) : Q :=
  aug * (1 - (2 # 100) * inject_Z (j + 1) + (r - (1 # 2)) * (1 # 10)).

(** [p] is a non-negative integer, the rounding of a value within a
    millionth of [x]. *)
Definition roundsNear (p x : Q) : Prop :=
  natural p /\
  exists y, p = Math_round y /\ x - (1 # 1000000) <= y /\ y <= x + (1 # 1000000).

(** The value that the drift rule of line 144 rounds, in exact
    arithmetic: the running price plus the mean step damped by 0.8 plus
    a jitter of at most 1% of the mean. *)
Definition driftValue (mean meanStep r current : Q) : Q :=
  current + meanStep * (8 # 10) + (r - (1 # 2)) * Math_abs mean * (2 # 100).

(** [next] comes from [current] by the drift rule: it is the clamped
    rounding of a value within a hundredth of [driftValue]. *)
Definition followsDrift (mean meanStep r current next : Q) : Prop :=
  exists y, next = Math_max 0 (Math_round y) /\
            driftValue mean meanStep r current - (1 # 100) <= y /\
            y <= driftValue mean meanStep r current + (1 # 100).

(** The value after one round of the forecast loop without a target. *)
Definition driftStep (avg avgStep : Q) (rnd : Rng) (k : nat) (current : Q) : Q :=
  fst (Rounded.forecastStep fl None avg avgStep rnd k 0 current).

(** [x] is within [2^-13] of [x'], a number of magnitude at most [2^40]. *)
Definition closeTo (x x' : Q) : Prop :=
  x' - (1 # 8192) <= x /\ x <= x' + (1 # 8192) /\
  - (1099511627776) <= x' /\ x' <= 1099511627776.

(** * Properties *)

(** ** Built-ins *)

Example toISOString_sample :
  toISOString 1709251199999 = "2024-02-29T23:59:59.999Z"%string.
Proof. reflexivity. Qed.

Example parseFloat_samples :
  parseFloat "12.34.56" = Some (inject_Z 12 + inject_Z 34 / inject_Z 100) /\
  parseFloat ".5" = Some (inject_Z 0 + inject_Z 5 / inject_Z 10) /\
  parseFloat "..5" = None.
Proof. repeat split; reflexivity. Qed.

Example basePrice_first_match_wins :
  basePrice "Samsung Galaxy Book laptop" = 50000 /\
  basePrice "MacBook Air M3" = 80000 /\
  basePrice "Cook book" = 500 /\
  basePrice "umbrella" = 1000.
Proof. repeat split; reflexivity. Qed.

(** ** Rounding and clamping *)

Lemma Qfloor_unique (x : Q) (z : Z) :
  inject_Z z <= x -> x < inject_Z (z + 1) -> Qfloor x = z.
Proof.
  intros Hlo Hhi.
  pose proof (Qfloor_le x) as Hf.
  pose proof (Qlt_floor x) as Hc.
  assert (inject_Z z < inject_Z (Qfloor x + 1)) as H1
    by (eapply Qle_lt_trans; eassumption).
  assert (inject_Z (Qfloor x) < inject_Z (z + 1)) as H2
    by (eapply Qle_lt_trans; eassumption).
  rewrite <- Zlt_Qlt in H1, H2. lia.
Qed.


Lemma Math_round_integer (z : Z) : Math_round (inject_Z z) = inject_Z z.
Proof.
  unfold Math_round. f_equal. apply Qfloor_unique.
  - lra.
  - rewrite inject_Z_plus. change (inject_Z 1) with 1. lra.
Qed.

Lemma Math_round_lower (x : Q) : x - (1 # 2) < Math_round x.
Proof.
  unfold Math_round. pose proof (Qlt_floor (x + (1 # 2))) as H.
  rewrite inject_Z_plus in H. change (inject_Z 1) with 1 in H. lra.
Qed.

Lemma Math_round_upper (x : Q) : Math_round x <= x + (1 # 2).
Proof. unfold Math_round. apply Qfloor_le. Qed.

Lemma Math_round_nonneg (x : Q) : 0 <= x -> 0 <= Math_round x.
Proof.
  intros Hx. unfold Math_round.
  change 0 with (inject_Z 0). rewrite <- Zle_Qle.
  change 0%Z with (Qfloor 0). apply Qfloor_resp_le. lra.
Qed.

Lemma Math_max_nonneg (x : Q) : 0 <= Math_max 0 x.
Proof.
  unfold Math_max. destruct (Qle_bool 0 x) eqn:E.
  - now apply Qle_bool_iff.
  - apply Qle_refl.
Qed.

Lemma Math_max_of_nonneg (x : Q) : 0 <= x -> Math_max 0 x = x.
Proof.
  intros Hx. unfold Math_max.
  apply Qle_bool_iff in Hx. now rewrite Hx.
Qed.

Lemma clamp_round_natural (x : Q) : natural (Math_max 0 (Math_round x)).
Proof.
  unfold Math_max. destruct (Qle_bool 0 (Math_round x)) eqn:E.
  - exists (Qfloor (x + (1 # 2))). split; [|reflexivity].
    apply Qle_bool_iff in E. unfold Math_round in E.
    now rewrite Zle_Qle.
  - exists 0%Z. split; [lia | reflexivity].
Qed.

Lemma natural_nonneg (q : Q) : natural q -> 0 <= q.
Proof.
  intros (z & Hz & ->). change 0 with (inject_Z 0). now rewrite <- Zle_Qle.
Qed.


(** ** Arrays *)

Lemma array_set_end {A} (xs : list A) (x : A) (f : A -> A) :
  array_set (xs ++ [x]) (length (xs ++ [x]) - 1) f = xs ++ [f x].
Proof.
  rewrite length_app. cbn [length].
  replace (length xs + 1 - 1)%nat with (length xs) by lia.
  induction xs as [|y ys IH]; cbn; [reflexivity | now rewrite IH].
Qed.

Lemma nth_end {A} (xs : list A) (x d : A) :
  nth (length (xs ++ [x]) - 1) (xs ++ [x]) d = x.
Proof.
  rewrite length_app. cbn [length].
  replace (length xs + 1 - 1)%nat with (length xs) by lia.
  rewrite app_nth2 by lia. now rewrite Nat.sub_diag.
Qed.

Lemma snoc_cases {A} (xs : list A) : xs = [] \/ exists init x, xs = init ++ [x].
Proof.
  destruct xs as [|y ys]; [now left | right].
  destruct (exists_last (l := y :: ys)) as (init & x & E); [discriminate|].
  now exists init, x.
Qed.

(** ** The History Reconciler *)

Lemma alignToCurrent_snoc (c : Q) (init : list PricePoint.t) (l : PricePoint.t) :
  alignToCurrent (Some c) (init ++ [l]) =
  map (shifted (c - PricePoint.price l)) init ++ [PricePoint.make (PricePoint.date l) c].
Proof.
  unfold alignToCurrent.
  destruct (init ++ [l]) as [|first rest] eqn:E.
  - destruct init; discriminate.
  - rewrite <- E. rewrite nth_end.
    rewrite map_app. cbn [map].
    rewrite array_set_end. reflexivity.
Qed.

Lemma reconcile_snoc (c : Q) (init : list HistoryPoint.t) (l : HistoryPoint.t) :
  reconcile (Some c) (init ++ [l]) =
  map (shifted (c - PricePoint.price (cleaned l))) (map cleaned init)
  ++ [PricePoint.make (HistoryPoint.date l) c].
Proof.
  unfold reconcile, mapHistory. rewrite map_app. cbn [map].
  apply alignToCurrent_snoc.
Qed.

(** C1. For a raw series of length at least 1 and a known current price
    [c >= 0], the reconciled series has the length and the dates of the
    raw one in the same order; its last point carries exactly [c]; every
    other point is the cleaned raw point moved by the one offset
    [c - last cleaned price], clamped at 0 and rounded, hence a
    non-negative integer. *)
Theorem reconcile_last_is_current (history : list HistoryPoint.t) (c : Q) :
  history <> [] -> 0 <= c ->
  let out := reconcile (Some c) history in
  length out = length history /\
  map PricePoint.date out = map HistoryPoint.date history /\
  exists initH lastH init lastOut,
    history = initH ++ [lastH] /\
    out = init ++ [lastOut] /\
    PricePoint.price lastOut = c /\
    init = map (shifted (c - PricePoint.price (cleaned lastH))) (map cleaned initH) /\
    Forall (fun p => natural (PricePoint.price p) /\ 0 <= PricePoint.price p) init /\
    Forall (fun p => 0 <= PricePoint.price p) out.
Proof.
  intros Hne Hc out.
  destruct (snoc_cases history) as [E | (initH & lastH & E)]; [contradiction|].
  subst history. subst out. rewrite reconcile_snoc.
  split; [|split].
  - rewrite !length_app, !length_map. reflexivity.
  - rewrite !map_app, !map_map. cbn. reflexivity.
  - exists initH, lastH. eexists. eexists.
    split; [reflexivity|]. split; [reflexivity|].
    split; [reflexivity|]. split; [reflexivity|].
    assert (Hinit : Forall (fun p => natural (PricePoint.price p) /\
                                     0 <= PricePoint.price p)
                      (map (shifted (c - PricePoint.price (cleaned lastH)))
                         (map cleaned initH))).
    { apply Forall_forall. intros p Hp.
      apply in_map_iff in Hp. destruct Hp as (q & <- & _). cbn.
      split; [apply clamp_round_natural | apply Math_max_nonneg]. }
    split; [exact Hinit|].
    apply Forall_app. split.
    + eapply Forall_impl; [|exact Hinit]. intros p [_ Hp]. exact Hp.
    + constructor; [exact Hc | constructor].
Qed.

Lemma reconcile_last_is_current_witness :
  let history := [HistoryPoint.make "2024-01-01" 1000 25;
                  HistoryPoint.make "2024-01-08" 1050 31] in
  reconcile (Some 1100) history =
    [PricePoint.make "2024-01-01" 1050; PricePoint.make "2024-01-08" 1100] /\
  length (reconcile (Some 1100) history) = length history.
Proof.
  split; [reflexivity|].
  apply (reconcile_last_is_current
           [HistoryPoint.make "2024-01-01" 1000 25;
            HistoryPoint.make "2024-01-08" 1050 31] 1100).
  - discriminate.
  - unfold Qle; simpl; lia.
Defined.

(** The reconciler leaves an empty series, or one whose current price is
    unknown, as the cleaning pass produced it. *)
Lemma reconcile_unknown (history : list HistoryPoint.t) :
  reconcile None history = map cleaned history.
Proof. reflexivity. Qed.

Lemma reconcile_empty (parsed : option Q) : reconcile parsed [] = [].
Proof. destruct parsed; reflexivity. Qed.



(** ** The Price Parser *)

Lemma isDigit_value (c : ascii) : isDigit c = true -> (0 <= digitValue c)%Z.
Proof.
  unfold isDigit, digitValue. intros H.
  apply andb_true_iff in H. destruct H as [H _].
  apply Nat.leb_le in H. lia.
Qed.

Lemma isDot_not_digit (c : ascii) : isDot c = true -> isDigit c = false.
Proof.
  unfold isDot, isDigit. intros H. apply Nat.eqb_eq in H. rewrite H. reflexivity.
Qed.

Lemma readDigits_stops (s : string) (acc : Z) (n : nat) :
  headIsDigit s = false -> readDigits s acc n = (acc, n, s).
Proof. destruct s as [|c rest]; cbn; [reflexivity|]. now intros ->. Qed.

Lemma readDigits_sound (s : string) :
  forall acc n v m r,
    readDigits s acc n = (v, m, r) ->
    (0 <= acc)%Z -> (0 <= v)%Z /\ (n <= m)%nat.
Proof.
  induction s as [|c rest IH]; cbn [readDigits]; intros acc n v m r H Hacc.
  - inversion H; subst. split; [assumption | lia].
  - destruct (isDigit c) eqn:Ec.
    + apply IH in H.
      * destruct H. split; [assumption | lia].
      * pose proof (isDigit_value c Ec). lia.
    + inversion H; subst. split; [assumption | lia].
Qed.

Lemma fraction_nonneg (ip fp : Z) (nf : nat) :
  (0 <= ip)%Z -> (0 <= fp)%Z ->
  0 <= inject_Z ip + inject_Z fp / inject_Z (10 ^ Z.of_nat nf).
Proof.
  intros Hi Hf.
  assert (0 <= inject_Z ip) by (change 0 with (inject_Z 0); now rewrite <- Zle_Qle).
  assert (0 <= inject_Z fp) by (change 0 with (inject_Z 0); now rewrite <- Zle_Qle).
  assert (0 < inject_Z (10 ^ Z.of_nat nf)).
  { change 0 with (inject_Z 0). rewrite <- Zlt_Qlt. apply Z.pow_pos_nonneg; lia. }
  assert (0 <= inject_Z fp / inject_Z (10 ^ Z.of_nat nf)).
  { apply Qle_shift_div_l; [assumption | now rewrite Qmult_0_l]. }
  set (frac := inject_Z fp / inject_Z (10 ^ Z.of_nat nf)) in *.
  lra.
Qed.

Lemma parseFloat_numericStart (t : string) :
  numericStart t = true -> exists q, parseFloat t = Some q /\ 0 <= q.
Proof.
  destruct t as [|c rest]; [discriminate|]. cbn [numericStart].
  intros H. unfold parseFloat.
  destruct (isDigit c) eqn:Ec.
  - cbn [readDigits]. rewrite Ec.
    destruct (readDigits rest (10 * 0 + digitValue c) 1) as [[ip ni] r1] eqn:E1.
    apply readDigits_sound in E1; [|pose proof (isDigit_value c Ec); lia].
    destruct E1 as [Hip Hni].
    assert (Hint : 0 <= inject_Z ip)
      by (change 0 with (inject_Z 0); now rewrite <- Zle_Qle).
    destruct ni as [|ni]; [lia|].
    destruct r1 as [|c1 r2].
    + eexists; split; [reflexivity | assumption].
    + destruct (isDot c1).
      * destruct (readDigits r2 0 0) as [[fp nf] r3] eqn:E2.
        apply readDigits_sound in E2; [|lia]. destruct E2 as [Hfp _].
        eexists; split; [reflexivity | now apply fraction_nonneg].
      * eexists; split; [reflexivity | assumption].
  - cbn [orb] in H. apply andb_true_iff in H. destruct H as [Hdot H2].
    rewrite readDigits_stops by (cbn; assumption).
    rewrite Hdot.
    destruct rest as [|c2 rest2]; [discriminate|].
    cbn [readDigits]. rewrite H2.
    destruct (readDigits rest2 (10 * 0 + digitValue c2) 1) as [[fp nf] r3] eqn:E2.
    apply readDigits_sound in E2; [|pose proof (isDigit_value c2 H2); lia].
    destruct E2 as [Hfp Hnf].
    destruct nf as [|nf]; [lia|].
    eexists; split; [reflexivity | apply fraction_nonneg; [lia | assumption]].
Qed.

Lemma parseFloat_not_numericStart (t : string) :
  numericStart t = false -> parseFloat t = None.
Proof.
  destruct t as [|c rest]; [reflexivity|]. cbn [numericStart].
  intros H. apply orb_false_iff in H. destruct H as [Ec H].
  unfold parseFloat. rewrite readDigits_stops by (cbn; assumption).
  destruct (isDot c); [|reflexivity].
  cbn [andb] in H.
  rewrite readDigits_stops; [reflexivity|].
  destruct rest; [reflexivity | assumption].
Qed.

Lemma hasDigit_strip (s : string) : hasDigit (stripNonNumeric s) = hasDigit s.
Proof.
  induction s as [|c rest IH]; cbn; [reflexivity|].
  destruct (isDigit c) eqn:Ec; cbn; [now rewrite Ec|].
  destruct (isDot c); cbn; [now rewrite Ec|]; assumption.
Qed.

Lemma numericStart_hasDigit (t : string) : numericStart t = true -> hasDigit t = true.
Proof.
  destruct t as [|c rest]; [discriminate|]. cbn.
  destruct (isDigit c); [reflexivity|]. cbn.
  destruct (isDot c); [|discriminate]. cbn.
  destruct rest as [|c2 r]; [discriminate|]. cbn. now intros ->.
Qed.

Lemma parsePriceToNumber_unfold (s : string) :
  parsePriceToNumber (Some s) = parseFloat (stripNonNumeric s).
Proof.
  destruct s as [|c rest]; [reflexivity|].
  unfold parsePriceToNumber. now destruct (parseFloat _).
Qed.

(** C5 as stated fails: a price string with digits whose first kept
    characters are two full stops is not a number for [parseFloat]. *)
Lemma parsePriceToNumber_digits_without_value :
  hasDigit "Approx. Rs. 500" = true /\
  stripNonNumeric "Approx. Rs. 500" = "..500"%string /\
  parsePriceToNumber (Some "Approx. Rs. 500"%string) = None.
Proof. repeat split; reflexivity. Qed.

(** C5, amended.  The parser returns a non-negative number exactly when
    what is left of the string after every character other than a digit
    or a full stop is dropped starts with a digit, or with a full stop
    followed by a digit; otherwise it returns the no-value sentinel, in
    particular for every string without a digit, for the empty string and
    for an absent argument. *)
Theorem parsePriceToNumber_spec :
  (forall s, numericStart (stripNonNumeric s) = true ->
     exists q, parsePriceToNumber (Some s) = Some q /\ 0 <= q) /\
  (forall s, numericStart (stripNonNumeric s) = false ->
     parsePriceToNumber (Some s) = None) /\
  (forall s, hasDigit s = false -> parsePriceToNumber (Some s) = None) /\
  parsePriceToNumber (Some EmptyString) = None /\
  parsePriceToNumber None = None.
Proof.
  split; [|split; [|split; [|split]]]; try reflexivity.
  - intros s H. rewrite parsePriceToNumber_unfold.
    now apply parseFloat_numericStart.
  - intros s H. rewrite parsePriceToNumber_unfold.
    now apply parseFloat_not_numericStart.
  - intros s H. rewrite parsePriceToNumber_unfold.
    apply parseFloat_not_numericStart.
    destruct (numericStart (stripNonNumeric s)) eqn:E; [|reflexivity].
    apply numericStart_hasDigit in E. rewrite hasDigit_strip in E. congruence.
Qed.

Lemma parsePriceToNumber_spec_witness :
  parsePriceToNumber (Some "INR 89,999.50"%string) = Some (inject_Z 89999 + 50 / 100) /\
  (exists q, parsePriceToNumber (Some "INR 89,999.50"%string) = Some q /\ 0 <= q) /\
  parsePriceToNumber (Some "call for price"%string) = None.
Proof.
  split; [reflexivity|]. split.
  - apply (proj1 parsePriceToNumber_spec). reflexivity.
  - apply (proj1 (proj2 (proj2 parsePriceToNumber_spec))). reflexivity.
Defined.

(** ** The Projection Engine *)


Lemma labelHistorical_rows (recent : list PricePoint.t) :
  forall i row, In row (labelHistorical recent i) -> isHistorical row.
Proof.
  induction recent as [|p rest IH]; intros i row; cbn [labelHistorical];
    [intros H; destruct H|].
  destruct (_ <=? _)%nat; [intros H; destruct H|].
  intros [<- | Hin]; [split; [reflexivity | discriminate] | eauto].
Qed.

(** The bounds of the loops, not the fuel of their models, end them. *)
Lemma forecastLoop_past_three (fuel : nat) :
  forall i cli target avg avgStep rnd k current,
    (3 < i)%Z -> forecastLoop fuel i cli target avg avgStep rnd k current = [].
Proof.
  destruct fuel as [|fuel]; intros; cbn [forecastLoop]; [reflexivity|].
  replace (i <=? 3)%Z with false by (symmetry; apply Z.leb_gt; lia).
  reflexivity.
Qed.

Lemma forecastLoop_fuel (more : nat) cli target avg avgStep rnd k current :
  forecastLoop (3 + more) 1 cli target avg avgStep rnd k current =
  forecastLoop 3 1 cli target avg avgStep rnd k current.
Proof.
  cbn [Nat.add forecastLoop].
  repeat (destruct (_ && _)%bool; [|reflexivity];
          destruct (forecastStep _ _ _ _ _ _ _) as [? ?]; f_equal).
  now rewrite forecastLoop_past_three by lia.
Qed.

Lemma fallbackLoop_fuel (more : nat) (zone : TimeZone) (today : Z)
    (parsed : option Q) :
  fallbackLoop (6 + more) 5 zone today parsed = fallbackLoop 6 5 zone today parsed.
Proof.
  cbn [Nat.add fallbackLoop Z.leb Z.compare Z.sub Z.add Z.opp Z.pos_sub
       Pos.pred_double Z.succ_double Z.pred_double Z.double].
  destruct more; reflexivity.
Qed.

Lemma skipn_step {A} (l : list A) :
  forall n x, nth_error l n = Some x -> skipn n l = x :: skipn (S n) l.
Proof.
  induction l as [|y l IH]; intros [|n] x H; try discriminate.
  - inversion H. reflexivity.
  - cbn in H. apply IH in H. exact H.
Qed.

Lemma firstn_then_skipn {A} (l : list A) :
  forall a b, firstn a l ++ firstn b (skipn a l) = firstn (a + b) l.
Proof.
  induction l as [|y l IH]; intros [|a] b; cbn; try reflexivity.
  - now destruct b.
  - now rewrite IH.
Qed.

Lemma NoDup_firstn {A} (l : list A) : NoDup l -> forall n, NoDup (firstn n l).
Proof.
  induction 1 as [|x l Hx Hl IH]; intros [|n]; cbn; try constructor.
  - intros Hin. apply Hx. rewrite <- (firstn_skipn n l).
    apply in_or_app. now left.
  - apply IH.
Qed.

Lemma NoDup_map_Some {A} (l : list A) : NoDup l -> NoDup (map Some l).
Proof.
  induction 1 as [|x l Hx Hl IH]; cbn; constructor; [|assumption].
  intros Hin. apply in_map_iff in Hin. destruct Hin as (y & E & Hy).
  inversion E; subst. contradiction.
Qed.

Lemma months_NoDup : NoDup months.
Proof.
  unfold months.
  repeat (apply NoDup_cons; [cbn; intuition discriminate |]).
  apply NoDup_nil.
Qed.

Lemma months_lookup (n : nat) : (n < 12)%nat -> exists m, nth_error months n = Some m.
Proof.
  intros H. destruct (nth_error months n) eqn:E; [eauto|].
  apply nth_error_None in E. cbn in E. lia.
Qed.

Lemma labelHistorical_dates (recent : list PricePoint.t) :
  forall i, (i <= 12)%nat ->
    let rows := labelHistorical recent i in
    map PriceDataPoint.date rows = map Some (firstn (length rows) (skipn i months)) /\
    length rows = Nat.min (length recent) (12 - i).
Proof.
  induction recent as [|p rest IH]; intros i Hi; cbn [labelHistorical].
  - split; reflexivity.
  - change (length months) with 12%nat.
    destruct (12 <=? i)%nat eqn:E.
    + apply Nat.leb_le in E. cbn [length]. split; [reflexivity|].
      replace (12 - i)%nat with 0%nat by lia. now rewrite Nat.min_0_r.
    + apply Nat.leb_gt in E.
      destruct (months_lookup i E) as (m & Hm).
      destruct (IH (S i) ltac:(lia)) as [Hd Hl].
      cbn zeta in *. cbn [length map PriceDataPoint.date].
      rewrite (skipn_step months i m Hm). cbn [firstn map].
      rewrite Hm, Hd, Hl. split; [reflexivity|]. lia.
Qed.

Lemma forecastLoop_dates (fuel : nat) :
  forall i cli target avg avgStep rnd k current,
    (0 <= cli + i)%Z ->
    let rows := forecastLoop fuel i cli target avg avgStep rnd k current in
    map PriceDataPoint.date rows =
      map Some (firstn (length rows) (skipn (Z.to_nat (cli + i)) months)) /\
    (length rows <= fuel)%nat.
Proof.
  induction fuel as [|fuel IH]; intros i cli target avg avgStep rnd k current Hpos;
    cbn [forecastLoop].
  - split; [reflexivity | cbn; lia].
  - change (Z.of_nat (length months)) with 12%Z.
    destruct ((i <=? 3)%Z && (cli + i <? 12)%Z)%bool eqn:E.
    + apply andb_true_iff in E. destruct E as [_ E]. apply Z.ltb_lt in E.
      destruct (forecastStep target avg avgStep rnd k i current) as [c' k'].
      destruct (months_lookup (Z.to_nat (cli + i)) ltac:(lia)) as (m & Hm).
      destruct (IH (i + 1)%Z cli target avg avgStep rnd k' c' ltac:(lia)) as [Hd Hl].
      cbn zeta in *. cbn [length map PriceDataPoint.date].
      rewrite (skipn_step months _ m Hm). cbn [firstn map].
      replace (Z.to_nat (cli + (i + 1))) with (S (Z.to_nat (cli + i))) in Hd by lia.
      rewrite Hd. unfold monthAt.
      destruct (cli + i <? 0)%Z eqn:En; [apply Z.ltb_lt in En; lia|].
      rewrite Hm. split; [reflexivity | lia].
    + split; [reflexivity | cbn; lia].
Qed.

Lemma slice_last_length {A} (n : nat) (xs : list A) :
  length (slice_last n xs) = Nat.min (length xs) n.
Proof. unfold slice_last. rewrite length_skipn. lia. Qed.

(** C7. Whatever slice the projection is given, the historical rows take
    the first labels of the table ("Jan" onwards, at most 12), at most 3
    forecast rows follow, forecast row [j] takes the label at index
    [length historical + j] (so after every historical label), every
    label read lies inside the 12-entry table, and no label occurs
    twice; [projectFromHistory], which slices the last 8 points, thus
    returns at most 11 rows labelled by the first months of the year. *)
Theorem projection_labels_within_calendar
    (recent history : list PricePoint.t) (target : option Q) (rnd : Rng) :
  let historical := fst (projectRecent recent target rnd) in
  let preds := snd (projectRecent recent target rnd) in
  let out := projectFromHistory history target rnd in
  length historical = Nat.min (length recent) 12 /\
  (length preds <= 3)%nat /\
  (length historical + length preds <= 12)%nat /\
  map PriceDataPoint.date (historical ++ preds) =
    map Some (firstn (length historical + length preds) months) /\
  (forall j row, nth_error preds j = Some row ->
     PriceDataPoint.date row = nth_error months (length historical + j) /\
     (length historical + j < 12)%nat) /\
  NoDup (map PriceDataPoint.date (historical ++ preds)) /\
  map PriceDataPoint.date out = map Some (firstn (length out) months) /\
  NoDup (map PriceDataPoint.date out) /\
  (length out <= 11)%nat.
Proof.
  assert (General : forall recent',
    let historical := fst (projectRecent recent' target rnd) in
    let preds := snd (projectRecent recent' target rnd) in
    length historical = Nat.min (length recent') 12 /\
    (length preds <= 3)%nat /\
    (length historical + length preds <= 12)%nat /\
    map PriceDataPoint.date (historical ++ preds) =
      map Some (firstn (length historical + length preds) months)).
  { intros recent'. unfold projectRecent. cbn [fst snd].
    set (prices := map PricePoint.price recent').
    set (avg := sum prices / _). set (avgStep := match tl _ with [] => 0 | _ => _ end).
    set (lastp := match nth_error _ _ with Some p => p | None => avg end).
    destruct (labelHistorical_dates recent' 0 ltac:(lia)) as [Hd Hl].
    cbn zeta in Hd, Hl. rewrite Nat.sub_0_r in Hl.
    set (historical := labelHistorical recent' 0) in *.
    destruct (forecastLoop_dates 3 1 (Z.of_nat (length historical) - 1) target
                avg avgStep rnd 0 lastp ltac:(lia)) as [Fd Fl].
    cbn zeta in Fd, Fl.
    set (preds := forecastLoop 3 1 _ target avg avgStep rnd 0 lastp) in *.
    replace (Z.to_nat (Z.of_nat (length historical) - 1 + 1))
      with (length historical) in Fd by lia.
    assert (Hsum : map PriceDataPoint.date (historical ++ preds) =
              map Some (firstn (length historical + length preds) months)).
    { rewrite map_app, Hd, Fd, <- map_app. cbn [skipn].
      now rewrite firstn_then_skipn. }
    split; [exact Hl|]. split; [exact Fl|]. split; [|exact Hsum].
    apply (f_equal (@length _)) in Fd.
    rewrite !length_map, length_firstn, length_skipn in Fd.
    change (length months) with 12%nat in Fd. lia. }
  intros historical preds out.
  destruct (General recent) as (Hl & Fl & Hb & Hsum).
  fold historical preds in Hl, Fl, Hb, Hsum.
  split; [exact Hl|]. split; [exact Fl|]. split; [exact Hb|]. split; [exact Hsum|].
  split; [|split; [|split; [|split]]].
  - intros j row Hj.
    assert (Hlt : (j < length preds)%nat)
      by (apply nth_error_Some; congruence).
    split; [|lia].
    assert (E : nth_error (map PriceDataPoint.date (historical ++ preds))
                  (length historical + j) = Some (PriceDataPoint.date row)).
    { rewrite nth_error_map, nth_error_app2 by lia.
      replace (length historical + j - length historical)%nat with j by lia.
      now rewrite Hj. }
    rewrite Hsum, nth_error_map, nth_error_firstn in E.
    destruct (length historical + j <? length historical + length preds)%nat eqn:B;
      [|apply Nat.ltb_ge in B; lia].
    destruct (nth_error months (length historical + j)); inversion E; reflexivity.
  - rewrite Hsum. apply NoDup_map_Some, NoDup_firstn, months_NoDup.
  - subst out. unfold projectFromHistory.
    destruct history as [|p rest]; [reflexivity|].
    destruct (General (slice_last 8 (p :: rest))) as (_ & _ & _ & E).
    destruct (projectRecent (slice_last 8 (p :: rest)) target rnd) as [h f].
    cbn [fst snd] in E. now rewrite E, length_app.
  - subst out. unfold projectFromHistory.
    destruct history as [|p rest]; [constructor|].
    destruct (General (slice_last 8 (p :: rest))) as (_ & _ & _ & E).
    destruct (projectRecent (slice_last 8 (p :: rest)) target rnd) as [h f].
    cbn [fst snd] in E. rewrite E.
    apply NoDup_map_Some, NoDup_firstn, months_NoDup.
  - subst out. unfold projectFromHistory.
    destruct history as [|p rest]; [cbn; lia|].
    destruct (General (slice_last 8 (p :: rest))) as (L & F & _ & _).
    rewrite slice_last_length in L.
    destruct (projectRecent (slice_last 8 (p :: rest)) target rnd) as [h f].
    cbn [fst snd] in L, F. rewrite length_app. lia.
Qed.

Lemma Math_round_comp (x y : Q) : x == y -> Math_round x = Math_round y.
Proof.
  intros E. unfold Math_round. f_equal. apply Qfloor_comp. now rewrite E.
Qed.

Lemma monthAt_in_range (index : Z) :
  (0 <= index < 12)%Z -> exists m, monthAt index = Some m.
Proof.
  intros H. unfold monthAt.
  destruct (index <? 0)%Z eqn:E; [apply Z.ltb_lt in E; lia|].
  apply months_lookup. lia.
Qed.

Lemma forecastLoop_target (cli : Z) (target avg avgStep : Q) (rnd : Rng)
    (k : nat) (c0 : Q) :
  0 <= target -> (cli + 3 < 12)%Z ->
  forecastLoop 3 1 cli (Some target) avg avgStep rnd k c0 =
  let c1 := Math_max 0 (Math_round (c0 + (target - c0) / 3)) in
  let c2 := Math_max 0 (Math_round (c1 + (target - c1) / 2)) in
  [ PriceDataPoint.make (monthAt (cli + 1)) None (Some c1);
    PriceDataPoint.make (monthAt (cli + 2)) None (Some c2);
    PriceDataPoint.make (monthAt (cli + 3)) None (Some (Math_round target)) ].
Proof.
  intros Ht Hcli. cbn [forecastLoop]. unfold forecastStep.
  apply Qle_bool_iff in Ht as Hb. rewrite Hb.
  change (Z.of_nat (length months)) with 12%Z.
  change (1 + 1 + 1)%Z with 3%Z. change (1 + 1)%Z with 2%Z.
  replace (cli + 1 <? 12)%Z with true by (symmetry; apply Z.ltb_lt; lia).
  replace (cli + 2 <? 12)%Z with true by (symmetry; apply Z.ltb_lt; lia).
  replace (cli + 3 <? 12)%Z with true by (symmetry; apply Z.ltb_lt; lia).
  cbn [Z.leb Z.compare Pos.compare Pos.compare_cont andb].
  change (inject_Z (4 - 1)) with 3. change (inject_Z (4 - 2)) with 2.
  change (inject_Z (4 - 3)) with 1.
  cbn zeta. do 3 f_equal. f_equal. f_equal.
  set (c2 := Math_max 0 (Math_round (_ + (target - _) / 2))).
  rewrite (Math_round_comp (c2 + (target - c2) / 1) target) by field.
  apply Math_max_of_nonneg, Math_round_nonneg, Ht.
Qed.

Lemma slice_last_snoc {A} (n : nat) (init : list A) (x : A) :
  (1 <= n)%nat -> slice_last n (init ++ [x]) = slice_last (n - 1) init ++ [x].
Proof.
  intros Hn. unfold slice_last. rewrite length_app. cbn [length].
  rewrite skipn_app.
  replace (length init + 1 - n - length init)%nat with 0%nat by lia.
  cbn [skipn]. f_equal. f_equal. lia.
Qed.

(** ** The Mock Data Generator *)

Lemma last_cons_default {A} (l : list A) : forall a d, last (a :: l) d = last l a.
Proof.
  induction l as [|b l IH]; intros a d; [reflexivity|].
  change (last (a :: b :: l) d) with (last (b :: l) d).
  now rewrite !IH.
Qed.

Lemma historicalLoop_walk (labels : list string) :
  forall rnd k p,
    historicalLoop labels rnd k p =
    (map historicalRow (combine labels (randomWalk (length labels) rnd k p)),
     last (randomWalk (length labels) rnd k p) p,
     (k + length labels)%nat).
Proof.
  induction labels as [|m rest IH]; intros rnd k p.
  - cbn. now rewrite Nat.add_0_r.
  - cbn [historicalLoop length randomWalk combine map]. cbn zeta.
    rewrite IH. rewrite last_cons_default.
    f_equal. lia.
Qed.

Lemma randomWalk_length (n : nat) : forall rnd k p, length (randomWalk n rnd k p) = n.
Proof. induction n; intros; cbn; [reflexivity | now rewrite IHn]. Qed.

Lemma generatePriceData_rows (productName : string) (rnd : Rng) :
  let walk := randomWalk 8 rnd 0 (basePrice productName) in
  let aug := last walk (basePrice productName) in
  generatePriceData productName rnd =
  map historicalRow (combine historicalMonths walk)
  ++ map predictionRow
       (combine predictionMonths
          [linearDrift aug 0 (rnd 8%nat); linearDrift aug 1 (rnd 9%nat);
           linearDrift aug 2 (rnd 10%nat); linearDrift aug 3 (rnd 11%nat)]).
Proof.
  unfold generatePriceData. rewrite historicalLoop_walk. reflexivity.
Qed.

(** C8. For the name "iPhone 15" the first condition of the chain holds
    and the base price is 50000; whatever the draws, the generator
    returns 12 rows, labelled "Jan" to "Dec": 8 historical rows (price
    set, prediction null) whose prices are the random walk started at
    50000, then 4 prediction-only rows (price null, prediction set). *)
Theorem generatePriceData_iphone (rnd : Rng) :
  let out := generatePriceData "iPhone 15" rnd in
  basePrice "iPhone 15" = 50000 /\
  firstMatch (toLowerCase "iPhone 15") categories =
    snd (hd (EmptyString, EmptyString, 0) categories) /\
  length out = 12%nat /\
  map PriceDataPoint.date out = map Some months /\
  (exists walk preds,
     walk = randomWalk 8 rnd 0 50000 /\ length walk = 8%nat /\ length preds = 4%nat /\
     firstn 8 out = map historicalRow (combine historicalMonths walk) /\
     skipn 8 out = map predictionRow (combine predictionMonths preds)) /\
  Forall (fun row => PriceDataPoint.price row <> None /\
                     PriceDataPoint.prediction row = None) (firstn 8 out) /\
  Forall (fun row => PriceDataPoint.price row = None /\
                     PriceDataPoint.prediction row <> None) (skipn 8 out).
Proof.
  intros out. subst out. rewrite generatePriceData_rows.
  change (basePrice "iPhone 15") with 50000.
  set (walk := randomWalk 8 rnd 0 50000).
  assert (Hw : length walk = 8%nat) by apply randomWalk_length.
  destruct walk as [|p1 [|p2 [|p3 [|p4 [|p5 [|p6 [|p7 [|p8 [|p9 w]]]]]]]]] eqn:Ew;
    try discriminate.
  cbn [last historicalMonths predictionMonths combine map app length firstn skipn].
  split; [reflexivity|]. split; [reflexivity|]. split; [reflexivity|].
  split; [reflexivity|]. split.
  - exists [p1; p2; p3; p4; p5; p6; p7; p8],
           [linearDrift p8 0 (rnd 8%nat); linearDrift p8 1 (rnd 9%nat);
            linearDrift p8 2 (rnd 10%nat); linearDrift p8 3 (rnd 11%nat)].
    repeat split; reflexivity.
  - split; repeat constructor; cbn; discriminate.
Qed.

Lemma perturbation_bounds (r : Q) :
  0 <= r -> r < 1 ->
  - (5 # 100) <= (r - (1 # 2)) * (1 # 10) /\ (r - (1 # 2)) * (1 # 10) < 5 # 100.
Proof. intros; split; lra. Qed.

(** ** Dates *)

Lemma digitChar_not_T (n : Z) : Ascii.eqb (digitChar n) "T" = false.
Proof.
  unfold digitChar.
  assert (H : (Z.to_nat (n mod 10) < 10)%nat).
  { pose proof (Z.mod_pos_bound n 10 ltac:(lia)). lia. }
  destruct (Z.to_nat (n mod 10)) as [|[|[|[|[|[|[|[|[|[|k]]]]]]]]]];
    try reflexivity; lia.
Qed.

Lemma beforeT_padded (width : nat) :
  forall n tail, beforeT (padded width n tail) = padded width n (beforeT tail).
Proof.
  induction width as [|w IH]; intros n tail; cbn [padded]; [reflexivity|].
  rewrite IH. cbn [beforeT]. now rewrite digitChar_not_T.
Qed.

Lemma date_of_instant (ms : Z) : beforeT (toISOString ms) = isoDate (ms / msPerDay).
Proof.
  unfold toISOString, isoDate.
  destruct (civil_from_days (ms / msPerDay)) as [[y m] d].
  rewrite beforeT_padded. cbn [beforeT]. change (Ascii.eqb "-" "T") with false. cbv iota.
  rewrite beforeT_padded. cbn [beforeT]. change (Ascii.eqb "-" "T") with false. cbv iota.
  rewrite beforeT_padded. cbn [beforeT]. reflexivity.
Qed.

Lemma date_days_before (zone : TimeZone) (ms n : Z) :
  beforeT (toISOString (minusDays zone ms n)) = isoDate (dayBefore zone ms n).
Proof. apply date_of_instant. Qed.

(** Where the offset never changes, stepping the local day back by [n]
    steps the UTC day back by [n]. *)
Lemma dayBefore_fixedOffset (zone : TimeZone) (ms n : Z) :
  fixedOffset zone -> dayBefore zone ms n = (ms / msPerDay - n)%Z.
Proof.
  intros (k & Hk). unfold dayBefore, minusDays.
  destruct (Hk ms) as [-> _]. destruct (Hk (ms + k - n * msPerDay)%Z) as [_ ->].
  replace (ms + k - n * msPerDay - k)%Z with (ms + (- n) * msPerDay)%Z by lia.
  rewrite Z.div_add by (unfold msPerDay; lia). lia.
Qed.

Lemma utc_fixedOffset : fixedOffset utc.
Proof. exists 0%Z. intros t. split; reflexivity. Qed.

(** ** Upstream fetch failure *)

Lemma fallbackLoop_six (zone : TimeZone) (today : Z) (parsed : option Q) :
  fallbackLoop 6 5 zone today parsed =
  map (fun i => PricePoint.make (beforeT (toISOString (minusDays zone today (i * 7))))
                  (orZero parsed)) [5; 4; 3; 2; 1; 0]%Z.
Proof. reflexivity. Qed.

Lemma orZero_known (c : Q) : orZero (Some c) == c.
Proof.
  unfold orZero. destruct (Qeq_bool c 0) eqn:E; [|reflexivity].
  apply Qeq_bool_iff in E. now symmetry.
Qed.

(** [startTracking] ends normally whatever the fetch does. *)
Lemma startTracking_never_throws (env : Env) (product : SerpProduct.t) (w : World) :
  exists w', startTracking env product w = (inr tt, w').
Proof.
  unfold startTracking, bind, try_catch, await.
  destruct (parsePriceToNumber (Some (SerpProduct.price product)));
    destruct (fetchHistory env (SerpProduct.title product) 60);
    cbn [setSelectedProduct setSelectedProductDetails setCurrentPrice
         setPriceHistory setLastUpdated update newDate ret store ticks];
    eexists; reflexivity.
Qed.

(** When the fetch succeeds the stored history is the reconciled one. *)
Lemma startTracking_stores_reconciled (env : Env) (product : SerpProduct.t)
    (w : World) (history : list HistoryPoint.t) :
  fetchHistory env (SerpProduct.title product) 60 = inr history ->
  exists w',
    startTracking env product w = (inr tt, w') /\
    priceHistory (store w') =
      reconcile (parsePriceToNumber (Some (SerpProduct.price product))) history.
Proof.
  intros Hf. unfold startTracking, bind, try_catch, await. rewrite Hf.
  destruct (parsePriceToNumber (Some (SerpProduct.price product)));
    cbn; eexists; split; reflexivity.
Qed.

(** When awaiting the history rejects, [startTracking] still ends
    normally, in every time zone; the stored history is then the
    fallback of exactly 6 points, dated 35, 28, 21, 14, 7 and 0 local
    days before the clock reading made in the handler, each priced at
    the price parsed from the product, or at 0 when there is none; the
    update stamp is the next clock reading.  Where the offset of the
    zone never changes the six dates are one week apart.  The stored
    current price is the parsed one, and is left as it was when nothing
    could be parsed. *)
Theorem failed_fetch_installs_fallback
    (env : Env) (product : SerpProduct.t) (w : World) (e : string) :
  fetchHistory env (SerpProduct.title product) 60 = inl e ->
  let parsed := parsePriceToNumber (Some (SerpProduct.price product)) in
  let now := clock env (ticks w) in
  exists w',
    startTracking env product w = (inr tt, w') /\
    priceHistory (store w') =
      map (fun i => PricePoint.make (isoDate (dayBefore (zone env) now (i * 7)))
                      (orZero parsed))
          [5; 4; 3; 2; 1; 0]%Z /\
    length (priceHistory (store w')) = 6%nat /\
    (fixedOffset (zone env) ->
     map PricePoint.date (priceHistory (store w')) =
       map (fun i => isoDate (now / msPerDay - i * 7)) [5; 4; 3; 2; 1; 0]%Z) /\
    lastUpdated (store w') = Some (toISOString (clock env (S (ticks w)))) /\
    (forall c, parsed = Some c -> orZero parsed == c) /\
    (parsed = None -> orZero parsed = 0) /\
    currentPrice (store w') =
      match parsed with Some c => Some c | None => currentPrice (store w) end.
Proof.
  intros Hf parsed now.
  assert (Hdates : forall t,
            fallbackLoop 6 5 (zone env) t parsed =
            map (fun i => PricePoint.make (isoDate (dayBefore (zone env) t (i * 7)))
                            (orZero parsed))
                [5; 4; 3; 2; 1; 0]%Z).
  { intros t. rewrite fallbackLoop_six. cbn [map].
    now rewrite !date_days_before. }
  unfold startTracking, bind, try_catch, await. rewrite Hf.
  fold parsed.
  destruct parsed as [c|] eqn:Ep; cbn [setSelectedProduct setSelectedProductDetails
    setCurrentPrice setPriceHistory setLastUpdated update newDate ret store ticks
    priceHistory lastUpdated];
    (eexists; split; [reflexivity|]);
    cbn [store ticks priceHistory lastUpdated];
    (split; [apply Hdates|]);
    (split; [rewrite Hdates; reflexivity|]);
    (split; [intros Hz; rewrite Hdates; cbn [map PricePoint.date];
             now rewrite !(dayBefore_fixedOffset _ _ _ Hz)|]);
    (split; [reflexivity|]);
    (split; [|split; [|reflexivity]]); intros; try discriminate; try reflexivity.
  match goal with H : Some _ = Some _ |- _ => inversion H; subst end.
  apply orZero_known.
Qed.

Lemma failed_fetch_installs_fallback_witness :
  let env := mkEnv (fun _ _ => inl "network error"%string) utc
                   (fun _ => 1704067200000%Z) in
  let product := SerpProduct.make "Phone" "Rs 100" None None None None "" "" "" in
  exists w',
    startTracking env product (mkWorld initialStore 0) = (inr tt, w') /\
    priceHistory (store w') =
      [ PricePoint.make "2023-11-27" 100; PricePoint.make "2023-12-04" 100;
        PricePoint.make "2023-12-11" 100; PricePoint.make "2023-12-18" 100;
        PricePoint.make "2023-12-25" 100; PricePoint.make "2024-01-01" 100 ].
Proof.
  destruct (failed_fetch_installs_fallback
              (mkEnv (fun _ _ => inl "network error"%string) utc
                     (fun _ => 1704067200000%Z))
              (SerpProduct.make "Phone" "Rs 100" None None None None "" "" "")
              (mkWorld initialStore 0) "network error"%string)
    as (w' & E & H & _).
  - reflexivity.
  - exists w'. split; [exact E|]. rewrite H. reflexivity.
Defined.

(** C9: the failing run.  On a host in New York whose clock reads
    2024-03-12T23:30:00Z, a rejected fetch for a product priced
    "Rs 100" is absorbed and six points priced 100 are stored, but
    their dates are not one week apart: the change of clocks of
    10 March lies between the last two, which are 6 days apart. *)
Theorem fallback_dates_across_clock_change :
  let env := mkEnv (fun _ _ => inl "network error"%string) newYorkSpring2024
                   (fun _ => 1710286200000%Z) in
  let product := SerpProduct.make "Phone" "Rs 100" None None None None "" "" "" in
  exists w',
    startTracking env product (mkWorld initialStore 0) = (inr tt, w') /\
    priceHistory (store w') =
      [ PricePoint.make "2024-02-07" 100; PricePoint.make "2024-02-14" 100;
        PricePoint.make "2024-02-21" 100; PricePoint.make "2024-02-28" 100;
        PricePoint.make "2024-03-06" 100; PricePoint.make "2024-03-12" 100 ] /\
    toISOString 1710286200000 = "2024-03-12T23:30:00.000Z"%string /\
    (dayBefore newYorkSpring2024 1710286200000 0
     - dayBefore newYorkSpring2024 1710286200000 7 = 6)%Z /\
    ~ fixedOffset newYorkSpring2024.
Proof.
  eexists. split; [vm_compute; reflexivity|]. split; [reflexivity|].
  split; [reflexivity|]. split; [reflexivity|].
  intros (k & Hk).
  destruct (Hk 0%Z) as [H0 _]. destruct (Hk 1710054000000%Z) as [H1 _].
  cbn in H0, H1. lia.
Qed.

(** ** The day-count history *)

Lemma historyLoop_points (base : Q) (rnd : Rng) (zone : TimeZone) (clock : nat -> Z)
    (fuel : nat) :
  forall i k t,
    (-1 <= i)%Z -> (i + 1 <= Z.of_nat fuel)%Z ->
    historyLoop fuel i base rnd k zone clock t =
    map (loopPoint base rnd zone clock i k t) (seq 0 (Z.to_nat (i + 1))).
Proof.
  induction fuel as [|fuel IH]; intros i k t Hlo Hhi.
  - replace i with (-1)%Z by lia. reflexivity.
  - cbn [historyLoop]. destruct (0 <=? i)%Z eqn:E.
    + apply Z.leb_le in E.
      rewrite IH by lia.
      replace (Z.to_nat (i + 1)) with (S (Z.to_nat (i - 1 + 1))) by lia.
      cbn [seq map]. rewrite <- seq_shift, map_map.
      f_equal.
      * unfold loopPoint. rewrite date_days_before.
        rewrite Nat.add_0_r, Nat.mul_0_r, Nat.add_0_r, Z.sub_0_r. reflexivity.
      * apply map_ext. intros j. unfold loopPoint.
        replace (S t + j)%nat with (t + S j)%nat by lia.
        replace (i - 1 - Z.of_nat j)%Z with (i - Z.of_nat (S j))%Z by lia.
        replace (S (S k) + 2 * j)%nat with (k + 2 * S j)%nat by lia.
        reflexivity.
    + apply Z.leb_gt in E. replace i with (-1)%Z by lia. reflexivity.
Qed.

Lemma Math_floor_range (r : Q) (n : Z) :
  0 <= r -> r < 1 -> (0 < n)%Z ->
  exists f, Math_floor (r * inject_Z n) = inject_Z f /\ (0 <= f <= n - 1)%Z.
Proof.
  intros Hlo Hhi Hn. exists (Qfloor (r * inject_Z n)). split; [reflexivity|].
  assert (Hpos : 0 < inject_Z n)
    by (change 0 with (inject_Z 0); now rewrite <- Zlt_Qlt).
  split.
  - change 0%Z with (Qfloor 0). apply Qfloor_resp_le.
    apply Qmult_le_0_compat; lra.
  - pose proof (Qfloor_le (r * inject_Z n)) as Hf.
    assert (Hlt : r * inject_Z n < inject_Z n).
    { setoid_replace (inject_Z n) with (1 * inject_Z n) at 2 by ring.
      apply Qmult_lt_compat_r; assumption. }
    assert (inject_Z (Qfloor (r * inject_Z n)) < inject_Z n)
      by (eapply Qle_lt_trans; eassumption).
    rewrite <- Zlt_Qlt in H. lia.
Qed.

(** C4 as stated fails: the base price of the day-count history is a
    random draw, not the category price of the product (for "iPhone 15"
    with every draw 1/2 it is 45000, a value that is not in the category
    table at all, and every price returned is 45000, a number), and a
    request for 60 days yields 61 points. *)
Lemma history_base_price_not_from_table :
  let rnd : Rng := fun _ => 1 # 2 in
  let out := getPriceHistory "iPhone 15" (Some 60%Z) rnd utc
               (fun _ => 1704067200000%Z) in
  historyBasePrice rnd == 45000 /\
  basePrice "iPhone 15" = 50000 /\
  ~ historyBasePrice rnd == basePrice "iPhone 15" /\
  Forall (fun entry => ~ snd entry == 45000) categories /\
  Forall (fun h => HistoryPoint.price h == 45000) out /\
  length out = 61%nat.
Proof.
  cbn zeta.
  split; [vm_compute; reflexivity|]. split; [reflexivity|].
  split; [vm_compute; discriminate|].
  split; [unfold categories; repeat constructor; vm_compute; discriminate|].
  split; [|vm_compute; reflexivity].
  unfold getPriceHistory.
  rewrite historyLoop_points by lia.
  apply Forall_forall. intros h Hin.
  apply in_map_iff in Hin. destruct Hin as (j & <- & _).
  vm_compute. reflexivity.
Qed.

(** C4, amended.  For every product name and every day count
    [days >= 0], [getPriceHistory] returns [days + 1] points, point [j]
    dated [days - j] local days before the clock reading of its round;
    where the offset of the time zone never changes these are the
    consecutive days from [days] days ago to the day of the call.  The
    base price does not come from the category table and does not depend
    on the product name: it is the integer part of the first draw times
    50000, plus 20000, an integer from 20000 to 69999; every price is a
    number, the base price plus an integer from -500 to 499; without a
    day count the window is 30 days. *)
Theorem getPriceHistory_points
    (productName : string) (days : Z) (rnd : Rng) (zone : TimeZone)
    (clock : nat -> Z) :
  (0 <= days)%Z -> unit_draws rnd ->
  let out := getPriceHistory productName (Some days) rnd zone clock in
  let base := historyBasePrice rnd in
  out = map (fun j => HistoryPoint.make
                        (isoDate (dayBefore zone (clock j) (days - Z.of_nat j)))
                        (base + Math_floor (rnd (1 + 2 * j)%nat * 1000) - 500)
                        (Math_floor (rnd (2 + 2 * j)%nat * 100) + 10))
            (seq 0 (Z.to_nat (days + 1))) /\
  length out = Z.to_nat (days + 1) /\
  (fixedOffset zone ->
   map HistoryPoint.date out =
     map (fun j => isoDate (clock j / msPerDay - (days - Z.of_nat j)))
         (seq 0 (Z.to_nat (days + 1)))) /\
  (exists b, base = inject_Z b + 20000 /\ (0 <= b <= 49999)%Z) /\
  Forall (fun h => exists n, HistoryPoint.price h = base + inject_Z n - 500 /\
                             (0 <= n <= 999)%Z) out /\
  (forall otherName, getPriceHistory otherName (Some days) rnd zone clock = out) /\
  getPriceHistory productName None rnd zone clock =
    getPriceHistory productName (Some 30%Z) rnd zone clock.
Proof.
  intros Hdays Hrnd out base.
  assert (E : out = map (loopPoint base rnd zone clock days 1 0)
                      (seq 0 (Z.to_nat (days + 1)))).
  { subst out. unfold getPriceHistory. apply historyLoop_points; lia. }
  split; [exact E|].
  split; [rewrite E, length_map, length_seq; reflexivity|].
  split.
  { intros Hz. rewrite E, map_map. apply map_ext. intros j.
    unfold loopPoint. cbn [HistoryPoint.date].
    now rewrite (dayBefore_fixedOffset _ _ _ Hz). }
  split.
  - destruct (Hrnd 0%nat) as [Hlo Hhi].
    destruct (Math_floor_range (rnd 0%nat) 50000 Hlo Hhi ltac:(lia)) as (b & Hb & Hr).
    exists b. subst base. unfold historyBasePrice.
    change 50000 with (inject_Z 50000). rewrite Hb. split; [reflexivity | lia].
  - split; [|split; reflexivity].
    rewrite E. apply Forall_forall. intros h Hin.
    apply in_map_iff in Hin. destruct Hin as (j & <- & _).
    destruct (Hrnd (1 + 2 * j)%nat) as [Hlo Hhi].
    destruct (Math_floor_range _ 1000 Hlo Hhi ltac:(lia)) as (n & Hn & Hr).
    exists n. unfold loopPoint. cbn [HistoryPoint.price].
    change 1000 with (inject_Z 1000). rewrite Hn. split; [reflexivity | lia].
Qed.

Lemma getPriceHistory_points_witness :
  getPriceHistory "iPhone 15" (Some 2%Z) (fun _ => 1 # 2) utc
    (fun _ => 1704067200000%Z) =
  [ HistoryPoint.make "2023-12-30" (Math_floor ((1 # 2) * 50000) + 20000
                                     + Math_floor ((1 # 2) * 1000) - 500)
                                   (Math_floor ((1 # 2) * 100) + 10);
    HistoryPoint.make "2023-12-31" (Math_floor ((1 # 2) * 50000) + 20000
                                     + Math_floor ((1 # 2) * 1000) - 500)
                                   (Math_floor ((1 # 2) * 100) + 10);
    HistoryPoint.make "2024-01-01" (Math_floor ((1 # 2) * 50000) + 20000
                                     + Math_floor ((1 # 2) * 1000) - 500)
                                   (Math_floor ((1 # 2) * 100) + 10) ].
Proof.
  destruct (getPriceHistory_points "iPhone 15" 2 (fun _ => 1 # 2) utc
              (fun _ => 1704067200000%Z)) as (E & _).
  - lia.
  - intros k. split; [unfold Qle | unfold Qlt]; simpl; lia.
  - rewrite E. reflexivity.
Defined.

(** Across a change of clocks the days of the window are not one per
    point: on a host in New York whose clock reads 2024-03-12T23:30:00Z
    a window of 5 days holds 10 March twice and starts on 8 March. *)
Example getPriceHistory_across_clock_change :
  map HistoryPoint.date
    (getPriceHistory "iPhone 15" (Some 5%Z) (fun _ => 1 # 2) newYorkSpring2024
       (fun _ => 1710286200000%Z)) =
  ["2024-03-08"; "2024-03-09"; "2024-03-10"; "2024-03-10"; "2024-03-11";
   "2024-03-12"]%string.
Proof. vm_compute. reflexivity. Qed.

(** * Further properties *)

(** ** Tracking a product *)

Import ProductProvider.

(** Runs the state updates of a task without unfolding what they store. *)
Ltac run_task :=
  cbn [setSelectedProduct setSelectedProductDetails setCurrentPrice
       setPriceHistory setLastUpdated update newDate ret store ticks
       priceHistory lastUpdated currentPrice selectedProduct
       selectedProductDetails fst snd].

Lemma parsePriceToNumber_nonneg (priceStr : option string) (c : Q) :
  parsePriceToNumber priceStr = Some c -> 0 <= c.
Proof.
  destruct priceStr as [s|]; [|discriminate].
  rewrite parsePriceToNumber_unfold. intros H.
  destruct (numericStart (stripNonNumeric s)) eqn:E.
  - destruct (parseFloat_numericStart _ E) as (q & Hq & Hpos). congruence.
  - rewrite (parseFloat_not_numericStart _ E) in H. discriminate.
Qed.

Lemma fallbackLoop_prices (zone : TimeZone) (today : Z) (parsed : option Q) :
  Forall (fun p => PricePoint.price p = orZero parsed)
         (fallbackLoop 6 5 zone today parsed) /\
  length (fallbackLoop 6 5 zone today parsed) = 6%nat.
Proof. rewrite fallbackLoop_six. split; [repeat constructor | reflexivity]. Qed.

(** Whatever the history service does, a product whose price string
    parses to [c] is stored with current price [c], and the stored
    series, unless the service returned no point at all, ends at a price
    equal to [c]; no stored price is negative. *)
Theorem tracked_series_ends_at_current_price
    (env : Env) (product : SerpProduct.t) (w : World) (c : Q) :
  parsePriceToNumber (Some (SerpProduct.price product)) = Some c ->
  exists w',
    startTracking env product w = (inr tt, w') /\
    selectedProduct (store w') = SerpProduct.title product /\
    currentPrice (store w') = Some c /\
    (priceHistory (store w') = [] <->
       fetchHistory env (SerpProduct.title product) 60 = inr []) /\
    (forall init l, priceHistory (store w') = init ++ [l] -> PricePoint.price l == c) /\
    Forall (fun p => 0 <= PricePoint.price p) (priceHistory (store w')).
Proof.
  intros Hp. pose proof (parsePriceToNumber_nonneg _ _ Hp) as Hc.
  unfold startTracking, bind, try_catch, await. rewrite Hp.
  destruct (fetchHistory env (SerpProduct.title product) 60) as [e | history].
  - run_task. eexists. split; [reflexivity|]. run_task.
    split; [reflexivity|]. split; [reflexivity|].
    destruct (fallbackLoop_prices (zone env) (clock env (ticks w)) (Some c))
      as [Hall Hlen].
    split; [|split].
    + split; [|discriminate]. intros E. rewrite E in Hlen. discriminate.
    + intros init l E. rewrite E in Hall.
      apply Forall_app in Hall. destruct Hall as [_ Hl].
      inversion Hl; subst. rewrite H1. apply orZero_known.
    + eapply Forall_impl; [|exact Hall]. intros p Hpz. rewrite Hpz.
      rewrite orZero_known. exact Hc.
  - run_task. eexists. split; [reflexivity|]. run_task.
    split; [reflexivity|]. split; [reflexivity|].
    destruct (snoc_cases history) as [E | (initH & lastH & E)]; subst history.
    + split; [|split].
      * split; reflexivity.
      * intros init l E. destruct init; discriminate.
      * constructor.
    + rewrite reconcile_snoc. split; [|split].
      * split; intros E.
        -- destruct (map _ (map cleaned initH)); discriminate.
        -- inversion E. destruct initH; discriminate.
      * intros init l E. apply app_inj_tail in E. destruct E as [_ <-]. reflexivity.
      * apply Forall_app. split.
        -- apply Forall_forall. intros p Hin.
           apply in_map_iff in Hin. destruct Hin as (q & <- & _). cbn.
           apply Math_max_nonneg.
        -- constructor; [exact Hc | constructor].
Qed.

Lemma tracked_series_ends_at_current_price_witness :
  let env := mkEnv (fun _ _ => inr [HistoryPoint.make "2024-01-01" 1000 25;
                                    HistoryPoint.make "2024-01-08" 1050 31])
                   utc (fun _ => 1704067200000%Z) in
  let product := SerpProduct.make "Phone" "Rs 1,100" None None None None "" "" "" in
  exists w',
    startTracking env product (mkWorld initialStore 0) = (inr tt, w') /\
    currentPrice (store w') = Some 1100 /\
    Forall (fun p => 0 <= PricePoint.price p) (priceHistory (store w')).
Proof.
  destruct (tracked_series_ends_at_current_price
              (mkEnv (fun _ _ => inr [HistoryPoint.make "2024-01-01" 1000 25;
                                      HistoryPoint.make "2024-01-08" 1050 31])
                     utc (fun _ => 1704067200000%Z))
              (SerpProduct.make "Phone" "Rs 1,100" None None None None "" "" "")
              (mkWorld initialStore 0) 1100)
    as (w' & E & _ & Hc & _ & _ & Hall).
  - reflexivity.
  - exists w'. split; [exact E|]. split; [exact Hc | exact Hall].
Defined.

(** A product whose price string holds no number is tracked without a
    current price of its own: after tracking [first] (price parsed to
    [c]) and then [second] (nothing parsed), the store names [second]
    but still holds [c]; the series of [second] is the fetched one only
    clamped and rounded, with no alignment, or the fallback at price 0. *)
Theorem unparsed_price_keeps_previous_current_price
    (env : Env) (first second : SerpProduct.t) (w : World) (c : Q) :
  parsePriceToNumber (Some (SerpProduct.price first)) = Some c ->
  parsePriceToNumber (Some (SerpProduct.price second)) = None ->
  exists w1 w2,
    startTracking env first w = (inr tt, w1) /\
    startTracking env second w1 = (inr tt, w2) /\
    selectedProduct (store w2) = SerpProduct.title second /\
    selectedProductDetails (store w2) = Some second /\
    currentPrice (store w2) = Some c /\
    (forall history,
       fetchHistory env (SerpProduct.title second) 60 = inr history ->
       priceHistory (store w2) = map cleaned history) /\
    (forall e,
       fetchHistory env (SerpProduct.title second) 60 = inl e ->
       length (priceHistory (store w2)) = 6%nat /\
       Forall (fun p => PricePoint.price p = 0) (priceHistory (store w2))).
Proof.
  intros H1 H2.
  unfold startTracking, bind, try_catch, await. rewrite H1, H2.
  destruct (fetchHistory env (SerpProduct.title first) 60);
    destruct (fetchHistory env (SerpProduct.title second) 60);
    run_task; eexists; eexists;
    (split; [reflexivity|]); (split; [reflexivity|]); run_task;
    (split; [reflexivity|]); (split; [reflexivity|]); (split; [reflexivity|]);
    split; intros x Hx; inversion Hx; subst;
    try reflexivity;
    (split; [reflexivity | rewrite fallbackLoop_six; repeat constructor]).
Qed.

Lemma unparsed_price_keeps_previous_current_price_witness :
  let env := mkEnv (fun _ _ => inr [HistoryPoint.make "2024-01-01" 1000 25;
                                    HistoryPoint.make "2024-01-08" 1050 31])
                   utc (fun _ => 1704067200000%Z) in
  let first := SerpProduct.make "Phone" "Rs 1,100" None None None None "" "" "" in
  let second :=
    SerpProduct.make "Lamp" "Price not available" None None None None "" "" "" in
  exists w1 w2,
    startTracking env first (mkWorld initialStore 0) = (inr tt, w1) /\
    startTracking env second w1 = (inr tt, w2) /\
    selectedProduct (store w2) = "Lamp"%string /\
    currentPrice (store w2) = Some 1100 /\
    priceHistory (store w2) =
      [PricePoint.make "2024-01-01" 1000; PricePoint.make "2024-01-08" 1050].
Proof.
  destruct (unparsed_price_keeps_previous_current_price
              (mkEnv (fun _ _ => inr [HistoryPoint.make "2024-01-01" 1000 25;
                                      HistoryPoint.make "2024-01-08" 1050 31])
                     utc (fun _ => 1704067200000%Z))
              (SerpProduct.make "Phone" "Rs 1,100" None None None None "" "" "")
              (SerpProduct.make "Lamp" "Price not available" None None None None "" "" "")
              (mkWorld initialStore 0) 1100)
    as (w1 & w2 & E1 & E2 & Hs & _ & Hc & Hh & _).
  - reflexivity.
  - reflexivity.
  - exists w1, w2. split; [exact E1|]. split; [exact E2|].
    split; [exact Hs|]. split; [exact Hc|].
    rewrite (Hh _ eq_refl). reflexivity.
Defined.

(** Clearing the selection undoes tracking: whatever was tracked, the
    store is the initial one again. *)
Lemma clearSelectedProduct_resets (w : World) :
  clearSelectedProduct w = (inr tt, mkWorld initialStore (ticks w)).
Proof. reflexivity. Qed.

Lemma Math_round_shift (x : Q) (d : Z) :
  Math_round (x + inject_Z d) == Math_round x + inject_Z d.
Proof.
  unfold Math_round. rewrite <- inject_Z_plus.
  replace (Qfloor (x + inject_Z d + (1 # 2))) with (Qfloor (x + (1 # 2)) + d)%Z;
    [reflexivity|].
  symmetry. apply Qfloor_unique.
  - rewrite inject_Z_plus. pose proof (Qfloor_le (x + (1 # 2))). lra.
  - rewrite !inject_Z_plus. pose proof (Qlt_floor (x + (1 # 2))) as H.
    rewrite inject_Z_plus in H. lra.
Qed.





(** ** The synthetic chart *)

Import PriceChartView.

Lemma Math_round_natural (x : Q) : 0 <= x -> natural (Math_round x).
Proof.
  intros Hx. exists (Qfloor (x + (1 # 2))). split; [|reflexivity].
  change 0%Z with (Qfloor 0). apply Qfloor_resp_le. lra.
Qed.

Lemma firstMatch_in_table (P : Q -> Prop) (lower : string)
    (table : list (string * string * Q)) :
  Forall (fun entry => P (snd entry)) table -> P 1000 -> P (firstMatch lower table).
Proof.
  intros Ht Hd. induction Ht as [|[[a b] p] rest Hp _ IH]; cbn [firstMatch];
    [exact Hd|].
  destruct (includes lower a || includes lower b)%bool; [exact Hp | exact IH].
Qed.

(** Every base price of the chain is an integer from 200 to 80000. *)
Lemma basePrice_range (productName : string) :
  natural (basePrice productName) /\
  200 <= basePrice productName /\ basePrice productName <= 80000.
Proof.
  unfold basePrice.
  apply (firstMatch_in_table (fun q => natural q /\ 200 <= q /\ q <= 80000)).
  - unfold categories.
    repeat (apply Forall_cons;
            [cbn [snd]; split;
             [eexists; split; [|reflexivity]; lia
             | split; unfold Qle; simpl; lia] |]).
    apply Forall_nil.
  - split; [exists 1000%Z; split; [lia | reflexivity]|].
    split; unfold Qle; simpl; lia.
Qed.

Lemma scaled_round (p f lo hi : Q) :
  0 <= p -> lo <= f -> f <= hi -> 0 <= lo ->
  natural (Math_round (p * f)) /\
  lo * p - (1 # 2) < Math_round (p * f) /\ Math_round (p * f) <= hi * p + (1 # 2).
Proof.
  intros Hp Hlo Hhi H0.
  assert (Hl : lo * p <= p * f).
  { rewrite (Qmult_comm p f). apply Qmult_le_compat_r; assumption. }
  assert (Hh : p * f <= hi * p).
  { rewrite (Qmult_comm p f). apply Qmult_le_compat_r; assumption. }
  assert (H0p : 0 <= lo * p) by (apply Qmult_le_0_compat; assumption).
  pose proof (Math_round_lower (p * f)). pose proof (Math_round_upper (p * f)).
  split; [apply Math_round_natural; lra|]. split; lra.
Qed.

(** The synthetic chart never shows a zero or a negative price: for
    every product name, all 12 values that [generatePriceData] returns
    (8 prices and 4 predictions) are positive integers. *)
Theorem generated_prices_are_positive_integers (productName : string) (rnd : Rng) :
  unit_draws rnd ->
  let values := allPrices (generatePriceData productName rnd) in
  length values = 12%nat /\
  Forall (fun v => natural v /\ 0 < v) values.
Proof.
  intros Hrnd. cbn zeta. rewrite generatePriceData_rows.
  destruct (basePrice_range productName) as (_ & Hb & _).
  set (base := basePrice productName) in *.
  assert (Hstep : forall k p, 0 <= p ->
            natural (Math_round (p * (1 + (rnd k - (1 # 2)) * (3 # 10)))) /\
            (85 # 100) * p - (1 # 2) < Math_round (p * (1 + (rnd k - (1 # 2)) * (3 # 10)))).
  { intros k p Hp. destruct (Hrnd k) as [Hl Hh].
    destruct (scaled_round p (1 + (rnd k - (1 # 2)) * (3 # 10)) (85 # 100) (115 # 100))
      as (Hn & Hlow & _); try lra. split; assumption. }
  assert (Hdrift : forall j k aug, (0 <= j <= 3)%Z -> 0 <= aug ->
            natural (linearDrift aug j (rnd k)) /\
            (87 # 100) * aug - (1 # 2) < linearDrift aug j (rnd k)).
  { intros j k aug Hj Ha. destruct (Hrnd k) as [Hl Hh]. unfold linearDrift.
    assert (Hjq : 1 <= inject_Z (j + 1) /\ inject_Z (j + 1) <= 4).
    { change 1 with (inject_Z 1). change 4 with (inject_Z 4).
      rewrite <- !Zle_Qle. lia. }
    destruct (scaled_round aug
                (1 + - (2 # 100) * inject_Z (j + 1) + (rnd k - (1 # 2)) * (1 # 10))
                (87 # 100) (103 # 100)) as (Hn & Hlow & _); try lra.
    split; assumption. }
  cbn [randomWalk].
  set (p1 := Math_round (base * _)). set (p2 := Math_round (p1 * _)).
  set (p3 := Math_round (p2 * _)). set (p4 := Math_round (p3 * _)).
  set (p5 := Math_round (p4 * _)). set (p6 := Math_round (p5 * _)).
  set (p7 := Math_round (p6 * _)). set (p8 := Math_round (p7 * _)).
  destruct (Hstep 0%nat base ltac:(lra)) as [N1 L1]. fold p1 in N1, L1.
  destruct (Hstep 1%nat p1 ltac:(lra)) as [N2 L2]. fold p2 in N2, L2.
  destruct (Hstep 2%nat p2 ltac:(lra)) as [N3 L3]. fold p3 in N3, L3.
  destruct (Hstep 3%nat p3 ltac:(lra)) as [N4 L4]. fold p4 in N4, L4.
  destruct (Hstep 4%nat p4 ltac:(lra)) as [N5 L5]. fold p5 in N5, L5.
  destruct (Hstep 5%nat p5 ltac:(lra)) as [N6 L6]. fold p6 in N6, L6.
  destruct (Hstep 6%nat p6 ltac:(lra)) as [N7 L7]. fold p7 in N7, L7.
  destruct (Hstep 7%nat p7 ltac:(lra)) as [N8 L8]. fold p8 in N8, L8.
  cbn [last historicalMonths predictionMonths combine map app allPrices flat_map
       historicalRow predictionRow PriceDataPoint.price PriceDataPoint.prediction
       fst snd length].
  split; [reflexivity|].
  destruct (Hdrift 0%Z 8%nat p8 ltac:(lia) ltac:(lra)) as [M1 D1].
  destruct (Hdrift 1%Z 9%nat p8 ltac:(lia) ltac:(lra)) as [M2 D2].
  destruct (Hdrift 2%Z 10%nat p8 ltac:(lia) ltac:(lra)) as [M3 D3].
  destruct (Hdrift 3%Z 11%nat p8 ltac:(lia) ltac:(lra)) as [M4 D4].
  repeat (apply Forall_cons; [split; [assumption | lra] |]).
  apply Forall_nil.
Qed.

Lemma generated_prices_are_positive_integers_witness :
  allPrices (generatePriceData "novel" (fun _ => 0)) =
    [425; 361; 307; 261; 222; 189; 161; 137; 127; 125; 122; 119] /\
  Forall (fun v => natural v /\ 0 < v)
         (allPrices (generatePriceData "novel" (fun _ => 0))).
Proof.
  split; [vm_compute; reflexivity|].
  apply (generated_prices_are_positive_integers "novel" (fun _ => 0)).
  intros k. split; [unfold Qle | unfold Qlt]; simpl; lia.
Defined.

(** ** The projected chart *)

Lemma labelHistorical_by_prices (r1 : list PricePoint.t) :
  forall r2 i,
    map PricePoint.price r1 = map PricePoint.price r2 ->
    labelHistorical r1 i = labelHistorical r2 i.
Proof.
  induction r1 as [|p r1 IH]; intros [|q r2] i E; try discriminate; [reflexivity|].
  cbn in E. inversion E as [[Hp Hr]]. cbn [labelHistorical].
  rewrite Hp, (IH r2 (S i) Hr). reflexivity.
Qed.

Lemma labelHistorical_prices (recent : list PricePoint.t) :
  forall i, (length recent + i <= 12)%nat ->
    map PriceDataPoint.price (labelHistorical recent i) =
    map Some (map PricePoint.price recent).
Proof.
  induction recent as [|p rest IH]; intros i Hi; cbn [labelHistorical];
    [reflexivity|].
  cbn [length] in Hi. change (length months) with 12%nat.
  replace (12 <=? i)%nat with false by (symmetry; apply Nat.leb_gt; lia).
  cbn [map PriceDataPoint.price]. rewrite IH by lia. reflexivity.
Qed.

Lemma slice_last_map {A B} (f : A -> B) (n : nat) (xs : list A) :
  slice_last n (map f xs) = map f (slice_last n xs).
Proof. unfold slice_last. now rewrite length_map, skipn_map. Qed.

Lemma projectRecent_by_prices (r1 r2 : list PricePoint.t) target rnd :
  map PricePoint.price r1 = map PricePoint.price r2 ->
  projectRecent r1 target rnd = projectRecent r2 target rnd.
Proof.
  intros E. unfold projectRecent.
  rewrite E, (labelHistorical_by_prices r1 r2 0 E). reflexivity.
Qed.

Lemma forecastLoop_three (cli : Z) target avg avgStep rnd k current :
  (cli + 3 < 12)%Z ->
  let rows := forecastLoop 3 1 cli target avg avgStep rnd k current in
  length rows = 3%nat /\ map PriceDataPoint.price rows = [None; None; None].
Proof.
  intros Hcli. cbn [forecastLoop].
  change (Z.of_nat (length months)) with 12%Z.
  change (1 + 1 + 1)%Z with 3%Z. change (1 + 1)%Z with 2%Z.
  replace (cli + 1 <? 12)%Z with true by (symmetry; apply Z.ltb_lt; lia).
  replace (cli + 2 <? 12)%Z with true by (symmetry; apply Z.ltb_lt; lia).
  replace (cli + 3 <? 12)%Z with true by (symmetry; apply Z.ltb_lt; lia).
  cbn [Z.leb Z.compare Pos.compare Pos.compare_cont andb].
  destruct (forecastStep target avg avgStep rnd k 1 current) as [c1 k1].
  destruct (forecastStep target avg avgStep rnd k1 2 c1) as [c2 k2].
  destruct (forecastStep target avg avgStep rnd k2 3 c2) as [c3 k3].
  split; reflexivity.
Qed.

(** The chart built from a real series shows its last 8 prices (all of
    them when there are fewer) followed by exactly 3 forecast rows, and
    it never reads the dates of the series: two series with the same
    prices give the same chart. *)
Theorem projection_shows_last_prices
    (history : list PricePoint.t) (target : option Q) (rnd : Rng) :
  history <> [] ->
  let out := projectFromHistory history target rnd in
  length out = (Nat.min (length history) 8 + 3)%nat /\
  map PriceDataPoint.price out =
    map Some (map PricePoint.price (slice_last 8 history)) ++ [None; None; None] /\
  (forall history',
     map PricePoint.price history' = map PricePoint.price history ->
     projectFromHistory history' target rnd = out).
Proof.
  intros Hne out.
  assert (Hext : forall history',
            map PricePoint.price history' = map PricePoint.price history ->
            projectFromHistory history' target rnd = out).
  { intros h' E. subst out. unfold projectFromHistory.
    destruct history as [|p rest]; [contradiction|].
    destruct h' as [|p' rest']; [discriminate|].
    rewrite (projectRecent_by_prices (slice_last 8 (p' :: rest'))
               (slice_last 8 (p :: rest))); [reflexivity|].
    now rewrite <- !slice_last_map, E. }
  assert (Hlen8 : length (slice_last 8 history) = Nat.min (length history) 8)
    by apply slice_last_length.
  assert (Hpos : (0 < length history)%nat)
    by (destruct history; [contradiction | cbn; lia]).
  cut (length out = (Nat.min (length history) 8 + 3)%nat /\
       map PriceDataPoint.price out =
         map Some (map PricePoint.price (slice_last 8 history)) ++ [None; None; None]).
  { intros [H1 H2]. split; [exact H1|]. split; [exact H2 | exact Hext]. }
  clear Hext. subst out. unfold projectFromHistory.
  destruct history as [|p rest] eqn:Eh; [contradiction|]. rewrite <- Eh in *.
  unfold projectRecent.
  set (recent := slice_last 8 history) in *.
  destruct (labelHistorical_dates recent 0 ltac:(lia)) as [_ Hl].
  cbn zeta in Hl. rewrite Nat.sub_0_r in Hl.
  rewrite Nat.min_l in Hl by lia.
  set (prices := map PricePoint.price recent).
  match goal with
  | |- context [forecastLoop 3 1 ?cli target ?avg ?avgStep rnd 0 ?cur] =>
      destruct (forecastLoop_three cli target avg avgStep rnd 0 cur) as [Fl Fp];
        [rewrite Hl; lia|]
  end.
  cbn zeta in Fl, Fp.
  split.
  - rewrite length_app, Fl, Hl, Hlen8. reflexivity.
  - rewrite map_app, Fp, labelHistorical_prices by lia. reflexivity.
Qed.

Lemma projection_shows_last_prices_witness :
  map PriceDataPoint.price
    (projectFromHistory
       [PricePoint.make "2024-01-01" 1000; PricePoint.make "2024-01-08" 1050]
       None (fun _ => 1 # 2)) =
  [Some 1000; Some 1050; None; None; None].
Proof.
  apply (projection_shows_last_prices
           [PricePoint.make "2024-01-01" 1000; PricePoint.make "2024-01-08" 1050]
           None (fun _ => 1 # 2)).
  discriminate.
Defined.

Lemma Math_round_mono (x y : Q) : x <= y -> Math_round x <= Math_round y.
Proof.
  intros H. unfold Math_round. rewrite <- Zle_Qle. apply Qfloor_resp_le. lra.
Qed.

Lemma Math_max0_mono (x y : Q) : x <= y -> Math_max 0 x <= Math_max 0 y.
Proof.
  intros H. unfold Math_max.
  destruct (Qle_bool 0 x) eqn:Ex; destruct (Qle_bool 0 y) eqn:Ey;
    try apply Qle_bool_iff in Ex; try apply Qle_bool_iff in Ey; try lra.
  assert (~ 0 <= y) by (intros C; apply Qle_bool_iff in C; congruence). lra.
Qed.

Lemma Math_max0_ge (x : Q) : x <= Math_max 0 x.
Proof.
  unfold Math_max. destruct (Qle_bool 0 x) eqn:E; [lra|].
  assert (~ 0 <= x) by (intros C; apply Qle_bool_iff in C; congruence). lra.
Qed.

Lemma Math_max0_le (x u : Q) : 0 <= u -> x <= u -> Math_max 0 x <= u.
Proof. intros Hu Hx. unfold Math_max. destruct (Qle_bool 0 x); assumption. Qed.

Lemma Math_round_ge_integer (z : Z) (x : Q) :
  inject_Z z - (1 # 2) <= x -> inject_Z z <= Math_round x.
Proof.
  intros H. unfold Math_round. rewrite <- Zle_Qle.
  rewrite <- (Qfloor_Z z) at 1. apply Qfloor_resp_le. lra.
Qed.

Lemma Math_round_le_integer (z : Z) (x : Q) :
  x < inject_Z z + (1 # 2) -> Math_round x <= inject_Z z.
Proof.
  intros H. unfold Math_round. rewrite <- Zle_Qle.
  pose proof (Qfloor_le (x + (1 # 2))) as Hf.
  assert (Hlt : inject_Z (Qfloor (x + (1 # 2))) < inject_Z (z + 1)).
  { rewrite inject_Z_plus. change (inject_Z 1) with 1. lra. }
  rewrite <- Zlt_Qlt in Hlt. lia.
Qed.

Lemma predictions_app (xs ys : list PriceDataPoint.t) :
  predictions (xs ++ ys) = predictions xs ++ predictions ys.
Proof. unfold predictions. apply flat_map_app. Qed.

Lemma predictions_historical (rows : list PriceDataPoint.t) :
  Forall isHistorical rows -> predictions rows = [].
Proof.
  induction 1 as [|row rows [Hp _] _ IH]; [reflexivity|].
  unfold predictions in *. cbn [flat_map]. now rewrite Hp, IH.
Qed.


(** ** The vertical axis *)

Lemma Math_min_le_l (a b : Q) : Math_min a b <= a.
Proof.
  unfold Math_min. destruct (Qle_bool a b) eqn:E; [lra|].
  assert (~ a <= b) by (intros C; apply Qle_bool_iff in C; congruence). lra.
Qed.

Lemma Math_min_le_r (a b : Q) : Math_min a b <= b.
Proof.
  unfold Math_min. destruct (Qle_bool a b) eqn:E; [|lra].
  now apply Qle_bool_iff.
Qed.

Lemma Math_max_ge_l (a b : Q) : a <= Math_max a b.
Proof.
  unfold Math_max. destruct (Qle_bool a b) eqn:E; [|lra].
  now apply Qle_bool_iff.
Qed.

Lemma Math_max_ge_r (a b : Q) : b <= Math_max a b.
Proof.
  unfold Math_max. destruct (Qle_bool a b) eqn:E; [lra|].
  assert (~ a <= b) by (intros C; apply Qle_bool_iff in C; congruence). lra.
Qed.

Lemma Math_max_cases (a b : Q) : Math_max a b = a \/ Math_max a b = b.
Proof. unfold Math_max. destruct (Qle_bool a b); auto. Qed.

Lemma minOf_below (rest : list Q) :
  forall x v, In v (x :: rest) -> minOf x rest <= v.
Proof.
  unfold minOf. induction rest as [|y rest IH]; intros x v Hin; cbn [fold_left].
  - destruct Hin as [<- | []]. lra.
  - destruct Hin as [<- | [<- | Hin]].
    + eapply Qle_trans; [apply IH; left; reflexivity | apply Math_min_le_l].
    + eapply Qle_trans; [apply IH; left; reflexivity | apply Math_min_le_r].
    + apply IH. right. exact Hin.
Qed.

Lemma maxOf_above (rest : list Q) :
  forall x v, In v (x :: rest) -> v <= maxOf x rest.
Proof.
  unfold maxOf. induction rest as [|y rest IH]; intros x v Hin; cbn [fold_left].
  - destruct Hin as [<- | []]. lra.
  - destruct Hin as [<- | [<- | Hin]].
    + eapply Qle_trans; [apply Math_max_ge_l | apply IH; left; reflexivity].
    + eapply Qle_trans; [apply Math_max_ge_r | apply IH; left; reflexivity].
    + apply IH. right. exact Hin.
Qed.

Lemma minOf_flat (m : Q) (rest : list Q) :
  forall x, x == m -> Forall (fun v => v == m) rest -> minOf x rest == m.
Proof.
  unfold minOf. induction rest as [|y rest IH]; intros x Hx Hall; cbn [fold_left];
    [exact Hx|].
  inversion Hall; subst. apply IH; [|assumption].
  unfold Math_min. destruct (Qle_bool x y); assumption.
Qed.

Lemma maxOf_flat (m : Q) (rest : list Q) :
  forall x, x == m -> Forall (fun v => v == m) rest -> maxOf x rest == m.
Proof.
  unfold maxOf. induction rest as [|y rest IH]; intros x Hx Hall; cbn [fold_left];
    [exact Hx|].
  inversion Hall; subst. apply IH; [|assumption].
  unfold Math_max. destruct (Qle_bool x y); assumption.
Qed.

Lemma yDomain_flat (priceData : list PriceDataPoint.t) (m : Q) :
  1 <= m -> allPrices priceData <> [] ->
  Forall (fun v => v == m) (allPrices priceData) ->
  fst (yDomain priceData) == m /\ snd (yDomain priceData) == m.
Proof.
  intros Hm Hne Hall. unfold yDomain.
  destruct (allPrices priceData) as [|x rest]; [contradiction|]. cbn [fst snd].
  inversion Hall as [|? ? Hx Hrest]; subst.
  set (mn := minOf x rest). set (mx := maxOf x rest).
  assert (Emn : mn == m) by (apply minOf_flat; assumption).
  assert (Emx : mx == m) by (apply maxOf_flat; assumption).
  pose proof (Math_max_ge_r 0 (mn - (mx - mn) * (1 # 10))) as L1.
  pose proof (Math_max_ge_r 1 (mx + (mx - mn) * (1 # 10))) as U1.
  split.
  - destruct (Math_max_cases 0 (mn - (mx - mn) * (1 # 10))) as [Ec | Ec];
      rewrite Ec in *; lra.
  - destruct (Math_max_cases 1 (mx + (mx - mn) * (1 # 10))) as [Ec | Ec];
      rewrite Ec in *; lra.
Qed.

(** The axis of the chart starts at 0 or above and ends at 1 or above;
    no plotted value lies above it, and a plotted value lies below it
    only if it is negative.  When every plotted value is the same number
    [m >= 1] the axis has no height: both bounds are [m]. *)
Theorem yDomain_covers_plotted_values (priceData : list PriceDataPoint.t) :
  let lo := fst (yDomain priceData) in
  let hi := snd (yDomain priceData) in
  0 <= lo /\ 1 <= hi /\ lo <= hi /\
  (forall v, In v (allPrices priceData) -> v <= hi /\ (0 <= v -> lo <= v)) /\
  (forall m, 1 <= m -> allPrices priceData <> [] ->
     Forall (fun v => v == m) (allPrices priceData) -> lo == m /\ hi == m).
Proof.
  unfold yDomain.
  destruct (allPrices priceData) as [|x rest] eqn:E; cbn [fst snd].
  - split; [apply Math_max_ge_l|]. split; [apply Math_max_ge_l|].
    split; [vm_compute; discriminate|].
    split; [intros v []|]. intros m _ H. contradiction.
  - set (mn := minOf x rest). set (mx := maxOf x rest).
    assert (Hmn : forall v, In v (x :: rest) -> mn <= v) by apply minOf_below.
    assert (Hmx : forall v, In v (x :: rest) -> v <= mx) by apply maxOf_above.
    assert (Hr : mn <= mx).
    { eapply Qle_trans; [apply Hmn | apply Hmx]; left; reflexivity. }
    pose proof (Math_max_ge_l 0 (mn - (mx - mn) * (1 # 10))) as L0.
    pose proof (Math_max_ge_l 1 (mx + (mx - mn) * (1 # 10))) as H1.
    pose proof (Math_max_ge_r 1 (mx + (mx - mn) * (1 # 10))) as H2.
    assert (Hlo : forall u, 0 <= u -> mn - (mx - mn) * (1 # 10) <= u ->
                    Math_max 0 (mn - (mx - mn) * (1 # 10)) <= u).
    { intros u Hu Hle. destruct (Math_max_cases 0 (mn - (mx - mn) * (1 # 10))) as [-> | ->];
        assumption. }
    split; [exact L0|]. split; [exact H1|]. split; [|split].
    + apply Hlo; lra.
    + intros v Hin. pose proof (Hmn v Hin). pose proof (Hmx v Hin).
      split; [lra|]. intros Hv. apply Hlo; [exact Hv | lra].
    + intros m Hm Hne Hall.
      pose proof (yDomain_flat priceData m Hm) as F.
      unfold yDomain in F. rewrite E in F. cbn [fst snd] in F.
      apply F; [discriminate | exact Hall].
Qed.

Lemma yDomain_covers_plotted_values_witness :
  let flat := [PriceDataPoint.make (Some "Jan"%string) (Some 100) None;
               PriceDataPoint.make (Some "Feb"%string) None (Some 100)] in
  fst (yDomain flat) == 100 /\ snd (yDomain flat) == 100.
Proof.
  apply (yDomain_covers_plotted_values
           [PriceDataPoint.make (Some "Jan"%string) (Some 100) None;
            PriceDataPoint.make (Some "Feb"%string) None (Some 100)]).
  - unfold Qle; simpl; lia.
  - discriminate.
  - repeat constructor.
Defined.

(** ** The price prediction of the search service *)

(** For draws in [0, 1) the prediction is always one of the three
    directions (the read of the table never leaves it), the confidence
    is an integer from 70 to 99 and the expected change an integer from
    5 to 19: neither reaches 100 or 20, and the change is positive for
    every direction, "fall" included. *)
Theorem predictPrice_ranges (productName : string) (currentPrice : Q) (rnd : Rng) :
  unit_draws rnd ->
  let r := SerpApiService.predictPrice productName currentPrice rnd in
  (exists d, PricePrediction.prediction r = Some d /\
             In d SerpApiService.predictions) /\
  (exists n, PricePrediction.confidence r = inject_Z n + 70 /\ (0 <= n <= 29)%Z) /\
  (exists n, PricePrediction.expectedChange r = inject_Z n + 5 /\ (0 <= n <= 14)%Z) /\
  70 <= PricePrediction.confidence r /\ PricePrediction.confidence r <= 99 /\
  5 <= PricePrediction.expectedChange r /\ PricePrediction.expectedChange r <= 19.
Proof.
  intros Hrnd. cbn zeta. unfold SerpApiService.predictPrice.
  cbn [PricePrediction.prediction PricePrediction.confidence
       PricePrediction.expectedChange].
  destruct (Hrnd 0%nat) as [L0 H0]. destruct (Hrnd 1%nat) as [L1 H1].
  destruct (Hrnd 2%nat) as [L2 H2].
  destruct (Math_floor_range (rnd 0%nat) 3 L0 H0 ltac:(lia)) as (i & Hi & Ri).
  destruct (Math_floor_range (rnd 1%nat) 30 L1 H1 ltac:(lia)) as (a & Ha & Ra).
  destruct (Math_floor_range (rnd 2%nat) 15 L2 H2 ltac:(lia)) as (b & Hb & Rb).
  change (inject_Z 30) with 30 in Ha. change (inject_Z 15) with 15 in Hb.
  rewrite Ha, Hb.
  assert (Qa : 0 <= inject_Z a /\ inject_Z a <= 29).
  { change 0 with (inject_Z 0). change 29 with (inject_Z 29).
    rewrite <- !Zle_Qle. lia. }
  assert (Qb : 0 <= inject_Z b /\ inject_Z b <= 14).
  { change 0 with (inject_Z 0). change 14 with (inject_Z 14).
    rewrite <- !Zle_Qle. lia. }
  split; [|split; [|split]].
  - change (Z.of_nat (length SerpApiService.predictions)) with 3%Z.
    unfold Math_floor in Hi. apply (f_equal Qfloor) in Hi. rewrite !Qfloor_Z in Hi.
    rewrite Hi. unfold at_index.
    destruct (i <? 0)%Z eqn:E; [apply Z.ltb_lt in E; lia|].
    assert (Hc : i = 0%Z \/ i = 1%Z \/ i = 2%Z) by lia.
    destruct Hc as [-> | [-> | ->]]; cbn; eexists; split; try reflexivity; auto.
  - exists a. split; [reflexivity | lia].
  - exists b. split; [reflexivity | lia].
  - lra.
Qed.

Lemma predictPrice_ranges_witness :
  let r := SerpApiService.predictPrice "Phone" 1000 (fun _ => 1 # 2) in
  70 <= PricePrediction.confidence r /\ PricePrediction.confidence r <= 99.
Proof.
  destruct (predictPrice_ranges "Phone" 1000 (fun _ => 1 # 2))
    as (_ & _ & _ & A & B & _).
  - intros k. split; [unfold Qle | unfold Qlt]; simpl; lia.
  - split; assumption.
Defined.

(** ** The dashboard *)

Lemma gt_true (a b : Q) : gt a b = true <-> b < a.
Proof.
  unfold gt. destruct (Qle_bool a b) eqn:E; cbn; split; intros H;
    try discriminate; try reflexivity.
  - apply Qle_bool_iff in E. lra.
  - destruct (Qlt_le_dec b a) as [C | C]; [exact C|].
    apply Qle_bool_iff in C. congruence.
Qed.

Lemma gt_false (a b : Q) : gt a b = false <-> a <= b.
Proof.
  unfold gt. destruct (Qle_bool a b) eqn:E; cbn; split; intros H;
    try discriminate; try reflexivity.
  - now apply Qle_bool_iff.
  - apply Qle_bool_iff in H. congruence.
Qed.

Lemma round_draw_range (r : Q) (n : Z) :
  0 <= r -> r < 1 -> (0 < n)%Z ->
  exists m, Math_round (r * inject_Z n) = inject_Z m /\ (0 <= m <= n)%Z.
Proof.
  intros Hlo Hhi Hn.
  assert (Hpos : 0 < inject_Z n)
    by (change 0 with (inject_Z 0); now rewrite <- Zlt_Qlt).
  assert (H0 : 0 <= r * inject_Z n) by (apply Qmult_le_0_compat; lra).
  assert (H1 : r * inject_Z n < inject_Z n).
  { setoid_replace (inject_Z n) with (1 * inject_Z n) at 2 by ring.
    apply Qmult_lt_compat_r; assumption. }
  exists (Qfloor (r * inject_Z n + (1 # 2))). split; [reflexivity|].
  pose proof (Math_round_nonneg _ H0) as A.
  pose proof (Math_round_le_integer n (r * inject_Z n) ltac:(lra)) as B.
  unfold Math_round in A, B.
  change 0 with (inject_Z 0) in A. rewrite <- Zle_Qle in A, B. lia.
Qed.

Section DashboardFacts.

Variable encodeURIComponent : string -> string.

Lemma platformCard_wellFormed (productName : string) (base : Q) (rnd : Rng)
    (k : nat) (platform : Platform.t) :
  unit_draws rnd -> 0 <= base ->
  cardWellFormed base
    (Dashboard.platformCard encodeURIComponent productName base rnd k platform).
Proof.
  intros Hrnd Hb. unfold cardWellFormed, Dashboard.platformCard.
  cbn [PlatformPrice.price PlatformPrice.originalPrice PlatformPrice.trend
       PlatformPrice.trendPercent PlatformPrice.rating PlatformPrice.availability].
  destruct (Hrnd k) as [L0 H0]. destruct (Hrnd (k + 1)%nat) as [L1 H1].
  destruct (Hrnd (k + 3)%nat) as [L3 H3]. destruct (Hrnd (k + 5)%nat) as [L5 H5].
  destruct (scaled_round base (1 + (rnd k - (1 # 2)) * (2 # 10)) (9 # 10) (11 # 10))
    as (Np & Lp & Up); try lra.
  set (price := Math_round (base * (1 + (rnd k - (1 # 2)) * (2 # 10)))) in *.
  pose proof (natural_nonneg _ Np) as P0.
  destruct (scaled_round price (1 + rnd (k + 1)%nat * (15 # 100)) 1 (115 # 100))
    as (No & Lo & Uo); try lra.
  set (orig := Math_round (price * (1 + rnd (k + 1)%nat * (15 # 100)))) in *.
  destruct (round_draw_range (rnd (k + 3)%nat) 8 L3 H3 ltac:(lia)) as (t & Et & Rt).
  change (inject_Z 8) with 8 in Et. rewrite Et.
  assert (Qt : 0 <= inject_Z t /\ inject_Z t <= 8).
  { change 0 with (inject_Z 0). change 8 with (inject_Z 8).
    rewrite <- !Zle_Qle. lia. }
  split; [exact Np|]. split; [exact Lp|]. split; [exact Up|]. split; [|split; [|split]].
  - destruct (gt orig price) eqn:G.
    + exists orig. apply gt_true in G. split; [reflexivity|]. split; lra.
    + exists price. split; [reflexivity|]. split; lra.
  - destruct (gt (rnd (k + 2)%nat) (6 # 10)); [lra|].
    destruct (gt (rnd (k + 2)%nat) (3 # 10)); [lra | reflexivity].
  - eexists. split; [reflexivity|].
    set (x := (rnd (k + 5)%nat * (15 # 10) + (35 # 10)) * 10).
    pose proof (Math_round_ge_integer 35 x) as A.
    pose proof (Math_round_le_integer 50 x) as B.
    change (inject_Z 35) with 35 in A. change (inject_Z 50) with 50 in B.
    assert (A' : 35 <= Math_round x) by (apply A; unfold x; lra).
    assert (B' : Math_round x <= 50) by (apply B; unfold x; lra).
    split; [apply Qle_shift_div_l | apply Qle_shift_div_r]; lra.
  - destruct (gt (rnd (k + 4)%nat) (2 # 10)); auto.
Qed.

Lemma platformCards_wellFormed (productName : string) (base : Q) (rnd : Rng)
    (ps : list Platform.t) :
  unit_draws rnd -> 0 <= base ->
  forall k,
    Forall (cardWellFormed base)
      (Dashboard.platformCards encodeURIComponent productName base rnd k ps) /\
    map PlatformPrice.platform
      (Dashboard.platformCards encodeURIComponent productName base rnd k ps)
    = map Platform.name ps.
Proof.
  intros Hrnd Hb. induction ps as [|p ps IH]; intros k; cbn [Dashboard.platformCards map].
  - split; [constructor | reflexivity].
  - destruct (IH (k + 6)%nat) as [Hf Hn]. split.
    + constructor; [now apply platformCard_wellFormed | exact Hf].
    + now rewrite Hn.
Qed.

(** The cards generated for a product: six, for the six platforms in
    their order; each price is an integer within 10% of the base price
    the chart uses for the product, the original price is never below
    the price, the sign of the trend percentage follows the trend (1 to
    9 either way, 0 when stable) and the rating lies between 3.5 and 5. *)
Theorem generatePlatformPrices_wellFormed (productName : string) (rnd : Rng) :
  unit_draws rnd ->
  let cards := Dashboard.generatePlatformPrices encodeURIComponent productName rnd in
  Dashboard.basePrice productName = PriceChart.basePrice productName /\
  map PlatformPrice.platform cards =
    ["Amazon"; "Flipkart"; "Croma"; "Reliance Digital"; "Vijay Sales"; "Tata Cliq"]%string /\
  Forall (cardWellFormed (PriceChart.basePrice productName)) cards /\
  Forall (fun c => 0 < PlatformPrice.price c) cards.
Proof.
  intros Hrnd cards.
  destruct (basePrice_range productName) as (_ & Hlo & _).
  destruct (platformCards_wellFormed productName (PriceChart.basePrice productName)
              rnd Dashboard.platforms Hrnd ltac:(lra) 0) as [Hf Hn].
  split; [reflexivity|]. split; [exact Hn|]. split; [exact Hf|].
  eapply Forall_impl; [|exact Hf].
  intros c (_ & Hc & _). lra.
Qed.

End DashboardFacts.

Lemma generatePlatformPrices_wellFormed_witness :
  map PlatformPrice.price
    (Dashboard.generatePlatformPrices (fun s => s) "novel" (fun _ => 1 # 2))
    = [500; 500; 500; 500; 500; 500] /\
  Forall (fun c => 0 < PlatformPrice.price c)
    (Dashboard.generatePlatformPrices (fun s => s) "novel" (fun _ => 1 # 2)).
Proof.
  split; [vm_compute; reflexivity|].
  apply (generatePlatformPrices_wellFormed (fun s => s) "novel" (fun _ => 1 # 2)).
  intros k. split; [unfold Qle | unfold Qlt]; simpl; lia.
Defined.

Lemma scaled_down (p f : Q) : 0 <= p -> f <= 1 -> p * f <= p.
Proof.
  intros Hp Hf. setoid_replace p with (p * 1) at 2 by ring.
  rewrite (Qmult_comm p f), (Qmult_comm p 1). apply Qmult_le_compat_r; assumption.
Qed.

Lemma scaled_up (p f : Q) : 0 <= p -> 1 <= f -> p <= p * f.
Proof.
  intros Hp Hf. setoid_replace p with (p * 1) at 1 by ring.
  rewrite (Qmult_comm p f), (Qmult_comm p 1). apply Qmult_le_compat_r; assumption.
Qed.

Lemma orNumber_positive (x d : Q) : 0 < x -> orNumber x d = x.
Proof.
  intros Hx. unfold orNumber. destruct (Qeq_bool x 0) eqn:E; [|reflexivity].
  apply Qeq_bool_iff in E. lra.
Qed.

Section PredictionFacts.

Variable encodeURIComponent : string -> string.

(** What the draws leave of [generatePredictionData]: the current price
    is the price of the first card, and the direction, the confidence
    and the expected change are as the three branches compute them. *)
Lemma generatePredictionData_cases (productName : string) (rnd : Rng) :
  unit_draws rnd ->
  let d := Dashboard.generatePredictionData encodeURIComponent productName rnd in
  (exists card rest,
     Dashboard.generatePlatformPrices encodeURIComponent productName rnd = card :: rest /\
     PredictionData.currentPrice d = PlatformPrice.price card) /\
  natural (PredictionData.currentPrice d) /\ 0 < PredictionData.currentPrice d /\
  70 <= PredictionData.confidence d /\ PredictionData.confidence d <= 90 /\
  PredictionData.targetPrice d =
    Math_round (PredictionData.currentPrice d
                * (1 + PredictionData.expectedChange d / 100)) /\
  match PredictionData.prediction d with
  | Direction.fall => - (20) <= PredictionData.expectedChange d /\
                      PredictionData.expectedChange d <= - (5)
  | Direction.rise => 2 <= PredictionData.expectedChange d /\
                      PredictionData.expectedChange d <= 12
  | Direction.stable => PredictionData.expectedChange d = 0
  end.
Proof.
  intros Hrnd.
  destruct (basePrice_range productName) as (_ & Hlo & _).
  destruct (platformCards_wellFormed encodeURIComponent productName
              (PriceChart.basePrice productName) rnd Dashboard.platforms Hrnd
              ltac:(lra) 0) as [Hf _].
  cbn zeta. unfold Dashboard.generatePredictionData, Dashboard.generatePlatformPrices.
  change (Dashboard.basePrice productName) with (PriceChart.basePrice productName).
  set (cards := Dashboard.platformCards _ _ _ _ _ _) in *.
  assert (Hcards : exists card rest, cards = card :: rest) by (eexists; eexists; reflexivity).
  destruct Hcards as (card & rest & Ec). rewrite Ec in *.
  inversion Hf as [|? ? Hcard _]; subst.
  destruct Hcard as (Np & Lp & _).
  assert (Ppos : 0 < PlatformPrice.price card) by lra.
  rewrite (orNumber_positive _ _ Ppos).
  assert (Hconf : forall k, 70 <= Math_round (rnd k * 20) + 70 /\
                            Math_round (rnd k * 20) + 70 <= 90).
  { intros k. destruct (Hrnd k) as [L H].
    destruct (round_draw_range (rnd k) 20 L H ltac:(lia)) as (m & Em & Rm).
    change (inject_Z 20) with 20 in Em. rewrite Em.
    assert (0 <= inject_Z m /\ inject_Z m <= 20).
    { change 0 with (inject_Z 0). change 20 with (inject_Z 20).
      rewrite <- !Zle_Qle. lia. }
    lra. }
  assert (Hfall : forall k, - (20) <= - (Math_round (rnd k * 15) + 5) /\
                            - (Math_round (rnd k * 15) + 5) <= - (5)).
  { intros k. destruct (Hrnd k) as [L H].
    destruct (round_draw_range (rnd k) 15 L H ltac:(lia)) as (m & Em & Rm).
    change (inject_Z 15) with 15 in Em. rewrite Em.
    assert (0 <= inject_Z m /\ inject_Z m <= 15).
    { change 0 with (inject_Z 0). change 15 with (inject_Z 15).
      rewrite <- !Zle_Qle. lia. }
    lra. }
  assert (Hrise : forall k, 2 <= Math_round (rnd k * 10) + 2 /\
                            Math_round (rnd k * 10) + 2 <= 12).
  { intros k. destruct (Hrnd k) as [L H].
    destruct (round_draw_range (rnd k) 10 L H ltac:(lia)) as (m & Em & Rm).
    change (inject_Z 10) with 10 in Em. rewrite Em.
    assert (0 <= inject_Z m /\ inject_Z m <= 10).
    { change 0 with (inject_Z 0). change 10 with (inject_Z 10).
      rewrite <- !Zle_Qle. lia. }
    lra. }
  destruct (gt (rnd 36%nat) (6 # 10));
    [|destruct (gt (rnd 37%nat) (5 # 10))];
    cbn [PredictionData.currentPrice PredictionData.confidence
         PredictionData.targetPrice PredictionData.expectedChange
         PredictionData.prediction];
    (split; [exists card, rest; split; reflexivity|]);
    (split; [exact Np|]); (split; [exact Ppos|]);
    (split; [apply Hconf|]); (split; [apply Hconf|]);
    (split; [reflexivity|]);
    first [apply Hfall | apply Hrise | reflexivity].
Qed.

(** A synthetic prediction is consistent: its current price is the
    price of the first platform card (positive, so the default of 1000
    is never used), the confidence lies between 70 and 90, the expected
    change is -20 to -5 for a fall, 2 to 12 for a rise and 0 when
    stable, and the target, a non-negative integer, lies on the side of
    the current price that the direction names. *)
Theorem generatePredictionData_consistent (productName : string) (rnd : Rng) :
  unit_draws rnd ->
  let d := Dashboard.generatePredictionData encodeURIComponent productName rnd in
  (exists card rest,
     Dashboard.generatePlatformPrices encodeURIComponent productName rnd = card :: rest /\
     PredictionData.currentPrice d = PlatformPrice.price card) /\
  0 < PredictionData.currentPrice d /\
  70 <= PredictionData.confidence d /\ PredictionData.confidence d <= 90 /\
  natural (PredictionData.targetPrice d) /\
  changeMatchesDirection d.
Proof.
  intros Hrnd d.
  destruct (generatePredictionData_cases productName rnd Hrnd)
    as (Hcard & Ncur & Pcur & C1 & C2 & Et & Hdir).
  fold d in Hcard, Ncur, Pcur, C1, C2, Et, Hdir.
  split; [exact Hcard|]. split; [exact Pcur|]. split; [exact C1|]. split; [exact C2|].
  set (cur := PredictionData.currentPrice d) in *.
  set (ec := PredictionData.expectedChange d) in *.
  assert (Hec : - (20) <= ec /\ ec <= 12).
  { destruct (PredictionData.prediction d); [lra | lra | rewrite Hdir; lra]. }
  assert (Hf : 1 + ec / 100 == (100 + ec) / 100) by field.
  assert (Hf0 : 80 # 100 <= 1 + ec / 100).
  { rewrite Hf. apply Qle_shift_div_l; lra. }
  split.
  - rewrite Et. apply Math_round_natural. apply Qmult_le_0_compat; lra.
  - unfold changeMatchesDirection. fold cur ec. rewrite Et.
    assert (Hcur : Math_round cur = cur).
    { destruct Ncur as (z & Hz & Ez). rewrite Ez. apply Math_round_integer. }
    destruct (PredictionData.prediction d).
    + split; [lra|]. split; [lra|].
      apply Qle_trans with (Math_round cur); [rewrite Hcur; lra|].
      apply Math_round_mono, scaled_up; [lra|].
      rewrite Hf. apply Qle_shift_div_l; lra.
    + split; [lra|]. split; [lra|].
      apply Qle_trans with (Math_round cur); [|rewrite Hcur; lra].
      apply Math_round_mono, scaled_down; [lra|].
      rewrite Hf. apply Qle_shift_div_r; lra.
    + split; [exact Hdir|].
      transitivity (Math_round cur); [|exact Hcur].
      apply Math_round_comp. rewrite Hdir. field.
Qed.

End PredictionFacts.

Lemma generatePredictionData_consistent_witness :
  let d := Dashboard.generatePredictionData (fun s => s) "novel" (fun _ => 1 # 2) in
  PredictionData.currentPrice d = 500 /\ PredictionData.targetPrice d = 500 /\
  changeMatchesDirection d.
Proof.
  split; [vm_compute; reflexivity|]. split; [vm_compute; reflexivity|].
  apply (generatePredictionData_consistent (fun s => s) "novel" (fun _ => 1 # 2)).
  intros k. split; [unfold Qle | unfold Qlt]; simpl; lia.
Defined.

Lemma Math_min_cases (a b : Q) : Math_min a b = a \/ Math_min a b = b.
Proof. unfold Math_min. destruct (Qle_bool a b); auto. Qed.

Lemma Math_abs_nonneg (x : Q) : 0 <= Math_abs x.
Proof.
  unfold Math_abs. destruct (Qle_bool 0 x) eqn:E.
  - now apply Qle_bool_iff.
  - assert (~ 0 <= x) by (intros C; apply Qle_bool_iff in C; congruence). lra.
Qed.

(** The prediction computed from a real series: the expected change is
    an integer from -15 to 12, the confidence lies between 65 and 80
    (its cap of 92 is never reached), the direction is a rise above +2,
    a fall below -2 and stable in between, and the target is a
    non-negative integer, on the side of the (rounded) last price that
    the direction names when that price is not negative. *)
Theorem predictionFromHistory_ranges (priceHistory : list PricePoint.t) :
  let d := Dashboard.predictionFromHistory priceHistory in
  let change := PredictionData.expectedChange d in
  - (15) <= change /\ change <= 12 /\ (exists z, change == inject_Z z) /\
  65 <= PredictionData.confidence d /\ PredictionData.confidence d <= 80 /\
  (PredictionData.prediction d = Direction.rise <-> 2 < change) /\
  (PredictionData.prediction d = Direction.fall <-> change < - (2)) /\
  natural (PredictionData.targetPrice d) /\
  (0 <= PredictionData.currentPrice d ->
   (PredictionData.prediction d = Direction.rise ->
      Math_round (PredictionData.currentPrice d) <= PredictionData.targetPrice d) /\
   (PredictionData.prediction d = Direction.fall ->
      PredictionData.targetPrice d <= Math_round (PredictionData.currentPrice d))).
Proof.
  cbn zeta. unfold Dashboard.predictionFromHistory.
  cbn [PredictionData.expectedChange PredictionData.confidence
       PredictionData.prediction PredictionData.targetPrice
       PredictionData.currentPrice].
  set (last := nth _ _ 0).
  set (pct := Math_round _).
  set (change := Math_max (- (15)) (Math_min 12 pct)).
  assert (Hlo : - (15) <= change) by apply Math_max_ge_l.
  assert (Hhi : change <= 12).
  { unfold change. destruct (Math_max_cases (- (15)) (Math_min 12 pct)) as [-> | ->];
      [lra | apply Math_min_le_l]. }
  assert (Hint : exists z, change == inject_Z z).
  { unfold change.
    destruct (Math_max_cases (- (15)) (Math_min 12 pct)) as [-> | ->];
      [exists (-15)%Z; reflexivity|].
    destruct (Math_min_cases 12 pct) as [-> | ->];
      [exists 12%Z; reflexivity | eexists; reflexivity]. }
  split; [exact Hlo|]. split; [exact Hhi|]. split; [exact Hint|].
  split; [apply Math_max_ge_l|]. split.
  { destruct (Math_max_cases 65 (Math_min 92 (80 - Math_abs (change - 3)))) as [-> | ->];
      [lra|].
    eapply Qle_trans; [apply Math_min_le_r|].
    pose proof (Math_abs_nonneg (change - 3)). lra. }
  assert (Hdir : (gt change 2 = true <-> 2 < change) /\
                 (gt (- (2)) change = true <-> change < - (2)))
    by (split; apply gt_true).
  destruct Hdir as [Hr Hf].
  split; [|split; [|split]].
  - destruct (gt change 2) eqn:G1.
    + split; [intros _; now apply Hr | reflexivity].
    + split; [|intros C; apply Hr in C; discriminate].
      destruct (gt (- (2)) change); discriminate.
  - destruct (gt change 2) eqn:G1.
    + apply gt_true in G1. split; [discriminate | lra].
    + destruct (gt (- (2)) change) eqn:G2.
      * split; [intros _; now apply Hf | reflexivity].
      * split; [discriminate | intros C; apply Hf in C; discriminate].
  - apply clamp_round_natural.
  - intros Hlast.
    assert (Hq : 1 + change / 100 == (100 + change) / 100) by field.
    split.
    + intros Hrise.
      assert (Hc : 2 < change).
      { destruct (gt change 2) eqn:G1; [now apply gt_true|].
        destruct (gt (- (2)) change); discriminate. }
      eapply Qle_trans; [|apply Math_max0_ge].
      apply Math_round_mono, scaled_up; [exact Hlast|].
      rewrite Hq. apply Qle_shift_div_l; lra.
    + intros Hfall.
      assert (Hc : change < - (2)).
      { destruct (gt change 2) eqn:G1; [discriminate|].
        destruct (gt (- (2)) change) eqn:G2; [now apply gt_true | discriminate]. }
      apply Math_max0_le; [now apply Math_round_nonneg|].
      apply Math_round_mono, scaled_down; [exact Hlast|].
      rewrite Hq. apply Qle_shift_div_r; lra.
Qed.

Lemma predictionFromHistory_ranges_witness :
  let d := Dashboard.predictionFromHistory
             [PricePoint.make "2024-01-01" 1000; PricePoint.make "2024-01-08" 1100;
              PricePoint.make "2024-01-15" 1200; PricePoint.make "2024-01-22" 1300] in
  PredictionData.expectedChange d = 8 /\
  PredictionData.prediction d = Direction.rise /\
  PredictionData.targetPrice d = 1404 /\
  Math_round (PredictionData.currentPrice d) <= PredictionData.targetPrice d.
Proof.
  split; [vm_compute; reflexivity|]. split; [vm_compute; reflexivity|].
  split; [vm_compute; reflexivity|].
  apply (predictionFromHistory_ranges
           [PricePoint.make "2024-01-01" 1000; PricePoint.make "2024-01-08" 1100;
            PricePoint.make "2024-01-15" 1200; PricePoint.make "2024-01-22" 1300]).
  - vm_compute. discriminate.
  - vm_compute. reflexivity.
Defined.




(** ** Search results on the dashboard *)

Import EnhancedSearchBar.

Lemma parseNum_unfold (s : string) :
  parseNum (Some s) =
  match parsePriceToNumber (Some s) with
  | Some v => Math_round v
  | None => 0
  end.
Proof.
  rewrite parsePriceToNumber_unfold.
  destruct s as [|c rest]; [reflexivity|].
  unfold parseNum. reflexivity.
Qed.

Lemma parseNum_natural (s : option string) : natural (parseNum s).
Proof.
  destruct s as [s|]; [|exists 0%Z; split; [lia | reflexivity]].
  rewrite parseNum_unfold.
  destruct (parsePriceToNumber (Some s)) as [v|] eqn:E.
  - apply Math_round_natural. eapply parsePriceToNumber_nonneg. exact E.
  - exists 0%Z. split; [lia | reflexivity].
Qed.

(** The price a search result is given on its card is the price that
    tracking the same result stores as current price, rounded to the
    nearest integer, and 0 when the price string holds no number; it is
    never negative and never fractional. *)
Theorem parseNum_rounds_tracked_price (s : string) :
  natural (parseNum (Some s)) /\
  (forall c, parsePriceToNumber (Some s) = Some c -> parseNum (Some s) = Math_round c) /\
  (parsePriceToNumber (Some s) = None -> parseNum (Some s) = 0) /\
  parseNum None = 0.
Proof.
  split; [apply parseNum_natural|].
  rewrite parseNum_unfold.
  split; [|split]; try reflexivity; intros; now rewrite H.
Qed.

Lemma parseNum_rounds_tracked_price_witness :
  parseNum (Some "Rs 89,999.50"%string) = Math_round (inject_Z 89999 + 50 / 100) /\
  parseNum (Some "Price not available"%string) = 0.
Proof.
  split.
  - apply (proj1 (proj2 (parseNum_rounds_tracked_price "Rs 89,999.50"))). reflexivity.
  - apply (proj1 (proj2 (proj2 (parseNum_rounds_tracked_price "Price not available")))).
    reflexivity.
Defined.

Lemma orString_nonempty (s d : string) : d <> EmptyString -> orString s d <> EmptyString.
Proof. intros Hd. destruct s; [exact Hd | discriminate]. Qed.

(** From a search to the dashboard: with a product selected and at
    least one result, the dashboard shows one card per result for the
    first 6 results, in their order and without any random draw; each
    card carries the rounded price of its result, an original price
    only when one parsed to a positive integer, a stable trend of 0%,
    and never an empty platform, availability, logo or link. *)
Theorem search_results_become_cards
    (encodeURIComponent : string -> string)
    (products : list SerpProduct.t) (selectedProduct : string) (rnd : Rng) :
  products <> [] ->
  let cards := Dashboard.platformPrices encodeURIComponent
                 (Some (toOffers products)) selectedProduct true rnd in
  length cards = Nat.min 6 (length products) /\
  map PlatformPrice.price cards =
    map (fun p => parseNum (Some (SerpProduct.price p))) (firstn 6 products) /\
  Forall (fun c =>
            natural (PlatformPrice.price c) /\
            match PlatformPrice.originalPrice c with
            | Some o => natural o /\ 0 < o
            | None => True
            end /\
            PlatformPrice.trend c = Trend.stable /\
            PlatformPrice.trendPercent c = 0 /\
            PlatformPrice.platform c <> EmptyString /\
            PlatformPrice.availability c <> EmptyString /\
            PlatformPrice.logo c <> EmptyString /\
            PlatformPrice.productUrl c <> EmptyString) cards.
Proof.
  intros Hne cards. subst cards. unfold Dashboard.platformPrices.
  destruct (toOffers products) as [|o os] eqn:E.
  { destruct products; [contradiction | discriminate]. }
  rewrite <- E. unfold toOffers.
  set (ps := firstn 6 products).
  split; [|split].
  - rewrite !length_map. subst ps. apply length_firstn.
  - rewrite !map_map. reflexivity.
  - rewrite map_map. apply Forall_forall. intros c Hin.
    apply in_map_iff in Hin. destruct Hin as (p & <- & _).
    unfold Dashboard.normalizeOffer.
    cbn [PlatformPrice.price PlatformPrice.originalPrice PlatformPrice.trend
         PlatformPrice.trendPercent PlatformPrice.platform
         PlatformPrice.availability PlatformPrice.logo PlatformPrice.productUrl
         Offer.price Offer.originalPrice Offer.trend Offer.trendPercent
         Offer.platform Offer.availability Offer.logo Offer.productUrl].
    split; [apply parseNum_natural|]. split.
    { destruct (Qeq_bool (parseNum (SerpProduct.original_price p)) 0) eqn:Eo;
        [exact I|].
      pose proof (parseNum_natural (SerpProduct.original_price p)) as Hn.
      split; [exact Hn|].
      pose proof (natural_nonneg _ Hn).
      assert (~ parseNum (SerpProduct.original_price p) == 0)
        by (intros C; apply Qeq_bool_iff in C; congruence).
      lra. }
    split; [reflexivity|]. split; [reflexivity|].
    repeat split; apply orString_nonempty; unfold Dashboard.bullet; discriminate.
Qed.

Lemma search_results_become_cards_witness :
  map PlatformPrice.price
    (Dashboard.platformPrices (fun s => s)
       (Some (toOffers [SerpProduct.make "Phone" "Rs 89,999.50" (Some "Rs 99,999"%string)
                          None None None "" "" ""]))
       "Phone" true (fun _ => 0))
  = [parseNum (Some "Rs 89,999.50"%string)].
Proof.
  apply (search_results_become_cards (fun s => s)
           [SerpProduct.make "Phone" "Rs 89,999.50" (Some "Rs 99,999"%string)
              None None None "" "" ""] "Phone" (fun _ => 0)).
  discriminate.
Defined.

Lemma firstn_app_firstn {A} (n : nat) (a b : list A) :
  firstn n (a ++ firstn n b) = firstn n (a ++ b).
Proof.
  rewrite !firstn_app, firstn_firstn.
  f_equal. f_equal. lia.
Qed.

Lemma searchHistoryAfter_app (a b start : list string) :
  searchHistoryAfter (a ++ b) start = searchHistoryAfter b (searchHistoryAfter a start).
Proof. unfold searchHistoryAfter. apply fold_left_app. Qed.

Lemma searchHistoryAfter_firstn (queries : list string) :
  forall start,
    searchHistoryAfter queries start = firstn 5 (rev (searched queries) ++ start) \/
    (searched queries = [] /\ searchHistoryAfter queries start = start).
Proof.
  induction queries as [|q qs IH]; intros start; [right; split; reflexivity|].
  unfold searchHistoryAfter, searched in *. cbn [fold_left filter].
  assert (Eh : handleSearch_history q start =
               if isBlank q then start else pushSearchHistory q start)
    by reflexivity.
  rewrite Eh. clear Eh.
  destruct (isBlank q) eqn:Eq; cbn [negb]; [apply IH|].
  left. cbn [rev].
  destruct (IH (pushSearchHistory q start)) as [E | [E1 E2]].
  - rewrite E. unfold pushSearchHistory.
    change (q :: firstn 4 start) with (firstn 5 (q :: start)).
    rewrite firstn_app_firstn, <- app_assoc. reflexivity.
  - rewrite E1, E2. reflexivity.
Qed.

(** The search history keeps the 5 most recent searches, newest first.
    A query that holds only white space is refused and leaves the
    history as it is; after a run in which some query was searched the
    history is the last 5 searched queries in reverse order (with older
    entries behind them while there is room), repeated queries
    included. *)
Theorem search_history_keeps_last_five (queries start : list string) :
  searched queries <> [] ->
  searchHistoryAfter queries start = firstn 5 (rev (searched queries) ++ start) /\
  (length (searchHistoryAfter queries start) <= 5)%nat /\
  (forall q, isBlank q = false ->
             hd_error (searchHistoryAfter (queries ++ [q]) start) = Some q) /\
  (forall q, isBlank q = true ->
             searchHistoryAfter (queries ++ [q]) start =
             searchHistoryAfter queries start).
Proof.
  intros Hne.
  destruct (searchHistoryAfter_firstn queries start) as [E | [C _]]; [|contradiction].
  split; [exact E|]. split; [rewrite E; apply firstn_le_length|].
  split; intros q Hq; rewrite searchHistoryAfter_app;
    unfold searchHistoryAfter at 1; cbn [fold_left];
    unfold handleSearch_history; rewrite Hq; reflexivity.
Qed.

Lemma search_history_keeps_last_five_witness :
  searchHistoryAfter ["a"; "b"; " "; "c"; "d"; "e"; "f"; ""; "f"]%string ["z"%string] =
    ["f"; "f"; "e"; "d"; "c"]%string.
Proof.
  apply (search_history_keeps_last_five
           ["a"; "b"; " "; "c"; "d"; "e"; "f"; ""; "f"]%string ["z"%string]).
  discriminate.
Defined.

(** Only blank queries leave the history of a fresh search bar empty. *)
Example blank_queries_are_not_recorded :
  searchHistoryAfter [""; "   "; "a"]%string [] = ["a"%string] /\
  isBlank (String (ascii_of_nat 194) (String (ascii_of_nat 160) " ")) = true /\
  isBlank "a b" = false.
Proof. repeat split. Qed.

(** ** The target price of a card *)

Import PriceCard.

Lemma handleSetTargetPrice_cases (input : option string) (state : option Q) :
  (exists t, parsePriceToNumber input = Some t /\ 0 < t /\
             handleSetTargetPrice input state = (Some t, TargetPriceSet t)) \/
  (fst (handleSetTargetPrice input state) = state /\
   forall t, parsePriceToNumber input = Some t -> t == 0).
Proof.
  destruct input as [[|c rest]|]; try (right; split; [reflexivity | discriminate]).
  rewrite parsePriceToNumber_unfold. unfold handleSetTargetPrice.
  destruct (parseFloat (stripNonNumeric (String c rest))) as [t|] eqn:Ep.
  - destruct (gt t 0) eqn:G.
    + left. exists t. apply gt_true in G. repeat split. exact G.
    + right. apply gt_false in G. split; [reflexivity|].
      intros t' Ht. inversion Ht; subst t'.
      assert (0 <= t).
      { apply (parsePriceToNumber_nonneg (Some (String c rest))).
        now rewrite parsePriceToNumber_unfold. }
      lra.
  - right. split; [reflexivity | discriminate].
Qed.

(** A card only ever stores a positive target price: an answer to the
    prompt is stored when it parses, as for a current price, to a
    number above 0; a dismissed prompt, an empty answer, an answer
    without a number and the answer 0 leave the target as it was.  So
    after any series of prompts on a fresh card the target is unset or
    positive. *)
Theorem target_price_is_never_zero (inputs : list (option string)) :
  (forall input state,
     (exists t, parsePriceToNumber input = Some t /\ 0 < t /\
                handleSetTargetPrice input state = (Some t, TargetPriceSet t)) \/
     (fst (handleSetTargetPrice input state) = state /\
      forall t, parsePriceToNumber input = Some t -> t == 0)) /\
  match afterPrompts inputs None with
  | Some t => 0 < t
  | None => True
  end.
Proof.
  split; [apply handleSetTargetPrice_cases|].
  assert (Inv : forall state,
            match state with Some t => 0 < t | None => True end ->
            match afterPrompts inputs state with Some t => 0 < t | None => True end).
  { unfold afterPrompts. induction inputs as [|input rest IH]; intros state Hs;
      [exact Hs|].
    cbn [fold_left]. apply IH.
    destruct (handleSetTargetPrice_cases input state) as [(t & _ & Ht & E) | [E _]];
      rewrite E; [exact Ht | exact Hs]. }
  apply Inv. exact I.
Qed.

Lemma target_price_is_never_zero_witness :
  afterPrompts [Some "1,250"; Some "0"; None; Some "free"]%string None = Some 1250 /\
  match afterPrompts [Some "1,250"; Some "0"; None; Some "free"]%string None with
  | Some t => 0 < t
  | None => True
  end.
Proof.
  split; [reflexivity|].
  apply (proj2 (target_price_is_never_zero
                  [Some "1,250"; Some "0"; None; Some "free"]%string)).
Defined.

(** ** The chart on the dashboard *)

Lemma forecastLoop_target_draws_nothing (target : Q) (fuel : nat) :
  0 <= target ->
  forall i cli avg avgStep rnd rnd' k k' current,
    forecastLoop fuel i cli (Some target) avg avgStep rnd k current =
    forecastLoop fuel i cli (Some target) avg avgStep rnd' k' current.
Proof.
  intros Ht. apply Qle_bool_iff in Ht.
  induction fuel as [|fuel IH]; intros; cbn [forecastLoop]; [reflexivity|].
  destruct (_ && _)%bool; [|reflexivity].
  unfold forecastStep. rewrite Ht. f_equal. apply IH.
Qed.

Lemma rounded_forecastLoop_target_draws_nothing (target : Q) (fuel : nat) :
  0 <= target ->
  forall i cli avg avgStep rnd rnd' k k' current,
    Rounded.forecastLoop fl fuel i cli (Some target) avg avgStep rnd k current =
    Rounded.forecastLoop fl fuel i cli (Some target) avg avgStep rnd' k' current.
Proof.
  intros Ht. apply Qle_bool_iff in Ht.
  induction fuel as [|fuel IH]; intros; cbn [Rounded.forecastLoop]; [reflexivity|].
  destruct (_ && _)%bool; [|reflexivity].
  unfold Rounded.forecastStep. rewrite Ht. f_equal. apply IH.
Qed.

(** With a target [>= 0] the projection makes no random draw: every
    sequence of draws gives the same chart, in exact arithmetic and in
    that of doubles.  For a selected product
    with more than 3 tracked points the dashboard computes the target
    from the series, so the chart it shows is determined by the store
    alone: neither the draws of the prediction card nor those of the
    chart change it.  With 3 points or fewer the target is the
    synthetic one, and the chart changes with the draws of the card. *)
Theorem projection_with_target_is_deterministic
    (encodeURIComponent : string -> string)
    (history : list PricePoint.t) (target : Q) (rnd rnd' : Rng) :
  0 <= target ->
  projectFromHistory history (Some target) rnd =
  projectFromHistory history (Some target) rnd' /\
  Rounded.projectFromHistory fl history (Some target) rnd =
  Rounded.projectFromHistory fl history (Some target) rnd' /\
  (forall store cardRnd cardRnd' chartRnd chartRnd',
     isProductSelected store = true ->
     (3 < length (priceHistory store))%nat ->
     Dashboard.chartRows encodeURIComponent store cardRnd chartRnd =
     Dashboard.chartRows encodeURIComponent store cardRnd' chartRnd') /\
  (isProductSelected shortSeries = true /\
   unit_draws calmDraws /\ unit_draws fallingDraws /\
   Dashboard.chartRows encodeURIComponent shortSeries calmDraws rnd <>
   Dashboard.chartRows encodeURIComponent shortSeries fallingDraws rnd).
Proof.
  intros Ht.
  assert (Hdet : forall h t r r', 0 <= t ->
            projectFromHistory h (Some t) r = projectFromHistory h (Some t) r').
  { intros h t r r' H0. unfold projectFromHistory, projectRecent.
    destruct h as [|p rest]; [reflexivity|].
    f_equal. now apply forecastLoop_target_draws_nothing. }
  split; [now apply Hdet|]. split.
  { unfold Rounded.projectFromHistory, Rounded.projectRecent.
    destruct history as [|p rest]; [reflexivity|].
    f_equal. now apply rounded_forecastLoop_target_draws_nothing. }
  split.
  - intros store cardRnd cardRnd' chartRnd chartRnd' Hsel Hlen.
    unfold Dashboard.chartRows, Dashboard.predictionData.
    rewrite Hsel. apply Nat.ltb_lt in Hlen. rewrite Hlen. cbn [andb].
    unfold priceData.
    destruct (priceHistory store) as [|p rest]; [discriminate|].
    apply Hdet. unfold Dashboard.predictionFromHistory.
    cbn [PredictionData.targetPrice]. apply Math_max_nonneg.
  - split; [reflexivity|].
    split; [intros k; split; [unfold Qle | unfold Qlt]; simpl; lia|].
    split; [intros k; split; [unfold Qle | unfold Qlt]; simpl; lia|].
    intros E. apply (f_equal predictions) in E. revert E.
    vm_compute. discriminate.
Qed.

Lemma projection_with_target_is_deterministic_witness :
  projectFromHistory
    [PricePoint.make "2024-01-01" 1000; PricePoint.make "2024-01-08" 1050]
    (Some 1100) (fun _ => 0) =
  projectFromHistory
    [PricePoint.make "2024-01-01" 1000; PricePoint.make "2024-01-08" 1050]
    (Some 1100) (fun _ => 1 # 2).
Proof.
  apply (projection_with_target_is_deterministic (fun s => s)
           [PricePoint.make "2024-01-01" 1000; PricePoint.make "2024-01-08" 1050]
           1100 (fun _ => 0) (fun _ => 1 # 2)).
  unfold Qle; simpl; lia.
Defined.

Lemma orZero_positive (c : Q) : 0 < c -> orZero (Some c) = c.
Proof.
  intros Hc. unfold orZero. destruct (Qeq_bool c 0) eqn:E; [|reflexivity].
  apply Qeq_bool_iff in E. lra.
Qed.

Lemma flat_prediction (c : Q) (z : Z) (d1 d2 d3 d4 d5 d6 : string) :
  c == inject_Z z -> (1 <= z)%Z ->
  let history := [PricePoint.make d1 c; PricePoint.make d2 c; PricePoint.make d3 c;
                  PricePoint.make d4 c; PricePoint.make d5 c; PricePoint.make d6 c] in
  Dashboard.predictionFromHistory history =
  PredictionData.make Direction.stable 77 0 "1 month" c (inject_Z z).
Proof.
  intros Ec Hz history. subst history. unfold Dashboard.predictionFromHistory.
  cbn [slice_last length skipn Nat.sub map PricePoint.price firstDifferences
       stepsAfter tl nth].
  assert (Hpct : Math_round (sum [c - c; c - c; c - c; c - c; c - c]
                             / inject_Z (Z.of_nat 5) / Math_max 1 c * 100) = 0).
  { transitivity (Math_round 0); [|reflexivity]. apply Math_round_comp.
    assert (Hs : sum [c - c; c - c; c - c; c - c; c - c] == 0)
      by (unfold sum; cbn [fold_left]; ring).
    rewrite Hs. unfold Qdiv. ring. }
  rewrite Hpct.
  assert (Ht : Math_max 0 (Math_round (c * (1 + Math_max (- (15)) (Math_min 12 0) / 100)))
               = inject_Z z).
  { change (Math_max (- (15)) (Math_min 12 0)) with 0.
    rewrite (Math_round_comp _ (inject_Z z)) by (rewrite Ec; field).
    rewrite Math_round_integer. apply Math_max_of_nonneg.
    change 0 with (inject_Z 0). rewrite <- Zle_Qle. lia. }
  rewrite Ht. reflexivity.
Qed.

Lemma flat_projection (c : Q) (z : Z) (d1 d2 d3 d4 d5 d6 : string) (rnd : Rng) :
  c == inject_Z z -> (1 <= z)%Z ->
  let history := [PricePoint.make d1 c; PricePoint.make d2 c; PricePoint.make d3 c;
                  PricePoint.make d4 c; PricePoint.make d5 c; PricePoint.make d6 c] in
  allPrices (projectFromHistory history (Some (inject_Z z)) rnd) =
  [c; c; c; c; c; c; inject_Z z; inject_Z z; inject_Z z].
Proof.
  intros Ec Hz history.
  assert (H0 : 0 <= inject_Z z)
    by (change 0 with (inject_Z 0); rewrite <- Zle_Qle; lia).
  assert (Hstep : forall x n, x == inject_Z z ->
            Math_max 0 (Math_round (x + (inject_Z z - x) / n)) = inject_Z z).
  { intros x n Hx.
    rewrite (Math_round_comp _ (inject_Z z)).
    - rewrite Math_round_integer. now apply Math_max_of_nonneg.
    - rewrite Hx. unfold Qdiv. ring. }
  subst history. unfold projectFromHistory, projectRecent.
  cbn [slice_last length skipn Nat.sub map PricePoint.price labelHistorical
       months Nat.leb nth_error].
  rewrite forecastLoop_target by (assumption || (cbn; lia)).
  cbn zeta.
  rewrite (Hstep c 3 Ec). rewrite (Hstep (inject_Z z) 2 (Qeq_refl _)).
  rewrite Math_round_integer.
  reflexivity.
Qed.

Lemma fallbackLoop_flat (zone : TimeZone) (today : Z) (c : Q) :
  0 < c ->
  exists d5 d4 d3 d2 d1 d0,
    fallbackLoop 6 5 zone today (Some c) =
    [PricePoint.make d5 c; PricePoint.make d4 c; PricePoint.make d3 c;
     PricePoint.make d2 c; PricePoint.make d1 c; PricePoint.make d0 c].
Proof.
  intros Hc. rewrite fallbackLoop_six. cbn [map]. rewrite (orZero_positive c Hc).
  do 6 eexists. reflexivity.
Qed.

(** After a failed fetch the dashboard is flat.  When the history
    service rejects for a product whose title holds more than white
    space and whose price parses to an integer [z] from 1 to [2^53], the
    product counts as selected and the stored series is six times that
    price; the prediction made from it is "stable" with change 0,
    confidence 77 and the current price as target; every value the
    chart plots equals the price, and the vertical axis has no height:
    both bounds equal it. *)
Theorem failed_fetch_gives_flat_dashboard
    (encodeURIComponent : string -> string)
    (env : Env) (product : SerpProduct.t) (w : World) (e : string)
    (c : Q) (z : Z) (cardRnd chartRnd : Rng) :
  fetchHistory env (SerpProduct.title product) 60 = inl e ->
  parsePriceToNumber (Some (SerpProduct.price product)) = Some c ->
  c == inject_Z z -> (1 <= z <= 2 ^ 53)%Z ->
  isBlank (SerpProduct.title product) = false ->
  exists w',
    startTracking env product w = (inr tt, w') /\
    isProductSelected (store w') = true /\
    let history := priceHistory (store w') in
    let d := Dashboard.predictionData encodeURIComponent
               (selectedProduct (store w')) (isProductSelected (store w'))
               history cardRnd in
    let chart := Dashboard.chartRows encodeURIComponent (store w') cardRnd chartRnd in
    map PricePoint.price history = [c; c; c; c; c; c] /\
    PredictionData.prediction d = Direction.stable /\
    PredictionData.expectedChange d = 0 /\
    PredictionData.confidence d = 77 /\
    PredictionData.targetPrice d = inject_Z z /\
    Forall (fun v => v == inject_Z z) (allPrices chart) /\
    fst (yDomain chart) == inject_Z z /\ snd (yDomain chart) == inject_Z z.
Proof.
  intros Hf Hp Ec Hz Hsel.
  assert (Hc : 0 < c).
  { rewrite Ec. change 0 with (inject_Z 0). rewrite <- Zlt_Qlt. lia. }
  unfold startTracking, bind, try_catch, await. rewrite Hp, Hf.
  run_task. eexists. split; [reflexivity|].
  unfold Dashboard.chartRows, isProductSelected. run_task.
  rewrite Hsel. cbn [negb].
  split; [reflexivity|].
  destruct (fallbackLoop_flat (zone env) (clock env (ticks w)) c Hc)
    as (d5 & d4 & d3 & d2 & d1 & d0 & Efb).
  rewrite Efb. clear Efb. cbn zeta.
  set (history := [PricePoint.make d5 c; PricePoint.make d4 c; PricePoint.make d3 c;
                   PricePoint.make d2 c; PricePoint.make d1 c; PricePoint.make d0 c]).
  assert (Ed : Dashboard.predictionData encodeURIComponent (SerpProduct.title product)
                 true history cardRnd
               = PredictionData.make Direction.stable 77 0 "1 month" c (inject_Z z)).
  { unfold Dashboard.predictionData.
    change (true && (3 <? length history)%nat)%bool with true. cbv iota.
    apply flat_prediction; [exact Ec | lia]. }
  rewrite Ed.
  cbn [PredictionData.prediction PredictionData.expectedChange
       PredictionData.confidence PredictionData.targetPrice].
  split; [reflexivity|]. split; [reflexivity|]. split; [reflexivity|].
  split; [reflexivity|]. split; [reflexivity|].
  set (name := orString (SerpProduct.title product) "MacBook Air M3").
  assert (Ea : allPrices (priceData name (Some history) (Some (inject_Z z)) chartRnd)
               = [c; c; c; c; c; c; inject_Z z; inject_Z z; inject_Z z]).
  { unfold priceData. change (match Some history with
                              | Some ((_ :: _) as h) => projectFromHistory h (Some (inject_Z z)) chartRnd
                              | _ => generatePriceData name chartRnd
                              end)
      with (projectFromHistory history (Some (inject_Z z)) chartRnd).
    apply flat_projection; [exact Ec | lia]. }
  assert (Hall : Forall (fun v => v == inject_Z z)
                   (allPrices (priceData name (Some history)
                                 (Some (inject_Z z)) chartRnd))).
  { rewrite Ea. repeat (constructor; [assumption || reflexivity|]). constructor. }
  split; [exact Hall|].
  apply yDomain_flat; [|rewrite Ea; discriminate | exact Hall].
  change 1 with (inject_Z 1). rewrite <- Zle_Qle. lia.
Qed.

Lemma failed_fetch_gives_flat_dashboard_witness :
  let env := mkEnv (fun _ _ => inl "network error"%string) utc (fun _ => 1704067200000%Z) in
  let product := SerpProduct.make "Phone" "Rs 999" None None None None "" "" "" in
  exists w',
    startTracking env product (mkWorld initialStore 0) = (inr tt, w') /\
    map PricePoint.price (priceHistory (store w')) = [999; 999; 999; 999; 999; 999].
Proof.
  destruct (failed_fetch_gives_flat_dashboard (fun s => s)
              (mkEnv (fun _ _ => inl "network error"%string) utc (fun _ => 1704067200000%Z))
              (SerpProduct.make "Phone" "Rs 999" None None None None "" "" "")
              (mkWorld initialStore 0) "network error"%string 999 999
              (fun _ => 0) (fun _ => 0))
    as (w' & E & _ & H & _).
  - reflexivity.
  - reflexivity.
  - reflexivity.
  - lia.
  - reflexivity.
  - exists w'. split; [exact E | exact H].
Defined.

(** A title of white space only does not count as a selection: after
    the same failed fetch the dashboard shows the synthetic prediction
    of its default product instead. *)
Example blank_title_is_not_selected :
  let env := mkEnv (fun _ _ => inl "network error"%string) utc (fun _ => 1704067200000%Z) in
  let product := SerpProduct.make "  " "Rs 999" None None None None "" "" "" in
  exists w',
    startTracking env product (mkWorld initialStore 0) = (inr tt, w') /\
    isProductSelected (store w') = false /\
    Dashboard.predictionData (fun s => s) (selectedProduct (store w'))
      (isProductSelected (store w')) (priceHistory (store w')) (fun _ => 9 # 10) =
    Dashboard.generatePredictionData (fun s => s) "MacBook Air M3" (fun _ => 9 # 10).
Proof.
  cbn zeta. unfold startTracking, bind, try_catch, await.
  cbn [fetchHistory SerpProduct.title SerpProduct.price].
  change (parsePriceToNumber (Some "Rs 999"%string)) with (Some 999).
  run_task. eexists. split; [reflexivity|]. run_task.
  split; reflexivity.
Qed.

(** * Properties in the arithmetic of doubles *)

(** ** The rounding operator *)

(** *** Rounding to an integer *)

Lemma nearestEven_cases (y : Q) :
  nearestEven y = Qfloor y /\ y - inject_Z (Qfloor y) <= 1 # 2 \/
  nearestEven y = (Qfloor y + 1)%Z /\ 1 # 2 <= y - inject_Z (Qfloor y).
Proof.
  unfold nearestEven.
  destruct (Qcompare_spec (y - inject_Z (Qfloor y)) (1 # 2)) as [E | L | G].
  - destruct (Z.even (Qfloor y)); [left | right]; split; try reflexivity; lra.
  - left. split; [reflexivity | lra].
  - right. split; [reflexivity | lra].
Qed.

Lemma nearestEven_near (y : Q) :
  y - (1 # 2) <= inject_Z (nearestEven y) /\ inject_Z (nearestEven y) <= y + (1 # 2).
Proof.
  pose proof (Qfloor_le y) as Hl. pose proof (Qlt_floor y) as Hu.
  rewrite inject_Z_plus in Hu. change (inject_Z 1) with 1 in Hu.
  destruct (nearestEven_cases y) as [[-> H] | [-> H]].
  - split; lra.
  - rewrite inject_Z_plus. change (inject_Z 1) with 1. split; lra.
Qed.

Lemma nearestEven_integer (y : Q) (z : Z) : y == inject_Z z -> nearestEven y = z.
Proof.
  intros E.
  assert (F : Qfloor y = z).
  { apply Qfloor_unique; [lra|].
    rewrite inject_Z_plus. change (inject_Z 1) with 1. lra. }
  destruct (nearestEven_cases y) as [[-> H] | [-> H]]; [exact F|].
  rewrite F in H. lra.
Qed.

Lemma nearestEven_le (y : Q) (z : Z) : y <= inject_Z z -> (nearestEven y <= z)%Z.
Proof.
  intros H. pose proof (Qfloor_le y) as Hl.
  assert (Hf : (Qfloor y <= z)%Z) by (rewrite Zle_Qle; lra).
  destruct (nearestEven_cases y) as [[-> _] | [-> Hh]]; [exact Hf|].
  assert (inject_Z (Qfloor y) < inject_Z z) by lra.
  rewrite <- Zlt_Qlt in H0. lia.
Qed.

Lemma nearestEven_ge (y : Q) (z : Z) : inject_Z z <= y -> (z <= nearestEven y)%Z.
Proof.
  intros H.
  assert (Hf : (z <= Qfloor y)%Z).
  { rewrite <- (Qfloor_Z z). now apply Qfloor_resp_le. }
  destruct (nearestEven_cases y) as [[-> _] | [-> _]]; lia.
Qed.

(** *** The binary exponent *)

Lemma two_pow_pos (k : Z) : 0 < 2 ^ k.
Proof. apply Qpower_0_lt. reflexivity. Qed.

Lemma two_pow_Z (a : Z) : (0 <= a)%Z -> 2 ^ a == inject_Z (2 ^ a).
Proof. intros Ha. now rewrite Zpower_Qpower. Qed.

Lemma two_pow_diff (a b : Z) :
  (0 <= a)%Z -> (0 <= b)%Z -> 2 ^ (a - b) == inject_Z (2 ^ a) / inject_Z (2 ^ b).
Proof.
  intros Ha Hb. rewrite Qpower_minus by discriminate.
  now rewrite !two_pow_Z.
Qed.

Lemma Qabs_fraction (x : Q) :
  Qabs x == inject_Z (Z.abs (Qnum x)) / inject_Z (Zpos (Qden x)).
Proof. destruct x as [n d]. cbn [Qabs Qnum Qden]. apply Qmake_Qdiv. Qed.

Lemma fraction_le (A B n d : Z) :
  (0 < B)%Z -> (0 < d)%Z -> (A * d <= n * B)%Z ->
  inject_Z A / inject_Z B <= inject_Z n / inject_Z d.
Proof.
  intros HB Hd H.
  assert (0 < inject_Z B) by (change 0 with (inject_Z 0); now rewrite <- Zlt_Qlt).
  assert (0 < inject_Z d) by (change 0 with (inject_Z 0); now rewrite <- Zlt_Qlt).
  apply Qle_shift_div_r; [assumption|].
  setoid_replace (inject_Z n / inject_Z d * inject_Z B)
    with (inject_Z n * inject_Z B / inject_Z d) by (field; lra).
  apply Qle_shift_div_l; [assumption|].
  rewrite <- !inject_Z_mult, <- Zle_Qle. exact H.
Qed.

Lemma fraction_lt (A B n d : Z) :
  (0 < B)%Z -> (0 < d)%Z -> (A * d < n * B)%Z ->
  inject_Z A / inject_Z B < inject_Z n / inject_Z d.
Proof.
  intros HB Hd H.
  assert (0 < inject_Z B) by (change 0 with (inject_Z 0); now rewrite <- Zlt_Qlt).
  assert (0 < inject_Z d) by (change 0 with (inject_Z 0); now rewrite <- Zlt_Qlt).
  apply Qlt_shift_div_r; [assumption|].
  setoid_replace (inject_Z n / inject_Z d * inject_Z B)
    with (inject_Z n * inject_Z B / inject_Z d) by (field; lra).
  apply Qlt_shift_div_l; [assumption|].
  rewrite <- !inject_Z_mult, <- Zlt_Qlt. exact H.
Qed.

(** [exponent x] is the integer part of the binary logarithm of [|x|]:
    the doubles around [x] have their 53 bits from [2 ^ exponent x]
    down. *)
Lemma exponent_spec (x : Q) :
  ~ x == 0 -> 2 ^ exponent x <= Qabs x /\ Qabs x < 2 ^ (exponent x + 1).
Proof.
  intros Hx.
  assert (Hn : (0 < Z.abs (Qnum x))%Z).
  { destruct x as [n d]. unfold Qeq in Hx. cbn in *. lia. }
  pose proof (Z.log2_spec _ Hn) as [La Ua].
  pose proof (Z.log2_spec (Zpos (Qden x)) ltac:(lia)) as [Lb Ub].
  pose proof (Z.log2_nonneg (Z.abs (Qnum x))) as Ha.
  pose proof (Z.log2_nonneg (Zpos (Qden x))) as Hb.
  set (n := Z.abs (Qnum x)) in *. set (d := Zpos (Qden x)) in *.
  set (a := Z.log2 n) in *. set (b := Z.log2 d) in *.
  assert (Pa : (0 < 2 ^ a)%Z) by (apply Z.pow_pos_nonneg; lia).
  assert (Pb : (0 < 2 ^ b)%Z) by (apply Z.pow_pos_nonneg; lia).
  assert (Pa1 : (2 ^ Z.succ a = 2 * 2 ^ a)%Z) by (apply Z.pow_succ_r; lia).
  assert (Pb1 : (2 ^ Z.succ b = 2 * 2 ^ b)%Z) by (apply Z.pow_succ_r; lia).
  unfold exponent. fold n d a b.
  destruct (Qle_bool (2 ^ (a - b)) (Qabs x)) eqn:T.
  - split; [now apply Qle_bool_iff|].
    replace (a - b + 1)%Z with (Z.succ a - b)%Z by lia.
    rewrite two_pow_diff by lia. rewrite Qabs_fraction. fold n d.
    apply fraction_lt; [lia | lia | nia].
  - split.
    + replace (a - b - 1)%Z with (a - Z.succ b)%Z by lia.
      rewrite two_pow_diff by lia. rewrite Qabs_fraction. fold n d.
      apply fraction_le; [lia | lia | nia].
    + replace (a - b - 1 + 1)%Z with (a - b)%Z by lia.
      apply Qnot_le_lt. intros C. apply Qle_bool_iff in C. congruence.
Qed.

Lemma exponent_below (x : Q) (k : Z) :
  ~ x == 0 -> Qabs x < 2 ^ k -> (exponent x < k)%Z.
Proof.
  intros Hx Hk. destruct (exponent_spec x Hx) as [Hl _].
  apply (Qpower_lt_compat_l_inv 2); [|reflexivity].
  eapply Qle_lt_trans; eassumption.
Qed.

(** *** Rounding to a double *)

Lemma nearestEven_comp (y y' : Q) : y == y' -> nearestEven y = nearestEven y'.
Proof.
  intros E. unfold nearestEven.
  rewrite (Qfloor_comp _ _ E).
  assert (E' : y - inject_Z (Qfloor y') == y' - inject_Z (Qfloor y')) by now rewrite E.
  now rewrite (Qcompare_comp _ _ E' _ _ (Qeq_refl (1 # 2))).
Qed.

Lemma Qred_inject_Z (z : Z) : Qred (inject_Z z) = inject_Z z.
Proof. apply Qcanon.Qred_identity. cbn. apply Z.gcd_1_r. Qed.

Lemma fl_comp (x y : Q) : x == y -> fl x = fl y.
Proof. intros E. unfold fl. now rewrite (Qred_complete _ _ E). Qed.

Lemma fl_zero : fl 0 = 0.
Proof. reflexivity. Qed.

(** [fl x] is within half a unit in the last place of [x]. *)
Lemma fl_half_ulp (x : Q) :
  let u := 2 ^ ulpExponent (Qred x) in
  x - u * (1 # 2) <= fl x /\ fl x <= x + u * (1 # 2).
Proof.
  intros u. unfold fl. fold u. rewrite Qred_correct.
  pose proof (Qred_correct x) as Ex.
  assert (Hu : 0 < u) by apply two_pow_pos.
  destruct (nearestEven_near (Qred x / u)) as [Hl Hh].
  assert (Ey : Qred x / u * u == x) by (rewrite Ex; field; lra).
  split.
  - apply (Qmult_le_compat_r _ _ u) in Hl; [|lra].
    setoid_replace ((Qred x / u - (1 # 2)) * u)
      with (Qred x / u * u - u * (1 # 2)) in Hl by (field; lra).
    lra.
  - apply (Qmult_le_compat_r _ _ u) in Hh; [|lra].
    setoid_replace ((Qred x / u + (1 # 2)) * u)
      with (Qred x / u * u + u * (1 # 2)) in Hh by (field; lra).
    lra.
Qed.


Lemma ulp_small (x B : Q) :
  ~ x == 0 -> 1 <= B -> Qabs x <= B -> 2 ^ ulpExponent x * (1 # 2) <= B * eps.
Proof.
  intros Hx HB Hxb. unfold ulpExponent.
  destruct (exponent_spec x Hx) as [Hl _].
  assert (H52 : (2 : Q) ^ 52 == 4503599627370496) by reflexivity.
  destruct (Z.max_spec (exponent x - 52) (-1074)) as [[_ ->] | [_ ->]].
  - assert (Hp : (2 : Q) ^ (-1074) <= 2 ^ (-52))
      by (apply Qpower_le_compat_l; [lia | discriminate]).
    assert (H52' : (2 : Q) ^ (-52) == 1 # 4503599627370496) by reflexivity.
    set (p := (2 : Q) ^ (-1074)) in *. set (q := (2 : Q) ^ (-52)) in *.
    clearbody p q. clear Hl. unfold eps. lra.
  - rewrite Qpower_minus by discriminate. rewrite H52.
    set (p := (2 : Q) ^ exponent x) in *. clearbody p.
    unfold Qdiv. change (/ 4503599627370496) with (1 # 4503599627370496).
    unfold eps. lra.
Qed.

Lemma fl_near (B x : Q) :
  1 <= B -> - B <= x -> x <= B ->
  x - B * eps <= fl x /\ fl x <= x + B * eps.
Proof.
  intros HB Hlo Hhi.
  destruct (Qeq_dec x 0) as [E | N].
  - rewrite (fl_comp _ _ E), fl_zero. unfold eps. lra.
  - pose proof (fl_half_ulp x) as [Hl Hh]. cbn zeta in Hl, Hh.
    assert (N' : ~ Qred x == 0) by (rewrite Qred_correct; exact N).
    assert (Hb : Qabs (Qred x) <= B).
    { rewrite Qred_correct. apply Qabs_Qle_condition. split; assumption. }
    pose proof (ulp_small (Qred x) B N' HB Hb). lra.
Qed.

(** Below [2^53] the unit in the last place is 1 over a power of 2, so
    rounding a number is rounding a multiple of it to an integer. *)
Lemma fl_scaled (x : Q) :
  ~ x == 0 -> Qabs x < 2 ^ 53 ->
  exists M : Z, (0 < M)%Z /\
    fl x == inject_Z (nearestEven (x * inject_Z M)) / inject_Z M.
Proof.
  intros Hx Hb.
  assert (N' : ~ Qred x == 0) by (rewrite Qred_correct; exact Hx).
  assert (Hb' : Qabs (Qred x) < 2 ^ 53) by (now rewrite Qred_correct).
  pose proof (exponent_below _ _ N' Hb') as He.
  set (ue := ulpExponent (Qred x)).
  assert (Hue : (ue <= 0)%Z) by (unfold ue, ulpExponent; lia).
  exists (2 ^ (- ue))%Z.
  assert (HM : (0 < 2 ^ (- ue))%Z) by (apply Z.pow_pos_nonneg; lia).
  split; [exact HM|].
  assert (HMq : 0 < inject_Z (2 ^ (- ue)))
    by (change 0 with (inject_Z 0); now rewrite <- Zlt_Qlt).
  assert (Eu : 2 ^ ue == / inject_Z (2 ^ (- ue))).
  { replace ue with (- (- ue))%Z at 1 by lia.
    rewrite Qpower_opp. now rewrite two_pow_Z by lia. }
  unfold fl. fold ue. rewrite Qred_correct.
  assert (Ey : Qred x / 2 ^ ue == x * inject_Z (2 ^ (- ue))).
  { rewrite Eu, Qred_correct. field. lra. }
  rewrite (nearestEven_comp _ _ Ey). rewrite Eu. reflexivity.
Qed.

Lemma fl_eq_integer (x : Q) (z : Z) : fl x == inject_Z z -> fl x = inject_Z z.
Proof.
  intros E. unfold fl in *. rewrite <- (Qred_inject_Z z).
  apply Qred_complete. now rewrite Qred_correct in E.
Qed.

(** Integers up to [2^53] in magnitude are doubles. *)
Lemma fl_integer (z : Z) : (Z.abs z <= 2 ^ 53)%Z -> fl (inject_Z z) = inject_Z z.
Proof.
  intros Hz.
  destruct (Z.eq_dec z 0) as [-> | Hz0]; [reflexivity|].
  destruct (Z.eq_dec z (2 ^ 53)) as [-> | Hp]; [vm_compute; reflexivity|].
  destruct (Z.eq_dec z (- 2 ^ 53)) as [-> | Hm]; [vm_compute; reflexivity|].
  assert (Hx : ~ inject_Z z == 0).
  { change 0 with (inject_Z 0). rewrite inject_Z_injective. exact Hz0. }
  assert (Hb : Qabs (inject_Z z) < 2 ^ 53).
  { apply Qabs_Qlt_condition. rewrite two_pow_Z by lia.
    rewrite <- inject_Z_opp, <- !Zlt_Qlt. lia. }
  destruct (fl_scaled _ Hx Hb) as (M & HM & E).
  assert (HMq : 0 < inject_Z M)
    by (change 0 with (inject_Z 0); now rewrite <- Zlt_Qlt).
  rewrite <- inject_Z_mult in E.
  rewrite (nearestEven_integer _ (z * M) (Qeq_refl _)) in E.
  apply fl_eq_integer. rewrite E, inject_Z_mult. field. lra.
Qed.

(** An integer bound on a number below [2^53] in magnitude bounds the
    double nearest to it. *)
Lemma fl_le_integer (x : Q) (z : Z) :
  - 2 ^ 53 <= x -> x <= 2 ^ 53 -> x <= inject_Z z -> fl x <= inject_Z z.
Proof.
  intros Hlo Hhi Hz.
  assert (H53 : (2 : Q) ^ 53 == inject_Z (2 ^ 53)) by reflexivity.
  destruct (Qeq_dec x 0) as [E0 | N0];
    [rewrite (fl_comp _ _ E0), fl_zero; lra|].
  destruct (Qeq_dec x (inject_Z (2 ^ 53))) as [Ep | Np];
    [rewrite (fl_comp _ _ Ep), fl_integer by lia; lra|].
  destruct (Qeq_dec x (inject_Z (- 2 ^ 53))) as [Em | Nm];
    [rewrite (fl_comp _ _ Em), fl_integer by lia; lra|].
  assert (Hb : Qabs x < 2 ^ 53).
  { apply Qabs_Qlt_condition. rewrite H53 in *.
    rewrite inject_Z_opp in Nm. split.
    - apply Qle_lteq in Hlo. destruct Hlo as [L | E]; [exact L|].
      exfalso. apply Nm. now symmetry.
    - apply Qle_lteq in Hhi. destruct Hhi as [L | E]; [exact L|].
      exfalso. now apply Np. }
  destruct (fl_scaled _ N0 Hb) as (M & HM & E).
  assert (HMq : 0 < inject_Z M)
    by (change 0 with (inject_Z 0); now rewrite <- Zlt_Qlt).
  rewrite E. apply Qle_shift_div_r; [exact HMq|].
  rewrite <- inject_Z_mult, <- Zle_Qle. apply nearestEven_le.
  rewrite inject_Z_mult. apply Qmult_le_compat_r; lra.
Qed.

Lemma fl_ge_integer (x : Q) (z : Z) :
  - 2 ^ 53 <= x -> x <= 2 ^ 53 -> inject_Z z <= x -> inject_Z z <= fl x.
Proof.
  intros Hlo Hhi Hz.
  assert (H53 : (2 : Q) ^ 53 == inject_Z (2 ^ 53)) by reflexivity.
  destruct (Qeq_dec x 0) as [E0 | N0];
    [rewrite (fl_comp _ _ E0), fl_zero; lra|].
  destruct (Qeq_dec x (inject_Z (2 ^ 53))) as [Ep | Np];
    [rewrite (fl_comp _ _ Ep), fl_integer by lia; lra|].
  destruct (Qeq_dec x (inject_Z (- 2 ^ 53))) as [Em | Nm];
    [rewrite (fl_comp _ _ Em), fl_integer by lia; lra|].
  assert (Hb : Qabs x < 2 ^ 53).
  { apply Qabs_Qlt_condition. rewrite H53 in *.
    rewrite inject_Z_opp in Nm. split.
    - apply Qle_lteq in Hlo. destruct Hlo as [L | E]; [exact L|].
      exfalso. apply Nm. now symmetry.
    - apply Qle_lteq in Hhi. destruct Hhi as [L | E]; [exact L|].
      exfalso. now apply Np. }
  destruct (fl_scaled _ N0 Hb) as (M & HM & E).
  assert (HMq : 0 < inject_Z M)
    by (change 0 with (inject_Z 0); now rewrite <- Zlt_Qlt).
  rewrite E. apply Qle_shift_div_l; [exact HMq|].
  rewrite <- inject_Z_mult, <- Zle_Qle. apply nearestEven_ge.
  rewrite inject_Z_mult. apply Qmult_le_compat_r; lra.
Qed.

(** [fl] on a number of magnitude at most [B], as two bounds that
    linear arithmetic can use. *)
Lemma fl_within (B x : Q) :
  1 <= B -> - B <= x -> x <= B ->
  x - B * (1 # 9007199254740992) <= fl x /\ fl x <= x + B * (1 # 9007199254740992).
Proof. apply fl_near. Qed.

Lemma fl_nonneg (x : Q) : 0 <= x -> x <= 2 ^ 53 -> 0 <= fl x.
Proof.
  intros H0 H1. change 0 with (inject_Z 0). apply fl_ge_integer; try assumption.
  assert ((2 : Q) ^ 53 == 9007199254740992) by reflexivity. lra.
Qed.

(** Sample values: the doubles of 0.1, 0.3 and 1/3, the sum
    0.1 + 0.2, which is not the double of 0.3, the integers beyond
    [2^53] and the ties at the smallest double. *)
Example fl_samples :
  fl (1 # 10) = 3602879701896397 # 36028797018963968 /\
  Rounded.add fl (fl (1 # 10)) (fl (2 # 10)) = 1351079888211149 # 4503599627370496 /\
  fl (3 # 10) = 5404319552844595 # 18014398509481984 /\
  ~ Rounded.add fl (fl (1 # 10)) (fl (2 # 10)) == fl (3 # 10) /\
  fl (inject_Z (2 ^ 53 + 1)) = inject_Z (2 ^ 53) /\
  fl (inject_Z (2 ^ 53 + 3)) = inject_Z (2 ^ 53 + 4) /\
  fl (1 # 3) = 6004799503160661 # 18014398509481984 /\
  fl (2 ^ (-1075)) = 0 /\
  fl (3 * 2 ^ (-1075)) = Qred (2 ^ (-1073)).
Proof. repeat split; try (vm_compute; reflexivity). vm_compute. discriminate. Qed.

(** ** The projection in doubles *)

Lemma rounded_projection_shape
    (init : list PricePoint.t) (x : PricePoint.t) (target : option Q) (rnd : Rng) :
  let recent := slice_last 8 (init ++ [x]) in
  let prices := map PricePoint.price recent in
  let avg := Rounded.div fl (Rounded.sum fl prices)
               (inject_Z (Z.of_nat (length prices))) in
  let diffs := tl (Rounded.firstDifferences fl prices) in
  let avgStep :=
    match diffs with
    | [] => 0
    | _ => Rounded.div fl (Rounded.sum fl diffs) (inject_Z (Z.of_nat (length diffs)))
    end in
  (1 <= length recent <= 8)%nat /\
  length (labelHistorical recent 0) = length recent /\
  Rounded.projectFromHistory fl (init ++ [x]) target rnd =
    labelHistorical recent 0 ++
    Rounded.forecastLoop fl 3 1 (Z.of_nat (length recent) - 1) target avg avgStep
      rnd 0 (PricePoint.price x).
Proof.
  intros recent prices avg diffs avgStep.
  assert (Hrecent : recent = slice_last 7 init ++ [x]).
  { unfold recent. now rewrite slice_last_snoc by lia. }
  assert (Hlen : (1 <= length recent <= 8)%nat).
  { rewrite Hrecent, length_app, slice_last_length. cbn [length]. lia. }
  destruct (labelHistorical_dates recent 0 ltac:(lia)) as [_ Hl].
  cbn zeta in Hl. rewrite Nat.min_l in Hl by lia.
  split; [exact Hlen|]. split; [exact Hl|].
  assert (Hlast : nth_error prices (length prices - 1) = Some (PricePoint.price x)).
  { unfold prices. rewrite Hrecent, map_app, length_app, length_map. cbn [map length].
    rewrite nth_error_app2 by (rewrite length_map; lia).
    rewrite length_map.
    replace (length (slice_last 7 init) + 1 - 1 - length (slice_last 7 init))%nat
      with 0%nat by lia.
    reflexivity. }
  assert (Hp : Rounded.projectFromHistory fl (init ++ [x]) target rnd =
               fst (Rounded.projectRecent fl recent target rnd)
               ++ snd (Rounded.projectRecent fl recent target rnd)).
  { unfold Rounded.projectFromHistory, recent.
    destruct (init ++ [x]) as [|p0 rest0] eqn:Eh; [destruct init; discriminate|].
    destruct (Rounded.projectRecent fl (slice_last 8 (p0 :: rest0)) target rnd).
    reflexivity. }
  rewrite Hp. unfold Rounded.projectRecent. cbn [fst snd].
  fold prices. fold avg. fold diffs. fold avgStep.
  rewrite Hlast, Hl. reflexivity.
Qed.

(** The bound of the loop, not the fuel of its model, ends it. *)
Lemma rounded_forecastLoop_past_three (fuel : nat) :
  forall i cli target avg avgStep rnd k current,
    (3 < i)%Z -> Rounded.forecastLoop fl fuel i cli target avg avgStep rnd k current = [].
Proof.
  destruct fuel as [|fuel]; intros; cbn [Rounded.forecastLoop]; [reflexivity|].
  replace (i <=? 3)%Z with false by (symmetry; apply Z.leb_gt; lia).
  reflexivity.
Qed.

Lemma rounded_forecastLoop_fuel (more : nat) cli target avg avgStep rnd k current :
  Rounded.forecastLoop fl (3 + more) 1 cli target avg avgStep rnd k current =
  Rounded.forecastLoop fl 3 1 cli target avg avgStep rnd k current.
Proof.
  cbn [Nat.add Rounded.forecastLoop].
  repeat (destruct (_ && _)%bool; [|reflexivity];
          destruct (Rounded.forecastStep _ _ _ _ _ _ _ _) as [? ?]; f_equal).
  now rewrite rounded_forecastLoop_past_three by lia.
Qed.

Lemma rounded_forecastLoop_target (cli : Z) (target avg avgStep : Q) (rnd : Rng)
    (k : nat) (c0 : Q) :
  0 <= target -> (cli + 3 < 12)%Z ->
  Rounded.forecastLoop fl 3 1 cli (Some target) avg avgStep rnd k c0 =
  let c1 := stepTowards target 1 c0 in
  let c2 := stepTowards target 2 c1 in
  let c3 := stepTowards target 3 c2 in
  [ forecastRow (monthAt (cli + 1)) c1;
    forecastRow (monthAt (cli + 2)) c2;
    forecastRow (monthAt (cli + 3)) c3 ].
Proof.
  intros Ht Hcli. cbn [Rounded.forecastLoop].
  unfold stepTowards, Rounded.forecastStep.
  apply Qle_bool_iff in Ht as Hb. rewrite Hb.
  change (Z.of_nat (length months)) with 12%Z.
  change (1 + 1 + 1)%Z with 3%Z. change (1 + 1)%Z with 2%Z.
  replace (cli + 1 <? 12)%Z with true by (symmetry; apply Z.ltb_lt; lia).
  replace (cli + 2 <? 12)%Z with true by (symmetry; apply Z.ltb_lt; lia).
  replace (cli + 3 <? 12)%Z with true by (symmetry; apply Z.ltb_lt; lia).
  cbn [Z.leb Z.compare Pos.compare Pos.compare_cont andb fst].
  reflexivity.
Qed.

Lemma stepTowards_unfold (target : Q) (i : Z) (current : Q) :
  0 <= target ->
  stepTowards target i current =
  Math_max 0 (Math_round (fl (current + fl (fl (target - current) / inject_Z (4 - i))))).
Proof.
  intros Ht. unfold stepTowards, Rounded.forecastStep.
  apply Qle_bool_iff in Ht. rewrite Ht. reflexivity.
Qed.

(** *** One round towards the target *)

Lemma bound40_value : bound40 == inject_Z (2 ^ 40).
Proof. reflexivity. Qed.

(** Away from the last round the double arithmetic of a step loses less
    than [1/256]. *)
Lemma approach_near (c t r d : Q) :
  (r = 1 # 3 /\ d = 3) \/ (r = 1 # 2 /\ d = 2) ->
  0 <= c -> c <= 2 * bound40 -> 0 <= t -> t <= bound40 ->
  let x := fl (c + fl (fl (t - c) / d)) in
  let e := c + (t - c) * r in
  - (1 # 256) <= x - e /\ x - e <= 1 # 256.
Proof.
  intros Hr Hc0 Hc1 Ht0 Ht1 x e. subst x e.
  assert (HB : 1 <= 4 * bound40) by (unfold bound40; lra).
  pose proof (fl_near (4 * bound40) (t - c) HB) as [A1 A2];
    try (unfold bound40 in *; lra).
  set (d1 := fl (t - c)) in *.
  assert (Ed : d1 / d == d1 * r)
    by (destruct Hr as [[-> ->] | [-> ->]]; field).
  rewrite (fl_comp _ _ Ed).
  assert (Hr' : 0 <= r /\ r <= 1 # 2)
    by (destruct Hr as [[-> _] | [-> _]]; split; lra).
  unfold eps, bound40 in *.
  assert (Hq : - (4 * 1099511627776) <= d1 * r /\ d1 * r <= 4 * 1099511627776).
  { destruct Hr as [[-> _] | [-> _]]; split; lra. }
  pose proof (fl_near _ (d1 * r) HB (proj1 Hq) (proj2 Hq)) as [B1 B2].
  set (q := fl (d1 * r)) in *.
  unfold eps in *.
  assert (Hs : - (4 * 1099511627776) <= c + q /\ c + q <= 4 * 1099511627776).
  { destruct Hr as [[-> _] | [-> _]]; split; lra. }
  pose proof (fl_near _ (c + q) HB (proj1 Hs) (proj2 Hs)) as [C1 C2].
  unfold eps in *.
  destruct Hr as [[-> _] | [-> _]]; split; lra.
Qed.

Lemma clamp_round_within (x e : Q) :
  0 <= e -> - (1 # 256) <= x - e -> x - e <= 1 # 256 ->
  natural (Math_max 0 (Math_round x)) /\
  - (1) <= Math_max 0 (Math_round x) - e /\ Math_max 0 (Math_round x) - e <= 1.
Proof.
  intros He Hl Hh. split; [apply clamp_round_natural|].
  pose proof (Math_round_lower x). pose proof (Math_round_upper x).
  pose proof (Math_max0_ge (Math_round x)).
  assert (Math_max 0 (Math_round x) <= e + (1 # 2) + (1 # 256))
    by (apply Math_max0_le; lra).
  split; lra.
Qed.

(** The last round reaches an integer target exactly. *)
Lemma approach_exact (c t : Z) :
  (0 <= c <= 2 ^ 42)%Z -> (0 <= t <= 2 ^ 42)%Z ->
  stepTowards (inject_Z t) 3 (inject_Z c) = inject_Z t.
Proof.
  intros Hc Ht.
  assert (H0 : 0 <= inject_Z t)
    by (change 0 with (inject_Z 0); rewrite <- Zle_Qle; lia).
  rewrite stepTowards_unfold by exact H0.
  change (inject_Z (4 - 3)) with 1.
  assert (E1 : inject_Z t - inject_Z c == inject_Z (t - c)).
  { unfold Z.sub. rewrite inject_Z_plus, inject_Z_opp. reflexivity. }
  rewrite (fl_comp _ _ E1), fl_integer by lia.
  assert (E2 : inject_Z (t - c) / 1 == inject_Z (t - c)) by field.
  rewrite (fl_comp _ _ E2), fl_integer by lia.
  assert (E3 : inject_Z c + inject_Z (t - c) == inject_Z t).
  { unfold Z.sub. rewrite !inject_Z_plus, inject_Z_opp. ring. }
  rewrite (fl_comp _ _ E3), fl_integer by lia.
  rewrite Math_round_integer. now apply Math_max_of_nonneg.
Qed.

Lemma natural_integer_bound (q b : Q) (n : Z) :
  natural q -> q <= b -> b <= inject_Z n ->
  exists z, q = inject_Z z /\ (0 <= z <= n)%Z.
Proof.
  intros (z & Hz & ->) Hq Hb. exists z. split; [reflexivity|].
  split; [exact Hz|]. rewrite Zle_Qle. lra.
Qed.

(** The forecast towards a target in doubles: three rows, the first two
    within 1 of the exact step, the last one on the target. *)
Lemma rounded_projection_towards_target
    (history : list PricePoint.t) (t : Z) (rnd : Rng) :
  history <> [] ->
  let c0 := PricePoint.price (last history (PricePoint.make EmptyString 0)) in
  let target := inject_Z t in
  0 <= c0 -> c0 <= bound40 -> (0 <= t <= 2 ^ 40)%Z ->
  exists m1 m2 m3,
    Rounded.projectFromHistory fl history (Some target) rnd =
      labelHistorical (slice_last 8 history) 0
      ++ [ forecastRow (Some m1) (stepTowards target 1 c0);
           forecastRow (Some m2) (stepTowards target 2 (stepTowards target 1 c0));
           forecastRow (Some m3) target ] /\
    natural (stepTowards target 1 c0) /\
    natural (stepTowards target 2 (stepTowards target 1 c0)) /\
    - (1) <= stepTowards target 1 c0 - (c0 + (target - c0) * (1 # 3)) /\
    stepTowards target 1 c0 - (c0 + (target - c0) * (1 # 3)) <= 1 /\
    - (1) <= stepTowards target 2 (stepTowards target 1 c0)
             - (stepTowards target 1 c0
                + (target - stepTowards target 1 c0) * (1 # 2)) /\
    stepTowards target 2 (stepTowards target 1 c0)
      - (stepTowards target 1 c0 + (target - stepTowards target 1 c0) * (1 # 2)) <= 1.
Proof.
  intros Hne c0 target Hc0 Hc1 Ht.
  assert (Ht0 : 0 <= target)
    by (unfold target; change 0 with (inject_Z 0); rewrite <- Zle_Qle; lia).
  assert (Ht1 : target <= bound40)
    by (unfold target; rewrite bound40_value, <- Zle_Qle; lia).
  assert (Et : target = inject_Z t) by reflexivity. clearbody target. revert Et.
  destruct (snoc_cases history) as [E | (init & x & E)]; [contradiction|].
  subst history. unfold c0 in *. rewrite last_last in *. clear c0.
  remember (PricePoint.price x) as c0 eqn:Ec0.
  destruct (rounded_projection_shape init x (Some target) rnd) as (Hlen & _ & Hp).
  rewrite Hp. clear Hp.
  set (recent := slice_last 8 (init ++ [x])) in *.
  set (cli := (Z.of_nat (length recent) - 1)%Z).
  rewrite rounded_forecastLoop_target by (assumption || lia).
  destruct (monthAt_in_range (cli + 1) ltac:(lia)) as (m1 & H1).
  destruct (monthAt_in_range (cli + 2) ltac:(lia)) as (m2 & H2).
  destruct (monthAt_in_range (cli + 3) ltac:(lia)) as (m3 & H3).
  cbn zeta. rewrite H1, H2, H3, <- Ec0.
  (* the first round *)
  pose proof (approach_near c0 target (1 # 3) 3 (or_introl (conj eq_refl eq_refl))
                Hc0 ltac:(unfold bound40 in *; lra) Ht0 Ht1) as [N1 N2].
  cbn zeta in N1, N2.
  assert (He1 : 0 <= c0 + (target - c0) * (1 # 3)) by lra.
  destruct (clamp_round_within _ _ He1 N1 N2) as (Nat1 & L1 & U1).
  assert (Es1 : stepTowards target 1 c0 =
                Math_max 0 (Math_round (fl (c0 + fl (fl (target - c0) / 3)))))
    by (now rewrite stepTowards_unfold).
  rewrite <- Es1 in Nat1, L1, U1. clear Es1 N1 N2.
  remember (stepTowards target 1 c0) as c1 eqn:Ec1.
  destruct (natural_integer_bound c1 (bound40 + 1) (2 ^ 40 + 1) Nat1)
    as (z1 & Ez1 & Hz1); [lra | vm_compute; discriminate |].
  (* the second round *)
  assert (Hc1a : 0 <= c1) by (apply natural_nonneg; exact Nat1).
  assert (Hc1b : c1 <= 2 * bound40) by (unfold bound40 in *; lra).
  pose proof (approach_near c1 target (1 # 2) 2 (or_intror (conj eq_refl eq_refl))
                Hc1a Hc1b Ht0 Ht1) as [M1 M2].
  cbn zeta in M1, M2.
  assert (He2 : 0 <= c1 + (target - c1) * (1 # 2)) by lra.
  destruct (clamp_round_within _ _ He2 M1 M2) as (Nat2 & L2 & U2).
  assert (Es2 : stepTowards target 2 c1 =
                Math_max 0 (Math_round (fl (c1 + fl (fl (target - c1) / 2)))))
    by (now rewrite stepTowards_unfold).
  rewrite <- Es2 in Nat2, L2, U2. clear Es2 M1 M2.
  remember (stepTowards target 2 c1) as c2 eqn:Ec2.
  destruct (natural_integer_bound c2 (bound40 + 2) (2 ^ 40 + 2) Nat2)
    as (z2 & Ez2 & Hz2); [lra | vm_compute; discriminate |].
  (* the last round *)
  intros Et.
  assert (E3 : stepTowards target 3 c2 = target).
  { rewrite Ez2, Et. apply approach_exact; lia. }
  exists m1, m2, m3. rewrite E3.
  split; [reflexivity|].
  repeat split; assumption.
Qed.

(** C2, amended.  With a target that is a non-negative integer and a
    non-empty series, both of at most [2^40] where they count (the
    target and the last price), the projection in doubles ends with
    exactly three forecast rows; the first two values are non-negative
    integers within 1 of the running value moved by a third, then by a
    half, of its gap to the target, and the final value is the target
    exactly. *)
Theorem projection_ends_at_integer_target
    (history : list PricePoint.t) (t : Z) (rnd : Rng) :
  history <> [] ->
  let c0 := PricePoint.price (last history (PricePoint.make EmptyString 0)) in
  0 <= c0 -> c0 <= bound40 -> (0 <= t <= 2 ^ 40)%Z ->
  exists rows m1 m2 m3 c1 c2,
    Rounded.projectFromHistory fl history (Some (inject_Z t)) rnd =
      rows ++ [ forecastRow (Some m1) c1; forecastRow (Some m2) c2;
                forecastRow (Some m3) (inject_Z t) ] /\
    Forall isHistorical rows /\
    natural c1 /\ natural c2 /\
    - (1) <= c1 - (c0 + (inject_Z t - c0) * (1 # 3)) /\
    c1 - (c0 + (inject_Z t - c0) * (1 # 3)) <= 1 /\
    - (1) <= c2 - (c1 + (inject_Z t - c1) * (1 # 2)) /\
    c2 - (c1 + (inject_Z t - c1) * (1 # 2)) <= 1.
Proof.
  intros Hne c0 Hc0 Hc1 Ht.
  destruct (rounded_projection_towards_target history t rnd Hne Hc0 Hc1 Ht)
    as (m1 & m2 & m3 & E & Hrest).
  exists (labelHistorical (slice_last 8 history) 0), m1, m2, m3.
  eexists. eexists. split; [exact E|].
  split; [apply Forall_forall; intros row; apply labelHistorical_rows|].
  exact Hrest.
Qed.

Lemma projection_ends_at_integer_target_witness :
  exists rows m1 m2 m3 c1 c2,
    Rounded.projectFromHistory fl
      [PricePoint.make "2024-01-01" 1000; PricePoint.make "2024-01-08" 1050]
      (Some 1100) (fun _ => 1 # 2) =
    rows ++ [ forecastRow (Some m1) c1; forecastRow (Some m2) c2;
              forecastRow (Some m3) 1100 ].
Proof.
  destruct (projection_ends_at_integer_target
              [PricePoint.make "2024-01-01" 1000; PricePoint.make "2024-01-08" 1050]
              1100 (fun _ => 1 # 2))
    as (rows & m1 & m2 & m3 & c1 & c2 & E & _).
  - discriminate.
  - unfold Qle; simpl; lia.
  - unfold Qle; simpl; lia.
  - lia.
  - exists rows, m1, m2, m3, c1, c2. exact E.
Defined.

(** C2 as stated fails where the last round cannot land on the target:
    on a target that is not an integer, which the rounding of every
    step excludes (1000, 1050 towards 10.5 ends at 11), also when the
    target rounds down (450000 towards 100.49999999999 ends at 101);
    and on prices beyond the integers that doubles hold exactly
    ([10^17] towards 1 ends at 0). *)
Lemma projection_misses_fractional_target :
  predictions (Rounded.projectFromHistory fl
                 [PricePoint.make "2024-01-01" 1000; PricePoint.make "2024-01-08" 1050]
                 (Some (fl (21 # 2))) (fun _ => 1 # 2)) = [704; 357; 11] /\
  ~ 11 == fl (21 # 2) /\
  predictions (Rounded.projectFromHistory fl [PricePoint.make "2024-01-01" 450000]
                 (Some (fl (10049999999999 # 100000000000))) (fun _ => 1 # 2))
    = [300034; 150067; 101] /\
  Math_round (fl (10049999999999 # 100000000000)) = 100 /\
  predictions (Rounded.projectFromHistory fl
                 [PricePoint.make "2024-01-01" (fl (inject_Z (10 ^ 17)))]
                 (Some 1) (fun _ => 1 # 2))
    = [66666666666666672; 33333333333333336; 0].
Proof.
  split; [vm_compute; reflexivity|].
  split; [vm_compute; discriminate|].
  split; [vm_compute; reflexivity|].
  split; vm_compute; reflexivity.
Qed.

(** From an integer, a round towards an integer target lands on an
    integer between the two. *)
Lemma approach_between (c t i : Z) :
  (i = 1 \/ i = 2)%Z -> (0 <= c <= 2 ^ 42)%Z -> (0 <= t <= 2 ^ 42)%Z ->
  exists z, stepTowards (inject_Z t) i (inject_Z c) = inject_Z z /\
            ((c <= t)%Z -> (c <= z <= t)%Z) /\ ((t <= c)%Z -> (t <= z <= c)%Z).
Proof.
  intros Hi Hc Ht.
  assert (H0 : 0 <= inject_Z t)
    by (change 0 with (inject_Z 0); rewrite <- Zle_Qle; lia).
  rewrite stepTowards_unfold by exact H0.
  assert (E1 : inject_Z t - inject_Z c == inject_Z (t - c)).
  { unfold Z.sub. rewrite inject_Z_plus, inject_Z_opp. reflexivity. }
  rewrite (fl_comp _ _ E1), fl_integer by lia.
  assert (Hr : exists r, inject_Z (t - c) / inject_Z (4 - i) == inject_Z (t - c) * r /\
                         0 <= r /\ r <= 1).
  { destruct Hi as [-> | ->]; [exists (1 # 3) | exists (1 # 2)];
      (split; [change (inject_Z (4 - 1)) with 3; change (inject_Z (4 - 2)) with 2; field
              | split; lra]). }
  destruct Hr as (r & Er & Hr0 & Hr1).
  rewrite (fl_comp _ _ Er). clear Er E1.
  assert (P53 : (2 : Q) ^ 53 == inject_Z (2 ^ 53)) by reflexivity.
  assert (Bc : 0 <= inject_Z c /\ inject_Z c <= inject_Z (2 ^ 42))
    by (change 0 with (inject_Z 0); rewrite <- !Zle_Qle; lia).
  assert (Bt : 0 <= inject_Z t /\ inject_Z t <= inject_Z (2 ^ 42))
    by (change 0 with (inject_Z 0); rewrite <- !Zle_Qle; lia).
  assert (Ed : inject_Z (t - c) == inject_Z t - inject_Z c).
  { unfold Z.sub. rewrite inject_Z_plus, inject_Z_opp. reflexivity. }
  assert (P42 : inject_Z (2 ^ 42) == 4398046511104) by reflexivity.
  assert (P53' : inject_Z (2 ^ 53) == 9007199254740992) by reflexivity.
  set (D := inject_Z (t - c)) in *.
  assert (Hprod : (0 <= D -> 0 <= D * r /\ D * r <= D) /\
                  (D <= 0 -> D <= D * r /\ D * r <= 0)).
  { split; intros HD.
    - split; [apply Qmult_le_0_compat; assumption | now apply scaled_down].
    - assert (0 <= - D * r /\ - D * r <= - D).
      { split; [apply Qmult_le_0_compat; lra | apply scaled_down; lra]. }
      split; lra. }
  set (y := D * r) in *.
  assert (By : - 2 ^ 53 <= y /\ y <= 2 ^ 53).
  { rewrite P53, P53'. destruct Hprod as [Hp Hn].
    destruct (Qlt_le_dec D 0) as [L | G];
      [destruct (Hn (Qlt_le_weak _ _ L)) | destruct (Hp G)]; split; lra. }
  set (q := fl y).
  assert (Hq : (0 <= D -> 0 <= q /\ q <= D) /\ (D <= 0 -> D <= q /\ q <= 0)).
  { destruct Hprod as [Hp Hn]. destruct By as [By1 By2]. split; intros HD.
    - destruct (Hp HD). split.
      + change 0 with (inject_Z 0). apply fl_ge_integer; assumption.
      + apply fl_le_integer; assumption.
    - destruct (Hn HD). split.
      + apply fl_ge_integer; assumption.
      + change 0 with (inject_Z 0). apply fl_le_integer; assumption. }
  clearbody q. clear By Hprod. clearbody y.
  assert (Bs : - 2 ^ 53 <= inject_Z c + q /\ inject_Z c + q <= 2 ^ 53).
  { rewrite P53, P53'. destruct Hq as [Hp Hn].
    destruct (Qlt_le_dec D 0) as [L | G];
      [destruct (Hn (Qlt_le_weak _ _ L)) | destruct (Hp G)]; split; lra. }
  set (x := fl (inject_Z c + q)).
  assert (Hx : (0 <= D -> inject_Z c <= x /\ x <= inject_Z t) /\
               (D <= 0 -> inject_Z t <= x /\ x <= inject_Z c)).
  { destruct Hq as [Hp Hn]. destruct Bs as [Bs1 Bs2]. split; intros HD.
    - destruct (Hp HD). split.
      + apply fl_ge_integer; try assumption. lra.
      + apply fl_le_integer; try assumption. lra.
    - destruct (Hn HD). split.
      + apply fl_ge_integer; try assumption. lra.
      + apply fl_le_integer; try assumption. lra. }
  clearbody x.
  exists (Qfloor (x + (1 # 2))).
  assert (Hz : (0 <= D -> inject_Z c <= Math_round x /\ Math_round x <= inject_Z t) /\
               (D <= 0 -> inject_Z t <= Math_round x /\ Math_round x <= inject_Z c)).
  { destruct Hx as [Hp Hn]. split; intros HD.
    - destruct (Hp HD). split.
      + apply Math_round_ge_integer. lra.
      + apply Math_round_le_integer. lra.
    - destruct (Hn HD). split.
      + apply Math_round_ge_integer. lra.
      + apply Math_round_le_integer. lra. }
  assert (Hnn : 0 <= Math_round x).
  { destruct Hz as [Hp Hn].
    destruct (Qlt_le_dec D 0) as [L | G];
      [destruct (Hn (Qlt_le_weak _ _ L)) | destruct (Hp G)]; lra. }
  split; [apply Math_max_of_nonneg; exact Hnn|].
  unfold Math_round in Hz. rewrite <- !Zle_Qle in Hz.
  destruct Hz as [Hp Hn].
  split; intros H; [apply Hp | apply Hn]; rewrite Ed;
    change 0 with (inject_Z 0);
    rewrite <- ?inject_Z_opp, <- ?inject_Z_plus; unfold Qminus;
    rewrite <- ?inject_Z_opp, <- ?inject_Z_plus, <- Zle_Qle; lia.
Qed.

(** Towards an integer target the forecast in doubles is monotone and
    never overshoots: from an integer last price at or below the target
    the three values rise to the target, from one at or above it they
    fall to it, and the last value is the target (prices and target of
    at most [2^40]). *)
Theorem projection_converges_monotonically
    (history : list PricePoint.t) (z0 t : Z) (rnd : Rng) :
  history <> [] ->
  PricePoint.price (last history (PricePoint.make EmptyString 0)) = inject_Z z0 ->
  (0 <= z0 <= 2 ^ 40)%Z -> (0 <= t <= 2 ^ 40)%Z ->
  exists z1 z2,
    predictions (Rounded.projectFromHistory fl history (Some (inject_Z t)) rnd) =
      [inject_Z z1; inject_Z z2; inject_Z t] /\
    ((z0 <= t)%Z -> (z0 <= z1 <= z2)%Z /\ (z2 <= t)%Z) /\
    ((t <= z0)%Z -> (t <= z2 <= z1)%Z /\ (z1 <= z0)%Z).
Proof.
  intros Hne Hlast Hz0 Ht.
  assert (B0 : 0 <= inject_Z z0 /\ inject_Z z0 <= bound40).
  { rewrite bound40_value. change 0 with (inject_Z 0). rewrite <- !Zle_Qle. lia. }
  pose proof (rounded_projection_towards_target history t rnd Hne) as H.
  cbn zeta in H. rewrite Hlast in H.
  destruct (H (proj1 B0) (proj2 B0) Ht) as (m1 & m2 & m3 & E & _). clear H.
  destruct (approach_between z0 t 1 (or_introl eq_refl) ltac:(lia) ltac:(lia))
    as (z1 & E1 & Up1 & Down1).
  assert (Hz1 : (0 <= z1 <= 2 ^ 40)%Z) by lia.
  destruct (approach_between z1 t 2 (or_intror eq_refl) ltac:(lia) ltac:(lia))
    as (z2 & E2 & Up2 & Down2).
  rewrite E1, E2 in E.
  exists z1, z2. split.
  - rewrite E, predictions_app, predictions_historical; [reflexivity|].
    apply Forall_forall. intros row. apply labelHistorical_rows.
  - split; intros Hord; lia.
Qed.

Lemma projection_converges_monotonically_witness :
  exists z1 z2,
    predictions
      (Rounded.projectFromHistory fl
         [PricePoint.make "2024-01-01" 1000; PricePoint.make "2024-01-08" 1050]
         (Some 1100) (fun _ => 1 # 2)) = [inject_Z z1; inject_Z z2; 1100] /\
    (1050 <= z1 <= z2)%Z /\ (z2 <= 1100)%Z.
Proof.
  destruct (projection_converges_monotonically
              [PricePoint.make "2024-01-01" 1000; PricePoint.make "2024-01-08" 1050]
              1050 1100 (fun _ => 1 # 2))
    as (z1 & z2 & E & Up & _).
  - discriminate.
  - reflexivity.
  - lia.
  - lia.
  - exists z1, z2. split; [exact E|]. apply Up. lia.
Defined.

(** ** The reconciler in doubles *)










(** ** The synthetic chart in doubles *)

Lemma lit_5_10 : Rounded.lit fl (5 # 10) = 1 # 2.
Proof. reflexivity. Qed.

Lemma lit_3_10 : Rounded.lit fl (3 # 10) = 5404319552844595 # 18014398509481984.
Proof. vm_compute. reflexivity. Qed.

Lemma lit_1_10 : Rounded.lit fl (1 # 10) = 3602879701896397 # 36028797018963968.
Proof. vm_compute. reflexivity. Qed.

Lemma lit_2_100 : Rounded.lit fl (2 # 100) = 5764607523034235 # 288230376151711744.
Proof. vm_compute. reflexivity. Qed.

Lemma lit_8_10 : Rounded.lit fl (8 # 10) = 3602879701896397 # 4503599627370496.
Proof. vm_compute. reflexivity. Qed.

(** One month of the random walk: the price stays a non-negative
    integer and grows by less than a fifth. *)
Lemma walk_step (p r : Q) :
  0 <= p -> p <= 1048576 -> 0 <= r -> r < 1 ->
  let q := Math_round
             (Rounded.mul fl p
                (Rounded.add fl 1
                   (Rounded.mul fl (Rounded.sub fl r (Rounded.lit fl (5 # 10)))
                      (Rounded.lit fl (3 # 10))))) in
  natural q /\ q + 10 <= (p + 10) * (6 # 5).
Proof.
  intros Hp0 Hp1 Hr0 Hr1 q. subst q.
  rewrite lit_5_10, lit_3_10. unfold Rounded.mul, Rounded.add, Rounded.sub.
  pose proof (fl_within 1 (r - (1 # 2)) ltac:(lra) ltac:(lra) ltac:(lra)) as [U1 U2].
  set (u := fl (r - (1 # 2))) in *. clearbody u.
  pose proof (fl_within 1 (u * (5404319552844595 # 18014398509481984))
                ltac:(lra) ltac:(lra) ltac:(lra)) as [V1 V2].
  set (v := fl (u * (5404319552844595 # 18014398509481984))) in *. clearbody v.
  pose proof (fl_within 2 (1 + v) ltac:(lra) ltac:(lra) ltac:(lra)) as [F1 F2].
  set (f := fl (1 + v)) in *. clearbody f.
  assert (Hf : 849 # 1000 <= f /\ f <= 1151 # 1000) by (split; lra).
  clear U1 U2 V1 V2 F1 F2 u v Hr0 Hr1.
  assert (Hpf : 0 <= p * f /\ p * f <= p * (1151 # 1000)) by (split; nra).
  set (pf := p * f) in *. clearbody pf.
  pose proof (fl_within 2097152 pf ltac:(lra) ltac:(lra) ltac:(lra)) as [W1 W2].
  assert (W0 : 0 <= fl pf).
  { apply fl_nonneg; [lra|].
    assert ((2 : Q) ^ 53 == 9007199254740992) by reflexivity. lra. }
  set (w := fl pf) in *. clearbody w.
  split; [now apply Math_round_natural|].
  pose proof (Math_round_upper w). lra.
Qed.

Lemma grown_ge (n : nat) : forall W, 0 <= W -> W <= grown n W.
Proof.
  induction n as [|n IH]; intros W HW; cbn [grown]; [lra|].
  specialize (IH (W * (6 # 5)) ltac:(lra)). lra.
Qed.

Lemma grown_mono (n : nat) : forall V W, V <= W -> grown n V <= grown n W.
Proof.
  induction n as [|n IH]; intros V W H; cbn [grown]; [exact H|].
  apply IH. lra.
Qed.

Lemma rounded_historicalLoop_cons (m : string) (rest : list string) (rnd : Rng)
    (k : nat) (p : Q) :
  Rounded.historicalLoop fl (m :: rest) rnd k p =
  let q := Math_round
             (Rounded.mul fl p
                (Rounded.add fl 1
                   (Rounded.mul fl (Rounded.sub fl (rnd k) (Rounded.lit fl (5 # 10)))
                      (Rounded.lit fl (3 # 10))))) in
  let '(rows, final, k') := Rounded.historicalLoop fl rest rnd (S k) q in
  (PriceDataPoint.make (Some m) (Some q) None :: rows, final, k').
Proof. reflexivity. Qed.

Lemma rounded_historicalLoop_rows (labels : list string) :
  forall (rnd : Rng) (k : nat) (p W : Q) (m : string),
    unit_draws rnd -> 0 <= p -> p + 10 <= W -> grown (length (m :: labels)) W <= 1048576 ->
    exists init final,
      Rounded.historicalLoop fl (m :: labels) rnd k p =
        (init ++ [PriceDataPoint.make (Some (last labels m)) (Some final) None],
         final, (k + length (m :: labels))%nat) /\
      length init = length labels /\
      natural final /\ final + 10 <= grown (length (m :: labels)) W.
Proof.
  induction labels as [|m' rest IH]; intros rnd k p W m Hrnd Hp0 HpW HW.
  - cbn [Rounded.historicalLoop length grown last] in *.
    destruct (Hrnd k) as [Hr0 Hr1].
    assert (HW0 : W <= W * (6 # 5)) by lra.
    destruct (walk_step p (rnd k) Hp0 ltac:(lra) Hr0 Hr1) as [Hn Hg].
    cbn zeta in Hn, Hg.
    eexists []. eexists. split; [cbn [app]; rewrite Nat.add_1_r; reflexivity|].
    split; [reflexivity|]. split; [exact Hn|]. lra.
  - rewrite rounded_historicalLoop_cons. cbn [length grown] in HW.
    destruct (Hrnd k) as [Hr0 Hr1].
    pose proof (grown_ge (S (length rest)) (W * (6 # 5)) ltac:(lra)) as Hge.
    cbn [grown] in Hge.
    destruct (walk_step p (rnd k) Hp0 ltac:(lra) Hr0 Hr1) as [Hn Hg].
    cbn zeta in Hn, Hg. cbn zeta.
    set (q := Math_round _) in *.
    destruct (IH rnd (S k) q (W * (6 # 5)) m' Hrnd (natural_nonneg _ Hn) ltac:(lra) HW)
      as (init & final & E & Hlen & Hfin & Hbound).
    rewrite E.
    exists (PriceDataPoint.make (Some m) (Some q) None :: init), final.
    split; [cbn [app length]; rewrite (last_cons_default rest m' m); f_equal; lia|].
    split; [cbn [length]; now rewrite Hlen|].
    split; [exact Hfin | exact Hbound].
Qed.

(** One prediction row in doubles: the value the code rounds is within
    a millionth of the exact [aug * (1 - 0.02 * (j + 1) + (r - 0.5) * 0.1)]. *)
Lemma prediction_near (aug r : Q) (j : Z) :
  0 <= aug -> aug <= 1048576 -> 0 <= r -> r < 1 -> (0 <= j <= 3)%Z ->
  let y := Rounded.mul fl aug
             (Rounded.add fl
                (Rounded.add fl 1
                   (Rounded.mul fl (- Rounded.lit fl (2 # 100)) (inject_Z (j + 1))))
                (Rounded.mul fl (Rounded.sub fl r (Rounded.lit fl (5 # 10)))
                   (Rounded.lit fl (1 # 10)))) in
  0 <= y /\
  driftTarget aug j r - (1 # 1000000) <= y /\ y <= driftTarget aug j r + (1 # 1000000).
Proof.
  intros Ha0 Ha1 Hr0 Hr1 Hj y. subst y. unfold driftTarget.
  rewrite lit_5_10, lit_1_10, lit_2_100.
  unfold Rounded.mul, Rounded.add, Rounded.sub.
  assert (Hjq : exists n, inject_Z (j + 1) = n /\ (n == 1 \/ n == 2 \/ n == 3 \/ n == 4)).
  { exists (inject_Z (j + 1)). split; [reflexivity|].
    assert (C : (j = 0 \/ j = 1 \/ j = 2 \/ j = 3)%Z) by lia.
    destruct C as [-> | [-> | [-> | ->]]]; cbn; [left | right; left | right; right; left
      | right; right; right]; reflexivity. }
  destruct Hjq as (n & -> & Hn).
  assert (Hn' : 1 <= n /\ n <= 4) by (destruct Hn as [H | [H | [H | H]]]; rewrite H; split; lra).
  clear Hn Hj j.
  pose proof (fl_within 1 (- (5764607523034235 # 288230376151711744) * n)
                ltac:(lra) ltac:(lra) ltac:(lra)) as [T1 T2].
  set (t := fl (- (5764607523034235 # 288230376151711744) * n)) in *. clearbody t.
  pose proof (fl_within 1 (1 + t) ltac:(lra) ltac:(lra) ltac:(lra)) as [S1 S2].
  set (s := fl (1 + t)) in *. clearbody s.
  pose proof (fl_within 1 (r - (1 # 2)) ltac:(lra) ltac:(lra) ltac:(lra)) as [U1 U2].
  set (u := fl (r - (1 # 2))) in *. clearbody u.
  pose proof (fl_within 1 (u * (3602879701896397 # 36028797018963968))
                ltac:(lra) ltac:(lra) ltac:(lra)) as [V1 V2].
  set (v := fl (u * (3602879701896397 # 36028797018963968))) in *. clearbody v.
  pose proof (fl_within 2 (s + v) ltac:(lra) ltac:(lra) ltac:(lra)) as [F1 F2].
  set (f := fl (s + v)) in *. clearbody f.
  set (e := 1 - (2 # 100) * n + (r - (1 # 2)) * (1 # 10)) in *.
  assert (Hf : e - (1 # 1000000000000000) <= f /\ f <= e + (1 # 1000000000000000))
    by (subst e; split; lra).
  assert (He : 86 # 100 <= e /\ e <= 104 # 100) by (subst e; split; lra).
  clearbody e.
  clear T1 T2 S1 S2 U1 U2 V1 V2 F1 F2 t s u v Hr0 Hr1 Hn' n r.
  assert (Hpf : 0 <= aug * f /\ aug * f <= aug * (2 # 1) /\
                aug * e - (1 # 100000000) <= aug * f /\
                aug * f <= aug * e + (1 # 100000000)) by (repeat split; nra).
  set (pf := aug * f) in *. set (pe := aug * e) in *. clearbody pf pe.
  pose proof (fl_within 2097152 pf ltac:(lra) ltac:(lra) ltac:(lra)) as [W1 W2].
  assert (W0 : 0 <= fl pf).
  { apply fl_nonneg; [lra|].
    assert ((2 : Q) ^ 53 == 9007199254740992) by reflexivity. lra. }
  set (w := fl pf) in *. clearbody w.
  repeat split; lra.
Qed.

(** C3 as stated fails.  With draws that keep the historical prices at
    50000, the predictions in doubles are 51450, 45500, 44500 and 43500:
    "Oct" is more than 7% below "Sep", which no -2% step with a
    perturbation within 5% of the running price produces, and "Dec" is
    below [50000 * (0.98 ^ 4 - 0.05)], so the drift does not compound on
    the last historical price either. *)
Lemma predictions_do_not_compound :
  let out := Rounded.generatePriceData fl "iPhone 15" skewedDraws in
  nth_error out 7 = Some (PriceDataPoint.make (Some "Aug"%string) (Some 50000) None) /\
  predictions out = [51450; 45500; 44500; 43500] /\
  ~ compoundsOnRunning 50000 (predictions out) /\
  ~ compoundsOnBase 50000 1 (predictions out).
Proof.
  assert (E : predictions (Rounded.generatePriceData fl "iPhone 15" skewedDraws)
              = [51450; 45500; 44500; 43500]) by (vm_compute; reflexivity).
  cbn zeta. rewrite E.
  split; [vm_compute; reflexivity|]. split; [reflexivity|]. split.
  - cbn [compoundsOnRunning]. intros (_ & (e & Hlo & Hhi & H) & _).
    pose proof (Math_round_lower (51450 * ((98 # 100) + e))) as L.
    rewrite <- H in L. lra.
  - cbn [compoundsOnBase]. intros (_ & _ & _ & (e & Hlo & Hhi & H) & _).
    pose proof (Math_round_lower
                  (50000 * (1 * (98 # 100) * (98 # 100) * (98 # 100) * (98 # 100) + e)))
      as L.
    rewrite <- H in L. lra.
Qed.

(** C3, amended.  For every product name, in the arithmetic of doubles,
    the 4 prediction-only rows ("Sep" to "Dec") are all computed from
    the one last historical price [aug] (the "Aug" row; the price does
    not run on from one prediction to the next): the prediction of row
    [j] (from 0) is the rounding to an integer of a value within a
    millionth of [aug * (1 - 0.02 * (j + 1) + e)], a drift growing
    linearly by 2% of [aug] per step, with the perturbation [e] at
    least -5% and below +5%; these rows have no price field. *)
Theorem prediction_rows_drift_linearly (productName : string) (rnd : Rng) :
  unit_draws rnd ->
  exists hist aug p1 p2 p3 p4,
    Rounded.generatePriceData fl productName rnd =
      hist ++ [ forecastRow (Some "Sep"%string) p1; forecastRow (Some "Oct"%string) p2;
                forecastRow (Some "Nov"%string) p3; forecastRow (Some "Dec"%string) p4 ] /\
    length hist = 8%nat /\
    nth_error hist 7 = Some (PriceDataPoint.make (Some "Aug"%string) (Some aug) None) /\
    natural aug /\
    roundsNear p1 (driftTarget aug 0 (rnd 8%nat)) /\
    roundsNear p2 (driftTarget aug 1 (rnd 9%nat)) /\
    roundsNear p3 (driftTarget aug 2 (rnd 10%nat)) /\
    roundsNear p4 (driftTarget aug 3 (rnd 11%nat)) /\
    (forall j r, driftTarget aug j r =
                 aug * (1 - (2 # 100) * inject_Z (j + 1) + (r - (1 # 2)) * (1 # 10))) /\
    (forall k, - (5 # 100) <= (rnd k - (1 # 2)) * (1 # 10) /\
               (rnd k - (1 # 2)) * (1 # 10) < 5 # 100).
Proof.
  intros Hrnd. unfold Rounded.generatePriceData.
  destruct (basePrice_range productName) as (Hb & Hb0 & Hb1).
  assert (HW : grown (length historicalMonths) (basePrice productName + 10) <= 1048576).
  { apply Qle_trans with (grown (length historicalMonths) 80010).
    - apply grown_mono. lra.
    - vm_compute. discriminate. }
  destruct (rounded_historicalLoop_rows (tl historicalMonths) rnd 0
              (basePrice productName) (basePrice productName + 10) "Jan"
              Hrnd ltac:(lra) ltac:(lra) HW)
    as (init & aug & E & Hlen & Haug & Hbound).
  change ("Jan"%string :: tl historicalMonths) with historicalMonths in E.
  rewrite E. clear E.
  assert (Ha1 : aug <= 1048576).
  { change ("Jan"%string :: tl historicalMonths) with historicalMonths in Hbound. lra. }
  pose proof (natural_nonneg _ Haug) as Ha0.
  assert (Hnear : forall j k, (0 <= j <= 3)%Z ->
            roundsNear
              (Math_round
                 (Rounded.mul fl aug
                    (Rounded.add fl
                       (Rounded.add fl 1
                          (Rounded.mul fl (- Rounded.lit fl (2 # 100)) (inject_Z (j + 1))))
                       (Rounded.mul fl (Rounded.sub fl (rnd k) (Rounded.lit fl (5 # 10)))
                          (Rounded.lit fl (1 # 10))))))
              (driftTarget aug j (rnd k))).
  { intros j k Hj. destruct (Hrnd k) as [Hr0 Hr1].
    destruct (prediction_near aug (rnd k) j Ha0 Ha1 Hr0 Hr1 Hj) as (Hy0 & Hy1 & Hy2).
    split; [now apply Math_round_natural|].
    eexists. split; [reflexivity|]. split; assumption. }
  exists (init ++ [PriceDataPoint.make (Some "Aug"%string) (Some aug) None]), aug.
  do 4 eexists.
  split; [reflexivity|].
  split; [rewrite length_app, Hlen; reflexivity|].
  split.
  { rewrite nth_error_app2 by (rewrite Hlen; cbn; lia).
    rewrite Hlen. reflexivity. }
  split; [exact Haug|].
  split; [apply (Hnear 0%Z); lia|].
  split; [apply (Hnear (0 + 1)%Z); lia|].
  split; [apply (Hnear (0 + 1 + 1)%Z); lia|].
  split; [apply (Hnear (0 + 1 + 1 + 1)%Z); lia|].
  split; [reflexivity|].
  intros k. destruct (Hrnd k). now apply perturbation_bounds.
Qed.

Lemma prediction_rows_drift_linearly_witness :
  unit_draws (fun _ => 1 # 2) /\
  exists hist aug p1 p2 p3 p4,
    Rounded.generatePriceData fl "iPhone 15" (fun _ => 1 # 2) =
      hist ++ [ forecastRow (Some "Sep"%string) p1; forecastRow (Some "Oct"%string) p2;
                forecastRow (Some "Nov"%string) p3; forecastRow (Some "Dec"%string) p4 ] /\
    roundsNear p1 (driftTarget aug 0 (1 # 2)) /\
    roundsNear p4 (driftTarget aug 3 (1 # 2)).
Proof.
  assert (Hu : unit_draws (fun _ => 1 # 2))
    by (intros k; split; [unfold Qle | unfold Qlt]; simpl; lia).
  split; [exact Hu|].
  destruct (prediction_rows_drift_linearly "iPhone 15" (fun _ => 1 # 2) Hu)
    as (hist & aug & p1 & p2 & p3 & p4 & E & _ & _ & _ & N1 & _ & _ & N4 & _).
  exists hist, aug, p1, p2, p3, p4. split; [exact E|]. split; assumption.
Defined.

(** The rounding of doubles shows: for "camera" with all draws 0 the
    exact value of the "Nov" row is 4850.5, which rounds up to 4851;
    the doubles give a value just below it and the code shows 4850. *)
Example camera_november :
  predictions (Rounded.generatePriceData fl "camera" (fun _ => 0)) =
    [5069; 4960; 4850; 4742] /\
  predictions (generatePriceData "camera" (fun _ => 0)) =
    [5069; 4960; 4851; 4742].
Proof. split; vm_compute; reflexivity. Qed.

(** ** The drift of the projection in doubles *)

Lemma Math_abs_close (a b e : Q) :
  b - e <= a -> a <= b + e -> Math_abs b - e <= Math_abs a /\ Math_abs a <= Math_abs b + e.
Proof.
  intros H1 H2. unfold Math_abs.
  destruct (Qle_bool 0 a) eqn:Ea; destruct (Qle_bool 0 b) eqn:Eb.
  - split; lra.
  - apply Qle_bool_iff in Ea.
    assert (Hb : ~ 0 <= b) by (rewrite <- Qle_bool_iff, Eb; discriminate).
    split; lra.
  - apply Qle_bool_iff in Eb.
    assert (Ha : ~ 0 <= a) by (rewrite <- Qle_bool_iff, Ea; discriminate).
    split; lra.
  - split; lra.
Qed.

Lemma Math_abs_le (a b : Q) : - b <= a -> a <= b -> Math_abs a <= b.
Proof.
  intros H1 H2. unfold Math_abs. destruct (Qle_bool 0 a); lra.
Qed.

(** One round of the drift in doubles, from an average and an average
    step within [1/256] of the exact mean and mean step: the value
    rounded is within a hundredth of the exact one. *)
Lemma drift_near (mean meanStep avg avgStep r current : Q) :
  - (1099511627776) <= mean -> mean <= 1099511627776 ->
  - (1099511627776) <= meanStep -> meanStep <= 1099511627776 ->
  mean - (1 # 256) <= avg -> avg <= mean + (1 # 256) ->
  meanStep - (1 # 256) <= avgStep -> avgStep <= meanStep + (1 # 256) ->
  0 <= r -> r < 1 -> 0 <= current -> current <= 4398046511104 ->
  let y := Rounded.add fl
             (Rounded.add fl current (Rounded.mul fl avgStep (Rounded.lit fl (8 # 10))))
             (Rounded.mul fl
                (Rounded.mul fl (Rounded.sub fl r (Rounded.lit fl (5 # 10)))
                   (Math_abs avg))
                (Rounded.lit fl (2 # 100))) in
  driftValue mean meanStep r current - (1 # 100) <= y /\
  y <= driftValue mean meanStep r current + (1 # 100) /\
  Math_max 0 (Math_round y) <= current + 1099511627776.
Proof.
  intros Hm0 Hm1 Hs0 Hs1 A1 A2 S1 S2 Hr0 Hr1 Hc0 Hc1 y. subst y. unfold driftValue.
  destruct (Math_abs_close avg mean (1 # 256) A1 A2) as [M1 M2].
  pose proof (Math_abs_nonneg avg) as Ma0.
  pose proof (Math_abs_nonneg mean) as Mm0.
  pose proof (Math_abs_le mean 1099511627776 Hm0 Hm1) as Mm1.
  set (am := Math_abs mean) in *. set (aa := Math_abs avg) in *. clearbody am aa.
  clear A1 A2 Hm0 Hm1 avg mean.
  rewrite lit_5_10, lit_8_10, lit_2_100.
  unfold Rounded.mul, Rounded.add, Rounded.sub.
  pose proof (fl_within 1099511627776 (avgStep * (3602879701896397 # 4503599627370496))
                ltac:(lra) ltac:(lra) ltac:(lra)) as [B1 B2].
  set (a1 := fl (avgStep * (3602879701896397 # 4503599627370496))) in *. clearbody a1.
  pose proof (fl_within 8796093022208 (current + a1)
                ltac:(lra) ltac:(lra) ltac:(lra)) as [C1 C2].
  set (a2 := fl (current + a1)) in *. clearbody a2.
  assert (Ha2 : current + meanStep * (8 # 10) - (5 # 1000) <= a2 /\
                a2 <= current + meanStep * (8 # 10) + (5 # 1000)) by (split; lra).
  assert (Ha2' : - (1099511627776) <= a2 /\ a2 <= 5497558138880) by (split; lra).
  clear S1 S2 B1 B2 C1 C2 avgStep a1.
  pose proof (fl_within 1 (r - (1 # 2)) ltac:(lra) ltac:(lra) ltac:(lra)) as [U1 U2].
  set (u := fl (r - (1 # 2))) in *. clearbody u.
  set (x0 := r - (1 # 2)) in *.
  assert (Hx0 : - (1 # 2) <= x0 /\ x0 <= 1 # 2) by (subst x0; split; lra).
  clearbody x0. clear Hr0 Hr1 r.
  assert (Huv : x0 * am - (1 # 400) <= u * aa /\ u * aa <= x0 * am + (1 # 400)).
  { assert (D1 : - (1 # 4000) <= (u - x0) * aa /\ (u - x0) * aa <= 1 # 4000)
      by (split; nra).
    assert (D2 : - (1 # 500) <= x0 * (aa - am) /\ x0 * (aa - am) <= 1 # 500)
      by (split; nra).
    split; lra. }
  assert (Hxm : - (549755813888) <= x0 * am /\ x0 * am <= 549755813888)
    by (split; nra).
  set (xm := x0 * am) in *. set (uv := u * aa) in *. clearbody xm uv.
  clear U1 U2 M1 M2 Ma0 Mm0 Mm1 aa am u Hx0 x0.
  pose proof (fl_within 1099511627776 uv ltac:(lra) ltac:(lra) ltac:(lra)) as [V1 V2].
  set (v := fl uv) in *. clearbody v.
  pose proof (fl_within 1099511627776 (v * (5764607523034235 # 288230376151711744))
                ltac:(lra) ltac:(lra) ltac:(lra)) as [W1 W2].
  set (w := fl (v * (5764607523034235 # 288230376151711744))) in *. clearbody w.
  pose proof (fl_within 8796093022208 (a2 + w) ltac:(lra) ltac:(lra) ltac:(lra)) as [Y1 Y2].
  set (y := fl (a2 + w)) in *. clearbody y.
  split; [lra|]. split; [lra|].
  apply Math_max0_le; [lra|].
  pose proof (Math_round_upper y). lra.
Qed.

(** Two numbers, the first within [2^-13] of the second, which is of
    magnitude at most [2^40]. *)
Lemma closeTo_refl (x : Q) : 0 <= x -> x <= 1099511627776 -> closeTo x x.
Proof. intros H0 H1. unfold closeTo. repeat split; lra. Qed.

(** The sum of at most 8 such numbers in doubles is within [1/400] per
    element of the exact sum. *)
Lemma rounded_sum_close (xs xs' : list Q) :
  Forall2 closeTo xs xs' ->
  forall (acc acc' A E : Q),
    let len := inject_Z (Z.of_nat (length xs')) in
    acc' - E <= acc -> acc <= acc' + E -> - A <= acc' -> acc' <= A ->
    0 <= E -> 0 <= A ->
    A + len * 1099511627776 <= 8796093022208 -> E + len * (1 # 400) <= 1 ->
    fold_left Qplus xs' acc' - (E + len * (1 # 400)) <= fold_left (Rounded.add fl) xs acc /\
    fold_left (Rounded.add fl) xs acc <= fold_left Qplus xs' acc' + (E + len * (1 # 400)) /\
    - (A + len * 1099511627776) <= fold_left Qplus xs' acc' /\
    fold_left Qplus xs' acc' <= A + len * 1099511627776.
Proof.
  induction 1 as [|x x' r r' Hx Hr IH]; intros acc acc' A E len H1 H2 H3 H4 HE HA HB HT.
  - subst len. cbn [fold_left length Z.of_nat] in *.
    change (inject_Z 0) with 0 in *. repeat split; lra.
  - cbn [fold_left].
    assert (El : len == inject_Z (Z.of_nat (length r')) + 1).
    { subst len. cbn [length]. rewrite Nat2Z.inj_succ. unfold Z.succ.
      rewrite inject_Z_plus. reflexivity. }
    assert (Hl : 0 <= inject_Z (Z.of_nat (length r'))).
    { change 0 with (inject_Z 0). rewrite <- Zle_Qle. lia. }
    clearbody len. set (l := inject_Z (Z.of_nat (length r'))) in *.
    destruct Hx as (X1 & X2 & X3 & X4).
    pose proof (fl_within 17592186044416 (acc + x) ltac:(lra) ltac:(lra) ltac:(lra))
      as [F1 F2].
    specialize (IH (Rounded.add fl acc x) (acc' + x') (A + 1099511627776) (E + (1 # 400))).
    cbn zeta in IH. fold l in IH. unfold Rounded.add in *.
    set (s := fold_left (fun x y => fl (x + y)) r (fl (acc + x))) in *.
    set (s' := fold_left Qplus r' (acc' + x')) in *.
    set (a1 := fl (acc + x)) in *.
    clearbody l s s' a1.
    destruct (IH ltac:(lra) ltac:(lra) ltac:(lra) ltac:(lra) ltac:(lra) ltac:(lra)
                 ltac:(lra) ltac:(lra)) as (I1 & I2 & I3 & I4).
    repeat split; lra.
Qed.

(** The differences of prices between 0 and [2^40]. *)
Lemma rounded_stepsAfter_close (prices : list Q) :
  forall prev,
    0 <= prev -> prev <= 1099511627776 ->
    Forall (fun p => 0 <= p /\ p <= 1099511627776) prices ->
    Forall2 closeTo (Rounded.stepsAfter fl prev prices) (stepsAfter prev prices).
Proof.
  induction prices as [|p rest IH]; intros prev H0 H1 Hps;
    cbn [Rounded.stepsAfter stepsAfter]; [constructor|].
  apply Forall_cons_iff in Hps. destruct Hps as [[Hp0 Hp1] Hrest].
  constructor; [|now apply IH].
  unfold closeTo, Rounded.sub.
  pose proof (fl_within 1099511627776 (p - prev) ltac:(lra) ltac:(lra) ltac:(lra))
    as [F1 F2].
  repeat split; lra.
Qed.

Lemma Forall2_closeTo_refl (xs : list Q) :
  Forall (fun p => 0 <= p /\ p <= 1099511627776) xs -> Forall2 closeTo xs xs.
Proof.
  induction 1 as [|x r [H0 H1] _ IH]; constructor; [now apply closeTo_refl | exact IH].
Qed.

(** The quotient by a length of two sums that differ by at most [e] per
    element. *)
Lemma quotient_close (s s' e b : Q) (n : nat) :
  (0 < n)%nat ->
  let len := inject_Z (Z.of_nat n) in
  s' - len * e <= s -> s <= s' + len * e ->
  - (len * b) <= s' -> s' <= len * b ->
  s' / len - e <= s / len /\ s / len <= s' / len + e /\
  - b <= s' / len /\ s' / len <= b.
Proof.
  intros Hn len H1 H2 H3 H4.
  assert (Hpos : 0 < len).
  { subst len. change 0 with (inject_Z 0). rewrite <- Zlt_Qlt. lia. }
  clearbody len.
  assert (Eq : len * (s / len) == s) by (apply Qmult_div_r; lra).
  assert (Eq' : len * (s' / len) == s') by (apply Qmult_div_r; lra).
  set (q := s / len) in *. set (q' := s' / len) in *. clearbody q q'.
  repeat split.
  - apply Qnot_lt_le. intros C.
    assert (q * len < (q' - e) * len) by (apply Qmult_lt_compat_r; assumption). lra.
  - apply Qnot_lt_le. intros C.
    assert ((q' + e) * len < q * len) by (apply Qmult_lt_compat_r; assumption). lra.
  - apply Qnot_lt_le. intros C.
    assert (q' * len < (- b) * len) by (apply Qmult_lt_compat_r; assumption). lra.
  - apply Qnot_lt_le. intros C.
    assert (b * len < q' * len) by (apply Qmult_lt_compat_r; assumption). lra.
Qed.

Lemma rounded_forecastStep_negative_target target avg avgStep rnd k i current :
  target < 0 ->
  Rounded.forecastStep fl (Some target) avg avgStep rnd k i current =
  Rounded.forecastStep fl None avg avgStep rnd k i current.
Proof.
  intros Ht. unfold Rounded.forecastStep.
  destruct (Qle_bool 0 target) eqn:E; [|reflexivity].
  apply Qle_bool_iff in E. lra.
Qed.

Lemma rounded_forecastLoop_negative_target target fuel :
  target < 0 ->
  forall i cli avg avgStep rnd k current,
    Rounded.forecastLoop fl fuel i cli (Some target) avg avgStep rnd k current =
    Rounded.forecastLoop fl fuel i cli None avg avgStep rnd k current.
Proof.
  intros Ht. induction fuel as [|fuel IH]; intros; cbn [Rounded.forecastLoop];
    [reflexivity|].
  rewrite rounded_forecastStep_negative_target by assumption.
  destruct (_ && _)%bool; [|reflexivity].
  destruct (Rounded.forecastStep fl None avg avgStep rnd k i current) as [c' k'].
  now rewrite IH.
Qed.

(** Without a target the loop makes three rounds of the drift, each on
    a draw of its own. *)
Lemma rounded_forecastLoop_drift (cli : Z) (avg avgStep : Q) (rnd : Rng)
    (k : nat) (c0 : Q) :
  (cli + 3 < 12)%Z ->
  Rounded.forecastLoop fl 3 1 cli None avg avgStep rnd k c0 =
  let c1 := driftStep avg avgStep rnd k c0 in
  let c2 := driftStep avg avgStep rnd (S k) c1 in
  let c3 := driftStep avg avgStep rnd (S (S k)) c2 in
  [ forecastRow (monthAt (cli + 1)) c1;
    forecastRow (monthAt (cli + 2)) c2;
    forecastRow (monthAt (cli + 3)) c3 ].
Proof.
  intros Hcli. cbn [Rounded.forecastLoop].
  unfold driftStep, Rounded.forecastStep.
  change (Z.of_nat (length months)) with 12%Z.
  change (1 + 1 + 1)%Z with 3%Z. change (1 + 1)%Z with 2%Z.
  replace (cli + 1 <? 12)%Z with true by (symmetry; apply Z.ltb_lt; lia).
  replace (cli + 2 <? 12)%Z with true by (symmetry; apply Z.ltb_lt; lia).
  replace (cli + 3 <? 12)%Z with true by (symmetry; apply Z.ltb_lt; lia).
  cbn [Z.leb Z.compare Pos.compare Pos.compare_cont andb fst].
  reflexivity.
Qed.

Lemma driftStep_natural avg avgStep rnd k current :
  natural (driftStep avg avgStep rnd k current).
Proof. apply clamp_round_natural. Qed.

(** The average and the average step of at most 8 prices between 0 and
    [2^40], computed in doubles, are within [1/256] of the exact mean
    and mean step. *)
Lemma rounded_averages_close (prices : list Q) :
  (1 <= length prices <= 8)%nat ->
  Forall (fun p => 0 <= p /\ p <= 1099511627776) prices ->
  let len := inject_Z (Z.of_nat (length prices)) in
  let avg := Rounded.div fl (Rounded.sum fl prices) len in
  let mean := sum prices / len in
  let diffs := tl (Rounded.firstDifferences fl prices) in
  let steps := tl (firstDifferences prices) in
  let avgStep :=
    match diffs with
    | [] => 0
    | _ => Rounded.div fl (Rounded.sum fl diffs) (inject_Z (Z.of_nat (length diffs)))
    end in
  let meanStep :=
    match steps with
    | [] => 0
    | _ => sum steps / inject_Z (Z.of_nat (length steps))
    end in
  (- (1099511627776) <= mean /\ mean <= 1099511627776) /\
  (mean - (1 # 256) <= avg /\ avg <= mean + (1 # 256)) /\
  (- (1099511627776) <= meanStep /\ meanStep <= 1099511627776) /\
  (meanStep - (1 # 256) <= avgStep /\ avgStep <= meanStep + (1 # 256)).
Proof.
  intros Hlen Hps len avg mean diffs steps avgStep meanStep.
  assert (Hq : forall (xs xs' : list Q),
            Forall2 closeTo xs xs' -> (1 <= length xs' <= 8)%nat ->
            let n := inject_Z (Z.of_nat (length xs')) in
            (- (1099511627776) <= sum xs' / n /\ sum xs' / n <= 1099511627776) /\
            (sum xs' / n - (1 # 256) <= Rounded.div fl (Rounded.sum fl xs) n /\
             Rounded.div fl (Rounded.sum fl xs) n <= sum xs' / n + (1 # 256))).
  { intros xs xs' Hc Hl n.
    assert (Hn : 1 <= n /\ n <= 8).
    { subst n. change 1 with (inject_Z 1). change 8 with (inject_Z 8).
      rewrite <- !Zle_Qle. lia. }
    destruct (rounded_sum_close xs xs' Hc 0 0 0 0) as (S1 & S2 & S3 & S4);
      try (fold n; lra).
    fold n in S1, S2, S3, S4. unfold Rounded.sum, sum, Rounded.div.
    set (s := fold_left (Rounded.add fl) xs 0) in *.
    set (s' := fold_left Qplus xs' 0) in *.
    destruct (quotient_close s s' (1 # 400) 1099511627776 (length xs') ltac:(lia))
      as (Q1 & Q2 & Q3 & Q4); try (fold n; lra).
    fold n in Q1, Q2, Q3, Q4.
    set (q := s / n) in *. set (q' := s' / n) in *. clearbody q q'.
    pose proof (fl_within 2199023255552 q ltac:(lra) ltac:(lra) ltac:(lra)) as [F1 F2].
    split; split; lra. }
  destruct (Hq prices prices (Forall2_closeTo_refl _ Hps) Hlen) as [Hmean Havg].
  split; [exact Hmean|]. split; [exact Havg|].
  destruct prices as [|p rest]; [cbn in Hlen; lia|].
  apply Forall_cons_iff in Hps. destruct Hps as [[Hp0 Hp1] Hrest].
  pose proof (rounded_stepsAfter_close rest p Hp0 Hp1 Hrest) as Hc.
  subst avgStep meanStep diffs steps.
  cbn [Rounded.firstDifferences firstDifferences tl].
  pose proof (Forall2_length Hc) as Hl.
  destruct (stepsAfter p rest) as [|d' ds'] eqn:E';
    destruct (Rounded.stepsAfter fl p rest) as [|d ds] eqn:E; try discriminate.
  - split; split; lra.
  - rewrite Hl. apply (Hq (d :: ds) (d' :: ds') Hc).
    assert (length (stepsAfter p rest) = length rest).
    { clear. revert p. induction rest as [|x r IH]; intros p; cbn; [reflexivity|].
      now rewrite IH. }
    rewrite E' in H. cbn [length] in Hlen, H |- *. lia.
Qed.

(** C10.  A negative target is as good as none.  In the arithmetic of
    doubles, for every series, every draw sequence and every target
    below 0 the projection is the one computed without a target.  For
    a series that is not empty it is the rows of the last 8 points
    followed by three forecast rows on the next three months; each
    forecast value comes from the one before it (the first, from the
    last price) by the drift step of line 144, on the draws 0, 1 and 2
    and with the average and the average step of the last 8 prices;
    the values are non-negative integers, none of them the target.
    Where the draws are in [0, 1) and the last 8 prices lie between 0
    and [2^40], the drift step is the damped average step with jitter
    of exact arithmetic up to rounding: each value is the clamped
    rounding of a value within a hundredth of
    [current + meanStep * 0.8 + (draw - 0.5) * |mean| * 0.02], with the
    exact mean and mean first difference of those prices. *)
Theorem projection_ignores_negative_target
    (history : list PricePoint.t) (target : Q) (rnd : Rng) :
  target < 0 ->
  let recent := slice_last 8 history in
  let prices := map PricePoint.price recent in
  let avg := Rounded.div fl (Rounded.sum fl prices)
               (inject_Z (Z.of_nat (length prices))) in
  let diffs := tl (Rounded.firstDifferences fl prices) in
  let avgStep :=
    match diffs with
    | [] => 0
    | _ => Rounded.div fl (Rounded.sum fl diffs) (inject_Z (Z.of_nat (length diffs)))
    end in
  let mean := sum prices / inject_Z (Z.of_nat (length prices)) in
  let steps := tl (firstDifferences prices) in
  let meanStep :=
    match steps with
    | [] => 0
    | _ => sum steps / inject_Z (Z.of_nat (length steps))
    end in
  let c0 := PricePoint.price (last history (PricePoint.make EmptyString 0)) in
  let n := Z.of_nat (length recent) in
  Rounded.projectFromHistory fl history (Some target) rnd =
    Rounded.projectFromHistory fl history None rnd /\
  (history <> [] ->
   exists c1 c2 c3,
     Rounded.projectFromHistory fl history (Some target) rnd =
       labelHistorical recent 0
       ++ [ forecastRow (monthAt n) c1; forecastRow (monthAt (n + 1)) c2;
            forecastRow (monthAt (n + 2)) c3 ] /\
     c1 = driftStep avg avgStep rnd 0 c0 /\
     c2 = driftStep avg avgStep rnd 1 c1 /\
     c3 = driftStep avg avgStep rnd 2 c2 /\
     natural c1 /\ natural c2 /\ natural c3 /\
     ~ c1 == target /\ ~ c2 == target /\ ~ c3 == target /\
     (unit_draws rnd ->
      Forall (fun p => 0 <= PricePoint.price p /\ PricePoint.price p <= bound40) recent ->
      followsDrift mean meanStep (rnd 0%nat) c0 c1 /\
      followsDrift mean meanStep (rnd 1%nat) c1 c2 /\
      followsDrift mean meanStep (rnd 2%nat) c2 c3)) /\
  (forall a s k current,
     driftStep a s rnd k current =
     Math_max 0
       (Math_round
          (Rounded.add fl
             (Rounded.add fl current (Rounded.mul fl s (Rounded.lit fl (8 # 10))))
             (Rounded.mul fl
                (Rounded.mul fl (Rounded.sub fl (rnd k) (Rounded.lit fl (5 # 10)))
                   (Math_abs a))
                (Rounded.lit fl (2 # 100)))))).
Proof.
  intros Ht recent prices avg diffs avgStep mean steps meanStep c0 n.
  assert (Heq : Rounded.projectFromHistory fl history (Some target) rnd =
                Rounded.projectFromHistory fl history None rnd).
  { unfold Rounded.projectFromHistory, Rounded.projectRecent.
    destruct history as [|p rest]; [reflexivity|].
    now rewrite rounded_forecastLoop_negative_target. }
  split; [exact Heq|]. split; [|reflexivity].
  intros Hne. rewrite Heq.
  destruct (snoc_cases history) as [E | (init & x & E)]; [contradiction|].
  subst history. unfold c0. rewrite last_last. clear c0.
  destruct (rounded_projection_shape init x None rnd) as (Hlen & _ & Hp).
  rewrite Hp. clear Hp Heq.
  fold recent. fold prices. fold avg. fold diffs. fold avgStep.
  fold recent in Hlen. fold n.
  rewrite rounded_forecastLoop_drift by lia. cbn zeta.
  replace (n - 1 + 1)%Z with n by lia.
  replace (n - 1 + 2)%Z with (n + 1)%Z by lia.
  replace (n - 1 + 3)%Z with (n + 2)%Z by lia.
  set (c1 := driftStep avg avgStep rnd 0 (PricePoint.price x)).
  set (c2 := driftStep avg avgStep rnd 1 c1).
  set (c3 := driftStep avg avgStep rnd 2 c2).
  pose proof (driftStep_natural avg avgStep rnd 0 (PricePoint.price x)) as N1.
  pose proof (driftStep_natural avg avgStep rnd 1 c1) as N2.
  pose proof (driftStep_natural avg avgStep rnd 2 c2) as N3.
  fold c1 in N1. fold c2 in N2. fold c3 in N3.
  exists c1, c2, c3.
  split; [reflexivity|].
  split; [reflexivity|]. split; [reflexivity|]. split; [reflexivity|].
  split; [exact N1|]. split; [exact N2|]. split; [exact N3|].
  pose proof (natural_nonneg _ N1) as P1. pose proof (natural_nonneg _ N2) as P2.
  pose proof (natural_nonneg _ N3) as P3.
  split; [lra|]. split; [lra|]. split; [lra|].
  intros Hrnd Hbounded.
  assert (Hps : Forall (fun p => 0 <= p /\ p <= 1099511627776) prices).
  { unfold prices. apply Forall_map. exact Hbounded. }
  assert (Hlp : (1 <= length prices <= 8)%nat) by (unfold prices; now rewrite length_map).
  destruct (rounded_averages_close prices Hlp Hps)
    as ((M0 & M1) & (A1 & A2) & (T0 & T1) & (S1 & S2)).
  fold avg in A1, A2. fold diffs in S1, S2. fold avgStep in S1, S2.
  fold steps in T0, T1, S1, S2. fold mean in M0, M1, A1, A2.
  fold meanStep in T0, T1, S1, S2.
  assert (Hx : 0 <= PricePoint.price x /\ PricePoint.price x <= 1099511627776).
  { rewrite Forall_forall in Hbounded. apply Hbounded.
    unfold recent. rewrite slice_last_snoc by lia. apply in_or_app. right. now left. }
  destruct Hx as [Hx0 Hx1].
  destruct (Hrnd 0%nat) as [R00 R01]. destruct (Hrnd 1%nat) as [R10 R11].
  destruct (Hrnd 2%nat) as [R20 R21].
  destruct (drift_near mean meanStep avg avgStep (rnd 0%nat) (PricePoint.price x)
              M0 M1 T0 T1 A1 A2 S1 S2 R00 R01 Hx0 ltac:(lra)) as (D11 & D12 & D13).
  cbn zeta in D11, D12, D13.
  assert (B1 : c1 <= 2199023255552) by (unfold c1, driftStep, Rounded.forecastStep, fst; lra).
  destruct (drift_near mean meanStep avg avgStep (rnd 1%nat) c1
              M0 M1 T0 T1 A1 A2 S1 S2 R10 R11 P1 ltac:(lra)) as (D21 & D22 & D23).
  cbn zeta in D21, D22, D23.
  assert (B2 : c2 <= 3298534883328) by (unfold c2, driftStep, Rounded.forecastStep, fst; lra).
  destruct (drift_near mean meanStep avg avgStep (rnd 2%nat) c2
              M0 M1 T0 T1 A1 A2 S1 S2 R20 R21 P2 ltac:(lra)) as (D31 & D32 & _).
  cbn zeta in D31, D32.
  split; [|split]; eexists; (split; [reflexivity|]); split; assumption.
Qed.

Lemma projection_ignores_negative_target_witness :
  (- (5) < 0) /\
  let history := [PricePoint.make "2024-01-01" 1000;
                  PricePoint.make "2024-01-08" 1050] in
  Rounded.projectFromHistory fl history (Some (- (5))) (fun _ => 1 # 2) =
  Rounded.projectFromHistory fl history None (fun _ => 1 # 2) /\
  Rounded.projectFromHistory fl history None (fun _ => 1 # 2) =
    [ PriceDataPoint.make (Some "Jan"%string) (Some 1000) None;
      PriceDataPoint.make (Some "Feb"%string) (Some 1050) None;
      forecastRow (Some "Mar"%string) 1090; forecastRow (Some "Apr"%string) 1130;
      forecastRow (Some "May"%string) 1170 ].
Proof.
  assert (Ht : - (5) < 0) by (unfold Qlt; simpl; lia).
  split; [exact Ht|]. cbn zeta. split.
  - apply (projection_ignores_negative_target
             [PricePoint.make "2024-01-01" 1000; PricePoint.make "2024-01-08" 1050]
             (- (5)) (fun _ => 1 # 2) Ht).
  - vm_compute. reflexivity.
Defined.

(** ** Sample runs *)

Example toOffers_sample :
  toOffers [SerpProduct.make "Phone X" "Rs 89,999.50" (Some "call us"%string)
              (Some (45 # 10)) None None "" "amazon" ""] =
  [Offer.make "amazon" 90000 None Trend.stable 0 "In Stock" (Some (45 # 10)) "A"
     "Phone X" "https://example.com"].
Proof. reflexivity. Qed.

Example platformPrices_sample :
  map PlatformPrice.platform
    (Dashboard.platformPrices (fun s => s) None "Phone" true (fun _ => 1 # 2)) =
    ["Amazon"; "Flipkart"; "Croma"; "Reliance Digital"; "Vijay Sales"; "Tata Cliq"]%string /\
  map PlatformPrice.productUrl
    (Dashboard.platformPrices (fun s => s) (Some []) "" false (fun _ => 1 # 2)) =
    ["https://www.amazon.in/s?k=MacBook Air M3";
     "https://www.flipkart.com/search?q=MacBook Air M3";
     "https://www.croma.com/search?q=MacBook Air M3";
     "https://www.reliancedigital.in/search?q=MacBook Air M3";
     "https://www.vijaysales.com/search.aspx?q=MacBook Air M3";
     "https://www.tatacliq.com/search?searchText=MacBook Air M3"]%string.
Proof. split; reflexivity. Qed.

Example platformCard_sample :
  Dashboard.platformCard (fun s => s) "novel" 500 (fun k => if (k =? 2)%nat then 7 # 10 else 1 # 2)
    0 (Platform.make "Amazon" "A" "https://www.amazon.in/s?k=" true) =
  PlatformPrice.make "Amazon" 500 (Some 538) Trend.down (- (Math_round ((1 # 2) * 8) + 1))
    "In Stock" (Some (Math_round (((1 # 2) * (15 # 10) + (35 # 10)) * 10) / 10)) "A" "novel"
    "https://www.amazon.in/s?k=novel".
Proof. reflexivity. Qed.

Example predictPrice_sample :
  PricePrediction.prediction (SerpApiService.predictPrice "Phone" 1000 (fun _ => 1 # 2))
    = Some Direction.fall.
Proof. reflexivity. Qed.
